(** * AI-Powered Weather Assistant: [script.js], verified

    The server has two routes.  [GET /api/weather] turns a city name into a
    normalized weather summary (geocoding, then current conditions and a
    forecast), memoised for five minutes in a process-wide [Map].
    [POST /api/ai-advice] turns such a summary into a few short tips, from a
    text-generation service or from a local rule engine.

    The development is a shallow embedding.

    - The first modules model the JavaScript runtime the handlers lean on:
      strings as the bytes of their UTF-8 encoding, numbers as binary64
      floats, the values [JSON.parse] builds, and the coercions
      ([ToString], [ToNumber], truthiness, property reads).
    - The modules [Cache], [Weather] and [Advice] transcribe the cache, the
      two handlers and the rule engine.  A handler takes what Express
      hands it ([req.query.city], [req.body]) as a value.  A thrown
      exception is [None]; the process state (the cache, and a log of the
      upstream calls made) is passed along; the upstream services are
      functions from a call to what comes back; the clock is the times
      [Date.now()] returns, given as arguments.
    - The module [Startup] reads the configuration from the environment,
      and the module [Client] transcribes the script of the page: one
      [run] at a time, from the text typed to the page once the run is
      over, the server being a function from a request to what comes
      back.
    - Then come the vocabulary of the properties, sample inputs, and the
      properties with their proofs. *)

From Stdlib Require Import ZArith List String Ascii Bool Lia Sorting.Sorted.
From Stdlib Require Import Floats.PrimFloat Floats.SpecFloat Floats.FloatOps.
From stdpp Require Import base option gmap strings.

Set Warnings "-register-all".
Open Scope Z_scope.

(* ===================================================================== *)
(** * Strings *)
(* ===================================================================== *)

(** A JavaScript string is held as the bytes of its UTF-8 encoding. *)
Module Str.

(** Bytes by their codes. *)
Definition chr (n : nat) : ascii := ascii_of_nat n.
Definition code (c : ascii) : Z := Z.of_nat (nat_of_ascii c).
Definition bytes (l : list nat) : list ascii := map chr l.

(** A string and the list of its bytes. *)
Definition of_list : list ascii -> string := string_of_list_ascii.
Definition to_list : string -> list ascii := list_ascii_of_string.

(** The text of a line feed. *)
Definition newline : string := String (chr 10) EmptyString.

(** [!s], for a string. *)
Definition is_empty (s : string) : bool :=
  match s with EmptyString => true | String _ _ => false end.

(** [WhiteSpace] and [LineTerminator] of ECMA-262, as UTF-8 sequences:
    TAB, LF, VT, FF, CR, SP, U+00A0, U+1680, U+2000..U+200A, U+2028,
    U+2029, U+202F, U+205F, U+3000, U+FEFF. *)
Definition white_space : list (list ascii) :=
  map bytes
    ([ [9%nat]; [10%nat]; [11%nat]; [12%nat]; [13%nat]; [32%nat];
       [194; 160]%nat; [225; 154; 128]%nat ]
     ++ map (fun k => [226; 128; k]%nat)
            [128; 129; 130; 131; 132; 133; 134; 135; 136; 137; 138;
             168; 169; 175]%nat
     ++ [ [226; 129; 159]%nat; [227; 128; 128]%nat; [239; 187; 191]%nat ]).

(** [l] without its prefix [p], when it has it. *)
Fixpoint strip_prefix (p l : list ascii) : option (list ascii) :=
  match p, l with
  | [], _ => Some l
  | a :: p', b :: l' => if Ascii.eqb a b then strip_prefix p' l' else None
  | _ :: _, [] => None
  end.

(** [l] without the first of [ps] it begins with. *)
Fixpoint strip_any (ps : list (list ascii)) (l : list ascii)
  : option (list ascii) :=
  match ps with
  | [] => None
  | p :: ps' =>
      match strip_prefix p l with
      | Some r => Some r
      | None => strip_any ps' l
      end
  end.

(** [l] without the sequences of [ws] it begins with; [fuel] bounds their
    number, the length of [l] is enough. *)
Fixpoint drop_ws (ws : list (list ascii)) (fuel : nat) (l : list ascii)
  : list ascii :=
  match fuel with
  | O => l
  | S n => match strip_any ws l with
           | Some r => drop_ws ws n r
           | None => l
           end
  end.

(** [String.prototype.trimStart], on bytes. *)
Definition trimStart_list (l : list ascii) : list ascii :=
  drop_ws white_space (List.length l) l.

(** The same from the end: the reversed text against reversed sequences. *)
Definition trimEnd_list (l : list ascii) : list ascii :=
  rev (drop_ws (map (@rev ascii) white_space) (List.length l) (rev l)).

(** [String.prototype.trim] *)
Definition trim (s : string) : string :=
  of_list (trimEnd_list (trimStart_list (to_list s))).

(** ** The lower case

    [String.prototype.toLowerCase] is the default case conversion of the
    Unicode Standard: every code point goes to its lower-case mapping, the
    capital sigma to the final sigma where it ends a word.  The tables are
    those of the Unicode Character Database, version 14.0. *)

(** The lower-case mappings to one code point, as runs
    [(first, last, step, shift)]: the code points [first], [first + step],
    ..., [last] go to themselves plus [shift]. *)
Definition lower_runs : list (Z * Z * Z * Z) :=
  [
    (65, 90, 1, 32); (192, 214, 1, 32); (216, 222, 1, 32); (256, 302, 2, 1);
    (306, 310, 2, 1); (313, 327, 2, 1); (330, 374, 2, 1);
    (376, 376, 1, (-121)); (377, 381, 2, 1); (385, 385, 1, 210);
    (386, 388, 2, 1); (390, 390, 1, 206); (391, 391, 1, 1);
    (393, 394, 1, 205); (395, 395, 1, 1); (398, 398, 1, 79);
    (399, 399, 1, 202); (400, 400, 1, 203); (401, 401, 1, 1);
    (403, 403, 1, 205); (404, 404, 1, 207); (406, 406, 1, 211);
    (407, 407, 1, 209); (408, 408, 1, 1); (412, 412, 1, 211);
    (413, 413, 1, 213); (415, 415, 1, 214); (416, 420, 2, 1);
    (422, 422, 1, 218); (423, 423, 1, 1); (425, 425, 1, 218);
    (428, 428, 1, 1); (430, 430, 1, 218); (431, 431, 1, 1);
    (433, 434, 1, 217); (435, 437, 2, 1); (439, 439, 1, 219);
    (440, 440, 1, 1); (444, 444, 1, 1); (452, 452, 1, 2); (453, 453, 1, 1);
    (455, 455, 1, 2); (456, 456, 1, 1); (458, 458, 1, 2); (459, 475, 2, 1);
    (478, 494, 2, 1); (497, 497, 1, 2); (498, 500, 2, 1);
    (502, 502, 1, (-97)); (503, 503, 1, (-56)); (504, 542, 2, 1);
    (544, 544, 1, (-130)); (546, 562, 2, 1); (570, 570, 1, 10795);
    (571, 571, 1, 1); (573, 573, 1, (-163)); (574, 574, 1, 10792);
    (577, 577, 1, 1); (579, 579, 1, (-195)); (580, 580, 1, 69);
    (581, 581, 1, 71); (582, 590, 2, 1); (880, 882, 2, 1); (886, 886, 1, 1);
    (895, 895, 1, 116); (902, 902, 1, 38); (904, 906, 1, 37);
    (908, 908, 1, 64); (910, 911, 1, 63); (913, 929, 1, 32);
    (931, 939, 1, 32); (975, 975, 1, 8); (984, 1006, 2, 1);
    (1012, 1012, 1, (-60)); (1015, 1015, 1, 1); (1017, 1017, 1, (-7));
    (1018, 1018, 1, 1); (1021, 1023, 1, (-130)); (1024, 1039, 1, 80);
    (1040, 1071, 1, 32); (1120, 1152, 2, 1); (1162, 1214, 2, 1);
    (1216, 1216, 1, 15); (1217, 1229, 2, 1); (1232, 1326, 2, 1);
    (1329, 1366, 1, 48); (4256, 4293, 1, 7264); (4295, 4295, 1, 7264);
    (4301, 4301, 1, 7264); (5024, 5103, 1, 38864); (5104, 5109, 1, 8);
    (7312, 7354, 1, (-3008)); (7357, 7359, 1, (-3008)); (7680, 7828, 2, 1);
    (7838, 7838, 1, (-7615)); (7840, 7934, 2, 1); (7944, 7951, 1, (-8));
    (7960, 7965, 1, (-8)); (7976, 7983, 1, (-8)); (7992, 7999, 1, (-8));
    (8008, 8013, 1, (-8)); (8025, 8031, 2, (-8)); (8040, 8047, 1, (-8));
    (8072, 8079, 1, (-8)); (8088, 8095, 1, (-8)); (8104, 8111, 1, (-8));
    (8120, 8121, 1, (-8)); (8122, 8123, 1, (-74)); (8124, 8124, 1, (-9));
    (8136, 8139, 1, (-86)); (8140, 8140, 1, (-9)); (8152, 8153, 1, (-8));
    (8154, 8155, 1, (-100)); (8168, 8169, 1, (-8)); (8170, 8171, 1, (-112));
    (8172, 8172, 1, (-7)); (8184, 8185, 1, (-128)); (8186, 8187, 1, (-126));
    (8188, 8188, 1, (-9)); (8486, 8486, 1, (-7517)); (8490, 8490, 1, (-8383));
    (8491, 8491, 1, (-8262)); (8498, 8498, 1, 28); (8544, 8559, 1, 16);
    (8579, 8579, 1, 1); (9398, 9423, 1, 26); (11264, 11311, 1, 48);
    (11360, 11360, 1, 1); (11362, 11362, 1, (-10743));
    (11363, 11363, 1, (-3814)); (11364, 11364, 1, (-10727));
    (11367, 11371, 2, 1); (11373, 11373, 1, (-10780));
    (11374, 11374, 1, (-10749)); (11375, 11375, 1, (-10783));
    (11376, 11376, 1, (-10782)); (11378, 11378, 1, 1); (11381, 11381, 1, 1);
    (11390, 11391, 1, (-10815)); (11392, 11490, 2, 1); (11499, 11501, 2, 1);
    (11506, 11506, 1, 1); (42560, 42604, 2, 1); (42624, 42650, 2, 1);
    (42786, 42798, 2, 1); (42802, 42862, 2, 1); (42873, 42875, 2, 1);
    (42877, 42877, 1, (-35332)); (42878, 42886, 2, 1); (42891, 42891, 1, 1);
    (42893, 42893, 1, (-42280)); (42896, 42898, 2, 1); (42902, 42920, 2, 1);
    (42922, 42922, 1, (-42308)); (42923, 42923, 1, (-42319));
    (42924, 42924, 1, (-42315)); (42925, 42925, 1, (-42305));
    (42926, 42926, 1, (-42308)); (42928, 42928, 1, (-42258));
    (42929, 42929, 1, (-42282)); (42930, 42930, 1, (-42261));
    (42931, 42931, 1, 928); (42932, 42946, 2, 1); (42948, 42948, 1, (-48));
    (42949, 42949, 1, (-42307)); (42950, 42950, 1, (-35384));
    (42951, 42953, 2, 1); (42960, 42960, 1, 1); (42966, 42968, 2, 1);
    (42997, 42997, 1, 1); (65313, 65338, 1, 32); (66560, 66599, 1, 40);
    (66736, 66771, 1, 40); (66928, 66938, 1, 39); (66940, 66954, 1, 39);
    (66956, 66962, 1, 39); (66964, 66965, 1, 39); (68736, 68786, 1, 64);
    (71840, 71871, 1, 32); (93760, 93791, 1, 32); (125184, 125217, 1, 34)
  ].

(** The code points with the property Case_Ignorable, as ranges. *)
Definition case_ignorable : list (Z * Z) :=
  [
    (39, 39); (46, 46); (58, 58); (94, 94); (96, 96); (168, 168); (173, 173);
    (175, 175); (180, 180); (183, 184); (688, 879); (884, 885); (890, 890);
    (900, 901); (903, 903); (1155, 1161); (1369, 1369); (1375, 1375);
    (1425, 1469); (1471, 1471); (1473, 1474); (1476, 1477); (1479, 1479);
    (1524, 1524); (1536, 1541); (1552, 1562); (1564, 1564); (1600, 1600);
    (1611, 1631); (1648, 1648); (1750, 1757); (1759, 1768); (1770, 1773);
    (1807, 1807); (1809, 1809); (1840, 1866); (1958, 1968); (2027, 2037);
    (2042, 2042); (2045, 2045); (2070, 2093); (2137, 2139); (2184, 2184);
    (2192, 2193); (2200, 2207); (2249, 2306); (2362, 2362); (2364, 2364);
    (2369, 2376); (2381, 2381); (2385, 2391); (2402, 2403); (2417, 2417);
    (2433, 2433); (2492, 2492); (2497, 2500); (2509, 2509); (2530, 2531);
    (2558, 2558); (2561, 2562); (2620, 2620); (2625, 2626); (2631, 2632);
    (2635, 2637); (2641, 2641); (2672, 2673); (2677, 2677); (2689, 2690);
    (2748, 2748); (2753, 2757); (2759, 2760); (2765, 2765); (2786, 2787);
    (2810, 2815); (2817, 2817); (2876, 2876); (2879, 2879); (2881, 2884);
    (2893, 2893); (2901, 2902); (2914, 2915); (2946, 2946); (3008, 3008);
    (3021, 3021); (3072, 3072); (3076, 3076); (3132, 3132); (3134, 3136);
    (3142, 3144); (3146, 3149); (3157, 3158); (3170, 3171); (3201, 3201);
    (3260, 3260); (3263, 3263); (3270, 3270); (3276, 3277); (3298, 3299);
    (3328, 3329); (3387, 3388); (3393, 3396); (3405, 3405); (3426, 3427);
    (3457, 3457); (3530, 3530); (3538, 3540); (3542, 3542); (3633, 3633);
    (3636, 3642); (3654, 3662); (3761, 3761); (3764, 3772); (3782, 3782);
    (3784, 3789); (3864, 3865); (3893, 3893); (3895, 3895); (3897, 3897);
    (3953, 3966); (3968, 3972); (3974, 3975); (3981, 3991); (3993, 4028);
    (4038, 4038); (4141, 4144); (4146, 4151); (4153, 4154); (4157, 4158);
    (4184, 4185); (4190, 4192); (4209, 4212); (4226, 4226); (4229, 4230);
    (4237, 4237); (4253, 4253); (4348, 4348); (4957, 4959); (5906, 5908);
    (5938, 5939); (5970, 5971); (6002, 6003); (6068, 6069); (6071, 6077);
    (6086, 6086); (6089, 6099); (6103, 6103); (6109, 6109); (6155, 6159);
    (6211, 6211); (6277, 6278); (6313, 6313); (6432, 6434); (6439, 6440);
    (6450, 6450); (6457, 6459); (6679, 6680); (6683, 6683); (6742, 6742);
    (6744, 6750); (6752, 6752); (6754, 6754); (6757, 6764); (6771, 6780);
    (6783, 6783); (6823, 6823); (6832, 6862); (6912, 6915); (6964, 6964);
    (6966, 6970); (6972, 6972); (6978, 6978); (7019, 7027); (7040, 7041);
    (7074, 7077); (7080, 7081); (7083, 7085); (7142, 7142); (7144, 7145);
    (7149, 7149); (7151, 7153); (7212, 7219); (7222, 7223); (7288, 7293);
    (7376, 7378); (7380, 7392); (7394, 7400); (7405, 7405); (7412, 7412);
    (7416, 7417); (7468, 7530); (7544, 7544); (7579, 7679); (8125, 8125);
    (8127, 8129); (8141, 8143); (8157, 8159); (8173, 8175); (8189, 8190);
    (8203, 8207); (8216, 8217); (8228, 8228); (8231, 8231); (8234, 8238);
    (8288, 8292); (8294, 8303); (8305, 8305); (8319, 8319); (8336, 8348);
    (8400, 8432); (11388, 11389); (11503, 11505); (11631, 11631);
    (11647, 11647); (11744, 11775); (11823, 11823); (12293, 12293);
    (12330, 12333); (12337, 12341); (12347, 12347); (12441, 12446);
    (12540, 12542); (40981, 40981); (42232, 42237); (42508, 42508);
    (42607, 42610); (42612, 42621); (42623, 42623); (42652, 42655);
    (42736, 42737); (42752, 42785); (42864, 42864); (42888, 42890);
    (42994, 42996); (43000, 43001); (43010, 43010); (43014, 43014);
    (43019, 43019); (43045, 43046); (43052, 43052); (43204, 43205);
    (43232, 43249); (43263, 43263); (43302, 43309); (43335, 43345);
    (43392, 43394); (43443, 43443); (43446, 43449); (43452, 43453);
    (43471, 43471); (43493, 43494); (43561, 43566); (43569, 43570);
    (43573, 43574); (43587, 43587); (43596, 43596); (43632, 43632);
    (43644, 43644); (43696, 43696); (43698, 43700); (43703, 43704);
    (43710, 43711); (43713, 43713); (43741, 43741); (43756, 43757);
    (43763, 43764); (43766, 43766); (43867, 43871); (43881, 43883);
    (44005, 44005); (44008, 44008); (44013, 44013); (64286, 64286);
    (64434, 64450); (65024, 65039); (65043, 65043); (65056, 65071);
    (65106, 65106); (65109, 65109); (65279, 65279); (65287, 65287);
    (65294, 65294); (65306, 65306); (65342, 65342); (65344, 65344);
    (65392, 65392); (65438, 65439); (65507, 65507); (65529, 65531);
    (66045, 66045); (66272, 66272); (66422, 66426); (67456, 67461);
    (67463, 67504); (67506, 67514); (68097, 68099); (68101, 68102);
    (68108, 68111); (68152, 68154); (68159, 68159); (68325, 68326);
    (68900, 68903); (69291, 69292); (69446, 69456); (69506, 69509);
    (69633, 69633); (69688, 69702); (69744, 69744); (69747, 69748);
    (69759, 69761); (69811, 69814); (69817, 69818); (69821, 69821);
    (69826, 69826); (69837, 69837); (69888, 69890); (69927, 69931);
    (69933, 69940); (70003, 70003); (70016, 70017); (70070, 70078);
    (70089, 70092); (70095, 70095); (70191, 70193); (70196, 70196);
    (70198, 70199); (70206, 70206); (70367, 70367); (70371, 70378);
    (70400, 70401); (70459, 70460); (70464, 70464); (70502, 70508);
    (70512, 70516); (70712, 70719); (70722, 70724); (70726, 70726);
    (70750, 70750); (70835, 70840); (70842, 70842); (70847, 70848);
    (70850, 70851); (71090, 71093); (71100, 71101); (71103, 71104);
    (71132, 71133); (71219, 71226); (71229, 71229); (71231, 71232);
    (71339, 71339); (71341, 71341); (71344, 71349); (71351, 71351);
    (71453, 71455); (71458, 71461); (71463, 71467); (71727, 71735);
    (71737, 71738); (71995, 71996); (71998, 71998); (72003, 72003);
    (72148, 72151); (72154, 72155); (72160, 72160); (72193, 72202);
    (72243, 72248); (72251, 72254); (72263, 72263); (72273, 72278);
    (72281, 72283); (72330, 72342); (72344, 72345); (72752, 72758);
    (72760, 72765); (72767, 72767); (72850, 72871); (72874, 72880);
    (72882, 72883); (72885, 72886); (73009, 73014); (73018, 73018);
    (73020, 73021); (73023, 73029); (73031, 73031); (73104, 73105);
    (73109, 73109); (73111, 73111); (73459, 73460); (78896, 78904);
    (92912, 92916); (92976, 92982); (92992, 92995); (94031, 94031);
    (94095, 94111); (94176, 94177); (94179, 94180); (110576, 110579);
    (110581, 110587); (110589, 110590); (113821, 113822); (113824, 113827);
    (118528, 118573); (118576, 118598); (119143, 119145); (119155, 119170);
    (119173, 119179); (119210, 119213); (119362, 119364); (121344, 121398);
    (121403, 121452); (121461, 121461); (121476, 121476); (121499, 121503);
    (121505, 121519); (122880, 122886); (122888, 122904); (122907, 122913);
    (122915, 122916); (122918, 122922); (123184, 123197); (123566, 123566);
    (123628, 123631); (125136, 125142); (125252, 125259); (127995, 127999);
    (917505, 917505); (917536, 917631); (917760, 917999)
  ].

(** The code points with the property Cased and without Case_Ignorable,
    as ranges. *)
Definition cased : list (Z * Z) :=
  [
    (65, 90); (97, 122); (170, 170); (181, 181); (186, 186); (192, 214);
    (216, 246); (248, 442); (444, 447); (452, 659); (661, 687); (880, 883);
    (886, 887); (891, 893); (895, 895); (902, 902); (904, 906); (908, 908);
    (910, 929); (931, 1013); (1015, 1153); (1162, 1327); (1329, 1366);
    (1376, 1416); (4256, 4293); (4295, 4295); (4301, 4301); (4304, 4346);
    (4349, 4351); (5024, 5109); (5112, 5117); (7296, 7304); (7312, 7354);
    (7357, 7359); (7424, 7467); (7531, 7543); (7545, 7578); (7680, 7957);
    (7960, 7965); (7968, 8005); (8008, 8013); (8016, 8023); (8025, 8025);
    (8027, 8027); (8029, 8029); (8031, 8061); (8064, 8116); (8118, 8124);
    (8126, 8126); (8130, 8132); (8134, 8140); (8144, 8147); (8150, 8155);
    (8160, 8172); (8178, 8180); (8182, 8188); (8450, 8450); (8455, 8455);
    (8458, 8467); (8469, 8469); (8473, 8477); (8484, 8484); (8486, 8486);
    (8488, 8488); (8490, 8493); (8495, 8500); (8505, 8505); (8508, 8511);
    (8517, 8521); (8526, 8526); (8544, 8575); (8579, 8580); (9398, 9449);
    (11264, 11387); (11390, 11492); (11499, 11502); (11506, 11507);
    (11520, 11557); (11559, 11559); (11565, 11565); (42560, 42605);
    (42624, 42651); (42786, 42863); (42865, 42887); (42891, 42894);
    (42896, 42954); (42960, 42961); (42963, 42963); (42965, 42969);
    (42997, 42998); (43002, 43002); (43824, 43866); (43872, 43880);
    (43888, 43967); (64256, 64262); (64275, 64279); (65313, 65338);
    (65345, 65370); (66560, 66639); (66736, 66771); (66776, 66811);
    (66928, 66938); (66940, 66954); (66956, 66962); (66964, 66965);
    (66967, 66977); (66979, 66993); (66995, 67001); (67003, 67004);
    (68736, 68786); (68800, 68850); (71840, 71903); (93760, 93823);
    (119808, 119892); (119894, 119964); (119966, 119967); (119970, 119970);
    (119973, 119974); (119977, 119980); (119982, 119993); (119995, 119995);
    (119997, 120003); (120005, 120069); (120071, 120074); (120077, 120084);
    (120086, 120092); (120094, 120121); (120123, 120126); (120128, 120132);
    (120134, 120134); (120138, 120144); (120146, 120485); (120488, 120512);
    (120514, 120538); (120540, 120570); (120572, 120596); (120598, 120628);
    (120630, 120654); (120656, 120686); (120688, 120712); (120714, 120744);
    (120746, 120770); (120772, 120779); (122624, 122633); (122635, 122654);
    (125184, 125251); (127280, 127305); (127312, 127337); (127344, 127369)
  ].

Definition in_run (c : Z) (run : Z * Z * Z * Z) : bool :=
  let '(first, last, step, _) := run in
  (first <=? c) && (c <=? last) && ((c - first) mod step =? 0).

Fixpoint shift_of (runs : list (Z * Z * Z * Z)) (c : Z) : option Z :=
  match runs with
  | [] => None
  | run :: rest => if in_run c run then Some (snd run) else shift_of rest c
  end.

Definition in_ranges (ranges : list (Z * Z)) (c : Z) : bool :=
  existsb (fun r => (fst r <=? c) && (c <=? snd r)) ranges.

(** The lower case of a code point that has one, as its first code point
    and the others: U+0130 alone goes to two, "i" and U+0307. *)
Definition lower_of (c : Z) : option (Z * list Z) :=
  if c =? 304 then Some (105, [775])
  else match shift_of lower_runs c with
       | Some shift => Some (c + shift, [])
       | None => None
       end.

(** The UTF-8 sequence of a code point, as its first byte and the
    others. *)
Definition utf8 (c : Z) : ascii * list ascii :=
  let byte (n : Z) := chr (Z.to_nat n) in
  let tail (n : Z) := byte (128 + n mod 64) in
  if c <? 128 then (byte c, [])
  else if c <? 2048 then (byte (192 + c / 64), [tail c])
  else if c <? 65536 then (byte (224 + c / 4096), [tail (c / 64); tail c])
  else (byte (240 + c / 262144), [tail (c / 4096); tail (c / 64); tail c]).

Definition utf8_list (c : Z) : list ascii := fst (utf8 c) :: snd (utf8 c).

(** The number of bytes that follow a first byte. *)
Definition followers (a : ascii) : nat :=
  let n := code a in
  if n <? 192 then 0%nat
  else if n <? 224 then 1%nat
  else if n <? 240 then 2%nat
  else if n <? 248 then 3%nat
  else 0%nat.

(** A text cut into the UTF-8 sequences of its characters, each as its
    first byte and the others; a byte out of place is a sequence of its
    own. *)
Fixpoint sequences (l : list ascii) : list (ascii * list ascii) :=
  match l with
  | [] => []
  | a :: r =>
      match followers a, r with
      | 1%nat, b :: r1 => (a, [b]) :: sequences r1
      | 2%nat, b :: c :: r2 => (a, [b; c]) :: sequences r2
      | 3%nat, b :: c :: d :: r3 => (a, [b; c; d]) :: sequences r3
      | _, _ => (a, []) :: sequences r
      end
  end.

(** The code point of a sequence; [-1] for what is no character. *)
Definition code_point (s : ascii * list ascii) : Z :=
  let follows (b : ascii) := (128 <=? code b) && (code b <? 192) in
  let low (b : ascii) := code b - 128 in
  match s with
  | (a, []) => if code a <? 128 then code a else -1
  | (a, [b]) =>
      if follows b then (code a - 192) * 64 + low b else -1
  | (a, [b; c]) =>
      if follows b && follows c
      then (code a - 224) * 4096 + low b * 64 + low c else -1
  | (a, [b; c; d]) =>
      if follows b && follows c && follows d
      then (code a - 240) * 262144 + low b * 4096 + low c * 64 + low d else -1
  | _ => -1
  end.

(** A cased letter follows, past what is case-ignorable. *)
Fixpoint cased_follows (l : list (ascii * list ascii)) : bool :=
  match l with
  | [] => false
  | s :: r =>
      let c := code_point s in
      if in_ranges case_ignorable c then cased_follows r else in_ranges cased c
  end.

(** The lower case of one character, as its first byte and the others.
    [before]: a cased letter precedes, with nothing but case-ignorable
    characters in between; [rest]: what follows.  A capital sigma (U+03A3)
    so preceded and with no cased letter following is a final sigma
    (U+03C2). *)
Definition lower_sequence (before : bool) (s : ascii * list ascii)
    (rest : list (ascii * list ascii)) : ascii * list ascii :=
  let c := code_point s in
  if c =? 931 then
    if before && negb (cased_follows rest) then utf8 962 else utf8 963
  else
    match lower_of c with
    | Some (c1, more) => (fst (utf8 c1), snd (utf8 c1) ++ flat_map utf8_list more)
    | None => s
    end.

Fixpoint lower_sequences (before : bool) (l : list (ascii * list ascii))
  : list ascii :=
  match l with
  | [] => []
  | s :: rest =>
      let c := code_point s in
      let low := lower_sequence before s rest in
      let before' := if in_ranges case_ignorable c then before else in_ranges cased c in
      fst low :: snd low ++ lower_sequences before' rest
  end.

Definition lower_list (l : list ascii) : list ascii :=
  lower_sequences false (sequences l).

(** [String.prototype.toLowerCase] *)
Definition toLowerCase (s : string) : string := of_list (lower_list (to_list s)).

(** [hay.includes(needle)] *)
Fixpoint includes (needle hay : string) : bool :=
  String.prefix needle hay
  || match hay with
     | EmptyString => false
     | String _ rest => includes needle rest
     end.

(** [s.split(" ")[0]]: the text before the first space, all of [s] when
    it holds none. *)
Fixpoint before_space (s : string) : string :=
  match s with
  | EmptyString => EmptyString
  | String c r => if Ascii.eqb c " " then EmptyString else String c (before_space r)
  end.

(** [lines.join(sep)] *)
Fixpoint join (sep : string) (l : list string) : string :=
  match l with
  | [] => EmptyString
  | [x] => x
  | x :: r => x +:+ sep +:+ join sep r
  end.

(** The bytes of the first character, for [s[0]]. *)
Definition first_char (s : string) : option string :=
  match to_list s with
  | [] => None
  | c :: r =>
      let n := nat_of_ascii c in
      let k := if (n <? 128)%nat then 0%nat
               else if (n <? 224)%nat then 1%nat
               else if (n <? 240)%nat then 2%nat else 3%nat in
      Some (of_list (c :: firstn k r))
  end.

End Str.

(* ===================================================================== *)
(** * Numbers *)
(* ===================================================================== *)

(** A JavaScript number is a binary64 float: the kernel's [float].  The
    comparisons [x >= y] are [PrimFloat.leb y x], false on NaN as in
    JavaScript. *)
Module Num.

(** The float nearest to an integer. *)
Definition of_Z (n : Z) : float := SF2Prim (binary_normalize prec emax n 0 false).

(** The float nearest to [p / q] ([p], [q] positive), ties to even: the
    quotient is taken with 64 bits or more and a sticky bit, then rounded
    once. *)
Definition of_ratio (p q : Z) : float :=
  let k := Z.max 0 (64 + Z.log2 q - Z.log2 p) in
  let n := (p * 2 ^ k) / q in
  let sticky := if (p * 2 ^ k) mod q =? 0 then 0 else 1 in
  SF2Prim (binary_normalize prec emax (2 * n + sticky) (- k - 1) false).

(** The float nearest to [m * 10 ^ e], for [m >= 0]. *)
Definition of_decimal (m e : Z) : float :=
  if m =? 0 then zero
  else
    (* beyond 10^310, or below 10^-330: no need for the exact quotient *)
    if 310 <? e + Z.log2 m * 301 / 1000 then infinity
    else if e + (Z.log2 m + 1) * 302 / 1000 + 1 <? - 330 then zero
    else if 0 <=? e then of_ratio (m * 10 ^ e) 1
    else of_ratio m (10 ^ (- e)).

(** [Math.round]: the nearest integer, a half going up. *)
Definition round (x : float) : float :=
  match Prim2SF x with
  | S754_finite s m e =>
      if 0 <=? e then x
      else
        let d := 2 ^ (- e) in
        let n := (cond_Zopp s (2 * Zpos m) + d) / (2 * d) in
        if n =? 0 then (if s then neg_zero else zero) else of_Z n
  | _ => x
  end.

(** ** Reading a number: [StringToNumber] *)

(** The value of a digit in [base], up to 16. *)
Definition digit (base : Z) (c : ascii) : option Z :=
  let n := Str.code c in
  let v := if (48 <=? n) && (n <=? 57) then n - 48
           else if (97 <=? n) && (n <=? 102) then n - 87
           else if (65 <=? n) && (n <=? 70) then n - 55
           else 99 in
  if v <? base then Some v else None.

(** The digits at the head of [l]: their value on top of [acc], how many
    there were, and the rest. *)
Fixpoint read_digits (base : Z) (l : list ascii) (acc : Z) (count : Z)
  : Z * Z * list ascii :=
  match l with
  | c :: r =>
      match digit base c with
      | Some v => read_digits base r (acc * base + v) (count + 1)
      | None => (acc, count, l)
      end
  | [] => (acc, count, l)
  end.

(** An optional sign: whether it is a minus, and the rest. *)
Definition read_sign (l : list ascii) : bool * list ascii :=
  match l with
  | c :: r => if Ascii.eqb c "-" then (true, r)
              else if Ascii.eqb c "+" then (false, r) else (false, l)
  | [] => (false, l)
  end.

(** [ExponentPart], when there is one. *)
Definition read_exponent (l : list ascii) : option (Z * list ascii) :=
  match l with
  | c :: r =>
      if Ascii.eqb c "e" || Ascii.eqb c "E" then
        let (neg, r1) := read_sign r in
        let '(v, n, r2) := read_digits 10 r1 0 0 in
        if n =? 0 then None else Some (if neg then - v else v, r2)
      else Some (0, l)
  | [] => Some (0, l)
  end.

(** [StrUnsignedDecimalLiteral] without [Infinity]. *)
Definition read_unsigned (l : list ascii) : option float :=
  let '(ip, ni, r1) := read_digits 10 l 0 0 in
  let '(m, nf, r2) :=
    match r1 with
    | c :: r => if Ascii.eqb c "." then read_digits 10 r ip 0 else (ip, 0, r1)
    | [] => (ip, 0, r1)
    end in
  if ni + nf =? 0 then None
  else match read_exponent r2 with
       | Some (e, []) => Some (of_decimal m (e - nf))
       | _ => None
       end.

(** [NonDecimalIntegerLiteral]: [0x], [0o] or [0b] and digits. *)
Definition read_radix (l : list ascii) : option float :=
  match l with
  | z :: x :: r =>
      if Ascii.eqb z "0" then
        let base := if Ascii.eqb x "x" || Ascii.eqb x "X" then 16
                    else if Ascii.eqb x "o" || Ascii.eqb x "O" then 8
                    else if Ascii.eqb x "b" || Ascii.eqb x "B" then 2 else 0 in
        if base =? 0 then None
        else match read_digits base r 0 0 with
             | (v, n, []) => if n =? 0 then None else Some (of_decimal v 0)
             | _ => None
             end
      else None
  | _ => None
  end.

(** [StringToNumber]: blank text is 0, text that is no numeric literal is
    NaN. *)
Definition StringToNumber (s : string) : float :=
  let l := Str.to_list (Str.trim s) in
  match l with
  | [] => zero
  | _ =>
      match read_radix l with
      | Some x => x
      | None =>
          let (neg, r) := read_sign l in
          let mag :=
            if String.eqb (Str.of_list r) "Infinity" then Some infinity
            else read_unsigned r in
          match mag with
          | Some x => if neg then opp x else x
          | None => nan
          end
      end
  end.

(** ** Printing a number: [Number::toString] in radix 10 *)

(** The decimal digits of [n] in front of [acc]. *)
Fixpoint digits_fuel (fuel : nat) (n : Z) (acc : list ascii) : list ascii :=
  match fuel with
  | O => acc
  | S f =>
      let acc' := Str.chr (Z.to_nat (48 + n mod 10)) :: acc in
      if n <? 10 then acc' else digits_fuel f (n / 10) acc'
  end.

(** The decimal digits of [n >= 0]. *)
Definition digits (n : Z) : list ascii :=
  digits_fuel (S (Z.to_nat (Z.log2 n))) n [].

(** The least [n >= start] with [p / q < 10 ^ n]. *)
Fixpoint order10 (fuel : nat) (p q n : Z) : Z :=
  match fuel with
  | O => n
  | S f =>
      let below := if 0 <=? n then p <? q * 10 ^ n else p * 10 ^ (- n) <? q in
      if below then n else order10 f p q (n + 1)
  end.

(** Whether [c * 10 ^ e] reads back as [x]. *)
Definition reads_back (x : float) (c e : Z) : bool :=
  PrimFloat.eqb (of_decimal c e) x.

(** For [k] digits: the candidates below and above [p / q] at scale
    [10 ^ e], and the one that reads back, the closer when both do. *)
Definition candidate (x : float) (p q e : Z) : option Z :=
  let '(num, den) := if 0 <=? e then (p, q * 10 ^ e) else (p * 10 ^ (- e), q) in
  let lo := num / den in
  let hi := lo + 1 in
  let dlo := num - lo * den in
  let dhi := hi * den - num in
  match reads_back x lo e && (0 <? lo), reads_back x hi e with
  | true, true =>
      Some (if dlo <? dhi then lo
            else if dhi <? dlo then hi
            else if Z.even lo then lo else hi)
  | true, false => Some lo
  | false, true => Some hi
  | false, false => None
  end.

(** The shortest decimal that reads back as [x]: its digits as a number
    and its scale, trying [k], [k + 1], ... digits; 17 always do. *)
Fixpoint shortest (fuel : nat) (x : float) (p q n0 k : Z) : Z * Z :=
  match fuel with
  | O => (0, 0)
  | S f =>
      match candidate x p q (n0 - k) with
      | Some c => (c, n0 - k)
      | None => shortest f x p q n0 (k + 1)
      end
  end.

(** [c * 10 ^ e] with no zero at the end of [c]. *)
Fixpoint strip_zeros (fuel : nat) (c e : Z) : Z * Z :=
  match fuel with
  | O => (c, e)
  | S f => if (c mod 10 =? 0) && (0 <? c) then strip_zeros f (c / 10) (e + 1) else (c, e)
  end.

(** [n] zeros. *)
Definition zeros (n : Z) : list ascii := repeat (Str.chr 48) (Z.to_nat n).

(** The text of a positive finite [x = p / q]. *)
Definition positive_text (x : float) (p q : Z) : list ascii :=
  let start := (Z.log2 p - Z.log2 q - 1) * 30103 / 100000 - 1 in
  let n0 := order10 8 p q start in
  let '(c0, e0) := shortest 18 x p q n0 1 in
  let '(c, e) := strip_zeros 20 c0 e0 in
  let s := digits c in
  let k := Z.of_nat (List.length s) in
  let n := e + k in
  if (k <=? n) && (n <=? 21) then s ++ zeros (n - k)
  else if (0 <? n) && (n <=? 21) then
    firstn (Z.to_nat n) s ++ Str.chr 46 :: skipn (Z.to_nat n) s
  else if (- 6 <? n) && (n <=? 0) then
    Str.chr 48 :: Str.chr 46 :: zeros (- n) ++ s
  else
    let ex := Str.chr 101 :: (if 0 <=? n - 1 then Str.chr 43 else Str.chr 45)
              :: digits (Z.abs (n - 1)) in
    match s with
    | [d] => d :: ex
    | d :: r => d :: Str.chr 46 :: r ++ ex
    | [] => ex
    end.

(** [Number::toString(x, 10)] *)
Definition NumberToString (x : float) : string :=
  match Prim2SF x with
  | S754_nan => "NaN"
  | S754_zero _ => "0"
  | S754_infinity s => if s then "-Infinity" else "Infinity"
  | S754_finite s m e =>
      let '(p, q) := if 0 <=? e then (Zpos m * 2 ^ e, 1) else (Zpos m, 2 ^ (- e)) in
      Str.of_list ((if s then [Str.chr 45] else []) ++ positive_text (abs x) p q)
  end.

(** [!x] is true of zero and NaN only. *)
Definition falsy (x : float) : bool := is_zero x || is_nan x.

End Num.

(* ===================================================================== *)
(** * Values and coercions *)
(* ===================================================================== *)

Module JS.

(** What [JSON.parse] builds, [undefined], and the built-in methods a
    property read can reach ([VFun]: no request or response body holds
    one).  An object is its table of own properties; a read takes the
    first entry of a key. *)
Inductive value : Type :=
| VUndef
| VNull
| VBool (b : bool)
| VNum (x : float)
| VStr (s : string)
| VArr (elems : list value)
| VObj (props : list (string * value))
| VFun (name : string).

(** The own property [k] of an object. *)
Fixpoint own (k : string) (props : list (string * value)) : option value :=
  match props with
  | [] => None
  | (k', v) :: r => if String.eqb k k' then Some v else own k r
  end.

Definition has_own (k : string) (props : list (string * value)) : bool :=
  match own k props with Some _ => true | None => false end.

(** A thrown exception is [None]: every handler catches whatever is
    thrown, without looking at it. *)

(** [ToString].  An array prints its elements joined by commas, [null]
    and [undefined] as nothing.  A parsed object has no callable
    [toString] of its own: with an own [toString] property the conversion
    throws, without one it reaches [Object.prototype.toString]. *)
Fixpoint ToString (v : value) : option string :=
  match v with
  | VUndef => Some "undefined"
  | VNull => Some "null"
  | VBool b => Some (if b then "true" else "false")
  | VNum x => Some (Num.NumberToString x)
  | VStr s => Some s
  | VArr elems =>
      (fix joined (l : list value) : option string :=
         match l with
         | [] => Some ""
         | x :: r =>
             let head :=
               match x with
               | VUndef | VNull => Some ""
               | _ => ToString x
               end in
             match head, r with
             | None, _ => None
             | Some h, [] => Some h
             | Some h, _ :: _ =>
                 match joined r with
                 | Some t => Some (h +:+ "," +:+ t)
                 | None => None
                 end
             end
         end) elems
  | VObj props => if has_own "toString" props then None else Some "[object Object]"
  | VFun name => Some ("function " +:+ name +:+ "() { [native code] }")
  end.

(** [ToNumber]; [Number(v)] and the operands of [*] go through it. *)
Definition ToNumber (v : value) : option float :=
  match v with
  | VUndef => Some nan
  | VNull => Some zero
  | VBool b => Some (if b then one else zero)
  | VNum x => Some x
  | VStr s => Some (Num.StringToNumber s)
  | VArr _ | VObj _ | VFun _ => s ← ToString v; Some (Num.StringToNumber s)
  end.

(** [ToBoolean] *)
Definition truthy (v : value) : bool :=
  match v with
  | VUndef | VNull => false
  | VBool b => b
  | VNum x => negb (Num.falsy x)
  | VStr s => negb (Str.is_empty s)
  | VArr _ | VObj _ | VFun _ => true
  end.

(** [a || b] *)
Definition or (a b : value) : value := if truthy a then a else b.

(** [v === undefined ? d : v], the default of a destructuring pattern. *)
Definition default (v d : value) : value :=
  match v with VUndef => d | _ => v end.

(** [v == null] *)
Definition nullish (v : value) : bool :=
  match v with VUndef | VNull => true | _ => false end.

(** An array index written as a property key. *)
Definition index_of (k : string) : option nat :=
  match Str.to_list k with
  | [] => None
  | c :: r =>
      if Ascii.eqb c "0" && negb (Nat.eqb (List.length r) 0) then None
      else match Num.read_digits 10 (c :: r) 0 0 with
           | (n, _, []) => Some (Z.to_nat n)
           | _ => None
           end
  end.

(** The length of a string in UTF-16 code units. *)
Definition utf16_length (s : string) : Z :=
  fold_right
    (fun c n => let b := Str.code c in
                if b <? 128 then n + 1
                else if b <? 192 then n
                else if b <? 240 then n + 1 else n + 2)
    0 (Str.to_list s).

(** [v[k]] and [v.k].  Reading a property of [null] or [undefined]
    throws.  Beside the own properties of objects and the elements of
    arrays, the members given are those among the names the handlers read:
    [length], [pop] of arrays, [trim] and the index [0] of strings, [name]
    of functions.  No other name the handlers read is inherited by a
    parsed value. *)
Definition Get (v : value) (k : string) : option value :=
  match v with
  | VUndef | VNull => None
  | VBool _ | VNum _ => Some VUndef
  | VObj props => Some (match own k props with Some x => x | None => VUndef end)
  | VArr elems =>
      Some (if String.eqb k "length" then VNum (Num.of_Z (Z.of_nat (List.length elems)))
            else if String.eqb k "pop" then VFun "pop"
            else match index_of k with
                 | Some i => nth i elems VUndef
                 | None => VUndef
                 end)
  | VStr s =>
      Some (if String.eqb k "length" then VNum (Num.of_Z (utf16_length s))
            else if String.eqb k "trim" then VFun "trim"
            else if String.eqb k "0" then
                   match Str.first_char s with
                   | Some c => VStr c
                   | None => VUndef
                   end
            else VUndef)
  | VFun name =>
      Some (if String.eqb k "name" then VStr name
            else if String.eqb k "length" then VNum zero
            else VUndef)
  end.

(** [v?.k] and [v?.[k]] *)
Definition optGet (v : value) (k : string) : value :=
  match Get v k with Some x => x | None => VUndef end.

(** [v.trim()]: only a string has the method. *)
Definition call_trim (v : value) : option string :=
  match v with VStr s => Some (Str.trim s) | _ => None end.

End JS.

Import JS.

(* ===================================================================== *)
(** * The result cache: [cache], [getCache], [setCache] *)
(* ===================================================================== *)

Module Cache.

(** [{ data, ts }], [ts] in milliseconds as [Date.now()] gives it. *)
Record entry : Type := Entry { data : value; ts : Z }.

(** [const cache = new Map()] *)
Abbreviation store := (gmap string entry).

(** 5 minutes *)
Definition cacheTTLms : Z := 5 * 60 * 1000.

(** [getCache(key)] at time [now]: the value returned ([null] on a miss)
    and the cache afterwards. *)
Definition getCache (now : Z) (key : string) (cache : store) : value * store :=
  match cache !! key with
  | None => (VNull, cache)
  | Some hit =>
      if cacheTTLms <? now - ts hit
      then (VNull, delete key cache)
      else (data hit, cache)
  end.

(** [setCache(key, data)] at time [now]. *)
Definition setCache (now : Z) (key : string) (d : value) (cache : store) : store :=
  <[ key := Entry d now ]> cache.

End Cache.

Import Cache.

(* ===================================================================== *)
(** * The weather route: [app.get("/api/weather")] *)
(* ===================================================================== *)

Module Weather.

(** The three upstream calls.  A call stands for its URL: the geocoding
    call for the (trimmed) city it encodes, the two others for the texts
    of [lat] and [lon] spliced into theirs. *)
Inductive request : Type :=
| Geocode (city : string)
| CurrentWeather (lat lon : string)
| Forecast (lat lon : string).

(** What comes back: [fetch] rejects, or resolves to a response with its
    [ok] flag and what [.json()] resolves to ([None] when it rejects). *)
Inductive reply : Type :=
| Rejected
| Replied (ok : bool) (json : option value).

(** The services upstream, by what each call comes to. *)
Definition upstream := request -> reply.

(** The process state the route touches, and the calls made so far. *)
Record state : Type := State { cache : store; calls : list request }.

(** What [res] is made to send. *)
Record response : Type := Response { status : Z; body : value }.

(** State passing with exceptions: [None] is a throw, which keeps the
    state reached. *)
Definition M (A : Type) : Type := state -> option A * state.

#[global] Instance M_ret : MRet M := fun A a s => (Some a, s).
#[global] Instance M_bind : MBind M := fun A B f m s =>
  match m s with
  | (Some a, s') => f a s'
  | (None, s') => (None, s')
  end.

(** [throw], and a computation that touches no state. *)
Definition throw {A : Type} : M A := fun s => (None, s).
Definition lift {A : Type} (o : option A) : M A := fun s => (o, s).

(** The call [r] is made. *)
Definition log (r : request) (s : state) : state :=
  State (cache s) (calls s ++ [r]).

(** [await fetch(url)] *)
Definition fetch (w : upstream) (r : request) : M (bool * option value) :=
  fun s =>
    match w r with
    | Rejected => (None, log r s)
    | Replied ok j => (Some (ok, j), log r s)
    end.

(** [await Promise.all([fetch(a), fetch(b)])]: both calls are made, and
    the await throws when either rejects. *)
Definition fetch_both (w : upstream) (a b : request)
  : M ((bool * option value) * (bool * option value)) :=
  fun s =>
    let s' := log b (log a s) in
    match w a, w b with
    | Replied oka ja, Replied okb jb => (Some ((oka, ja), (okb, jb)), s')
    | _, _ => (None, s')
    end.

(** [getCache] and [setCache] on the cache of the process. *)
Definition getCacheM (now : Z) (key : string) : M value :=
  fun s => let (v, c) := getCache now key (cache s) in (Some v, State c (calls s)).

Definition setCacheM (now : Z) (key : string) (d : value) : M unit :=
  fun s => (Some tt, State (setCache now key d (cache s)) (calls s)).

(** [res.status(code).json({ error: msg })] *)
Definition error (code : Z) (msg : string) : response :=
  Response code (VObj [("error", VStr msg)]).

(** [res.json(v)] *)
Definition json (v : value) : response := Response 200 v.

(** [normalized.location], from the first geocoding match. *)
Definition location_of (g0 : value) : option (value * value * value) :=
  lat ← Get g0 "lat";
  lon ← Get g0 "lon";
  name ← Get g0 "name";
  country ← Get g0 "country";
  state ← Get g0 "state";
  Some (lat, lon,
        VObj [("name", name); ("state", or state (VStr "")); ("country", country);
              ("lat", lat); ("lon", lon)]).

(** [normalized.current] *)
Definition current_of (current : value) : option value :=
  weather ← Get current "weather";
  main ← Get current "main";
  wind ← Get current "wind";
  clouds ← Get current "clouds";
  dt ← Get current "dt";
  Some (VObj [("description", or (optGet (optGet weather "0") "description") (VStr ""));
              ("temp", optGet main "temp");
              ("feels_like", optGet main "feels_like");
              ("humidity", optGet main "humidity");
              ("wind_speed", optGet wind "speed");
              ("clouds", optGet clouds "all");
              ("dt", dt)]).

(** The object pushed for [item], whose date is [day]; [item] is not
    [null] or [undefined] here, its [dt_txt] has been read. *)
Definition day_entry (day : string) (item : value) : value :=
  VObj [("day", VStr day);
        ("temp", optGet (optGet item "main") "temp");
        ("pop", optGet item "pop");
        ("description",
          or (optGet (optGet (optGet item "weather") "0") "description") (VStr ""))].

(** [d.day === day] *)
Definition has_day (day : string) (d : value) : bool :=
  match optGet d "day" with
  | VStr s => String.eqb s day
  | _ => false
  end.

(** [item.dt_txt.split(" ")[0]]: [dt_txt] has to be a string. *)
Definition day_of (item : value) : option string :=
  dt_txt ← Get item "dt_txt";
  match dt_txt with
  | VStr s => Some (Str.before_space s)
  | _ => None
  end.

(** The callback of [reduce]. *)
Definition step (days : list value) (item : value) : option (list value) :=
  day ← day_of item;
  Some (if existsb (has_day day) days then days
        else days ++ [day_entry day item]).

(** [items.reduce(step, days)] *)
Fixpoint reduce (days : list value) (items : list value) : option (list value) :=
  match items with
  | [] => Some days
  | item :: rest => days' ← step days item; reduce days' rest
  end.

(** [normalized.forecast]: [forecast.list.reduce(...).slice(0, 5)] *)
Definition forecast_of (forecast : value) : option value :=
  list ← Get forecast "list";
  match list with
  | VArr items => days ← reduce [] items; Some (VArr (firstn 5 days))
  | _ => None
  end.

(** [normalized], [loc] being its location. *)
Definition normalize (loc current forecast : value) : option value :=
  cur ← current_of current;
  fc ← forecast_of forecast;
  Some (VObj [("location", loc); ("current", cur); ("forecast", fc)]).

(** [`wx:${city.toLowerCase()}`] *)
Definition cacheKey (city : string) : string := "wx:" +:+ Str.toLowerCase city.

(** [(req.query.city || "").trim()] *)
Definition city_of (q : value) : option string := call_trim (or q (VStr "")).

(** "Step 2: Current + 5-day forecast", from the first geocoding match
    [g0] to the response.  [t_set] is what [Date.now()] gives in
    [setCache]. *)
Definition step2 (w : upstream) (t_set : Z) (city : string) (g0 : value) : M response :=
  '(lat, lon, loc) ← lift (location_of g0);
  lat_s ← lift (ToString lat);
  lon_s ← lift (ToString lon);
  '(curResp, fcResp) ←
    fetch_both w (CurrentWeather lat_s lon_s) (Forecast lat_s lon_s);
  if negb (fst curResp) || negb (fst fcResp) then throw
  else
    current ← lift (snd curResp);
    forecast ← lift (snd fcResp);
    normalized ← lift (normalize loc current forecast);
    _ ← setCacheM t_set (cacheKey city) normalized;
    mret (json normalized).

(** "Step 1: Get coordinates" *)
Definition step1 (w : upstream) (t_set : Z) (city : string) : M response :=
  geoResp ← fetch w (Geocode city);
  if negb (fst geoResp) then throw
  else
    geo ← lift (snd geoResp);
    if negb (truthy (optGet geo "length")) then mret (error 404 "City not found")
    else
      g0 ← lift (Get geo "0");
      step2 w t_set city g0.

(** The body of the [try] block.  [q] is [req.query.city]; [t_get] is what
    [Date.now()] gives in [getCache]. *)
Definition route (w : upstream) (t_get t_set : Z) (q : value) : M response :=
  city ← lift (city_of q);
  if Str.is_empty city then mret (error 400 "city is required")
  else
    cached ← getCacheM t_get (cacheKey city);
    if truthy cached then mret (json cached)
    else step1 w t_set city.

(** The route with its [catch]. *)
Definition handler (w : upstream) (t_get t_set : Z) (q : value) (s : state)
  : response * state :=
  match route w t_get t_set q s with
  | (Some r, s') => (r, s')
  | (None, s') => (error 500 "Server error fetching weather", s')
  end.

End Weather.

(* ===================================================================== *)
(** * The advice route: [app.post("/api/ai-advice")] *)
(* ===================================================================== *)

Module Advice.

(** The nine texts the rule engine can push, by what they are about. *)
Inductive tip : Type :=
| Hot | Cool | Pleasant | Humid | Breezy | Umbrella | AirQuality | ClearSkies
| Generic.

(** The texts, as the source has them. *)
Definition tip_text (x : tip) : string :=
  match x with
  | Hot => "It’s hot; wear light cotton and drink plenty of water."
  | Cool => "Cool weather; wear a light jacket or sweater."
  | Pleasant => "Pleasant temperature; ideal for outdoor tasks."
  | Humid => "High humidity; choose breathable clothes and stay hydrated."
  | Breezy => "Breezy; secure loose items and avoid lightweight umbrellas."
  | Umbrella => "Carry an umbrella; showers expected."
  | AirQuality => "Air quality might be low; consider a mask if sensitive."
  | ClearSkies => "Clear skies; good day for a walk or outing."
  | Generic => "Plan your day with basic precautions."
  end.

(** The six constants at the head of [ruleBasedAdvice]. *)
Record readings : Type := Readings {
  t : float; feels : float; hum : float; wind : float;
  desc : string; pop : float
}.

(** [Number(current.humidity || 0)], and the like for the wind. *)
Definition number_or_zero (current : value) (k : string) : option float :=
  v ← Get current k; ToNumber (or v (VNum zero)).

(** [String(current.description || "").toLowerCase()] *)
Definition desc_of (current : value) : option string :=
  v ← Get current "description";
  s ← ToString (or v (VStr ""));
  Some (Str.toLowerCase s).

(** [forecast?.[0]?.pop] *)
Definition first_pop (forecast : value) : value :=
  optGet (optGet forecast "0") "pop".

(** [Math.round(((forecast?.[0]?.pop) || 0) * 100)] *)
Definition pop_of (forecast : value) : option float :=
  x ← ToNumber (or (first_pop forecast) (VNum zero));
  Some (Num.round (x * 100)%float).

(** The six constants, computed in the order of the source. *)
Definition read (current forecast : value) : option readings :=
  temp ← Get current "temp";
  t ← ToNumber temp;
  feels_like ← Get current "feels_like";
  feels ← ToNumber feels_like;
  hum ← number_or_zero current "humidity";
  wind ← number_or_zero current "wind_speed";
  desc ← desc_of current;
  pop ← pop_of forecast;
  Some (Readings t feels hum wind desc pop).

(** [if (c) tips.push(x)] *)
Definition when (c : bool) (x : tip) : list tip := if c then [x] else [].

(** The pushes, in the order of the source. *)
Definition tips_of (r : readings) : list tip :=
  (if negb (is_nan (t r)) then
     [ if (32 <=? t r)%float || (34 <=? feels r)%float then Hot
       else if (t r <=? 15)%float then Cool
       else Pleasant ]
   else [])
  ++ when (70 <=? hum r)%float Humid
  ++ when (8 <=? wind r)%float Breezy
  ++ when (Str.includes "rain" (desc r) || (40 <=? pop r)%float) Umbrella
  ++ when (Str.includes "haze" (desc r) || Str.includes "smoke" (desc r)) AirQuality
  ++ when (Str.includes "clear" (desc r)) ClearSkies.

(** [(tips.length ? tips : [generic]).slice(0, 4)] *)
Definition kept (tips : list tip) : list tip :=
  firstn 4 (match tips with [] => [Generic] | _ :: _ => tips end).

(** [.map(t => `- ${t}`).join("\n")] *)
Definition bullets (tips : list tip) : string :=
  Str.join Str.newline (map (fun x => "- " +:+ tip_text x) tips).

(** The closure [ruleBasedAdvice], of [current] and [forecast]. *)
Definition ruleBasedAdvice (current forecast : value) : option string :=
  r ← read current forecast;
  Some (bullets (kept (tips_of r))).

(** One entry of the [FORECAST] line of the prompt. *)
Definition forecast_line (f : value) : option string :=
  day ← Get f "day";
  day_s ← ToString day;
  description ← Get f "description";
  description_s ← ToString description;
  temp ← Get f "temp";
  temp_n ← ToNumber temp;
  pop ← Get f "pop";
  pop_n ← ToNumber (or pop (VNum zero));
  Some (day_s +:+ ": " +:+ description_s +:+ ", "
        +:+ Num.NumberToString (Num.round temp_n) +:+ "°C, POP "
        +:+ Num.NumberToString (Num.round (pop_n * 100)%float) +:+ "%").

(** [forecast.map(...)]: only an array has the method. *)
Definition forecast_lines (forecast : value) : option (list string) :=
  match forecast with
  | VArr fs => mapM forecast_line fs
  | _ => None
  end.

(** [`${current.k}`] *)
Definition interpolate (current : value) (k : string) : option string :=
  v ← Get current k; ToString v.

(** The template literal [prompt]. *)
Definition prompt_of (location current forecast : value) : option string :=
  name ← ToString (or (optGet location "name") (VStr "Unknown"));
  country ← ToString (or (optGet location "country") (VStr ""));
  temp ← interpolate current "temp";
  feels_like ← interpolate current "feels_like";
  description ← interpolate current "description";
  humidity ← interpolate current "humidity";
  wind_speed ← interpolate current "wind_speed";
  lines ← forecast_lines forecast;
  Some (Str.newline
    +:+ "You are a concise weather coach. Based on the data below, give 3–4 short, practical tips."
    +:+ Str.newline
    +:+ "Each tip under 18 words. Mix safety, clothing, commute, and health (hydration/sunscreen/etc.) if relevant."
    +:+ Str.newline
    +:+ "Avoid repeating numbers shown. No apologies or disclaimers."
    +:+ Str.newline +:+ Str.newline
    +:+ "LOCATION: " +:+ name +:+ ", " +:+ country +:+ Str.newline
    +:+ "CURRENT: " +:+ temp +:+ "°C, feels like " +:+ feels_like +:+ "°C, "
    +:+ description +:+ ", humidity " +:+ humidity +:+ "%, wind " +:+ wind_speed
    +:+ " m/s" +:+ Str.newline
    +:+ "FORECAST: " +:+ Str.join " | " lines +:+ Str.newline).

(** The process configuration read at start-up. *)
Record config : Type := Config {
  USE_MOCK_AI : bool;
  OPENAI_API_KEY : option string
}.

(** [!OPENAI_API_KEY] *)
Definition key_missing (cfg : config) : bool :=
  match OPENAI_API_KEY cfg with
  | None => true
  | Some k => Str.is_empty k
  end.

(** What the completion call comes to: [fetch] rejects; or the response
    is not [ok], with what [.text()] resolves to; or it is [ok], with
    what [.json()] resolves to ([None]: the read rejects). *)
Inductive completion : Type :=
| Failed
| Refused (text : option string)
| Completed (json : option value).

(** The completion service, by what the call with a prompt comes to. *)
Definition service := string -> completion.

(** What [res] is made to send. *)
Record response : Type := Response { status : Z; body : value }.

(** [res.json({ advice })] *)
Definition advice (a : string) : response :=
  Response 200 (VObj [("advice", VStr a)]).

(** [res.json({ advice: ruleBasedAdvice() })] *)
Definition fallback (current forecast : value) : option response :=
  a ← ruleBasedAdvice current forecast; Some (advice a).

(** [data.choices?.[0]?.message?.content?.trim()] *)
Definition content_of (data : value) : option value :=
  choices ← Get data "choices";
  let content := optGet (optGet (optGet choices "0") "message") "content" in
  if nullish content then Some VUndef
  else s ← call_trim content; Some (VStr s).

(** The body of the [try] block; [payload] is [req.body]. *)
Definition route (cfg : config) (openai : service) (payload : value) : option response :=
  let b := or payload (VObj []) in
  location ← Get b "location";
  current ← Get b "current";
  forecast ← Get b "forecast";
  let location := default location (VObj []) in
  let current := default current (VObj []) in
  let forecast := default forecast (VArr []) in
  if USE_MOCK_AI cfg then fallback current forecast
  else if key_missing cfg then fallback current forecast
  else
    prompt ← prompt_of location current forecast;
    match openai prompt with
    | Failed => None
    | Refused text => _ ← text; fallback current forecast
    | Completed json =>
        data ← json;
        content ← content_of data;
        (* [content || ruleBasedAdvice()] *)
        match content with
        | VStr s => if Str.is_empty s then fallback current forecast
                    else Some (advice s)
        | _ => fallback current forecast
        end
    end.

(** The tip of the [catch]. *)
Definition last_resort : string :=
  "- Weather looks manageable; stay safe and carry water.".

(** The route with its [catch]. *)
Definition handler (cfg : config) (openai : service) (payload : value) : response :=
  match route cfg openai payload with
  | Some r => r
  | None => advice last_resort
  end.

End Advice.

(* ===================================================================== *)
(** * The configuration read at start-up *)
(* ===================================================================== *)

Module Startup.

(** [process.env]: the variables that are set, by name. *)
Definition env : Type := string -> option string.

(** [process.env.USE_MOCK_AI === "true"] and [process.env.OPENAI_API_KEY] *)
Definition config_of (e : env) : Advice.config :=
  Advice.Config
    (match e "USE_MOCK_AI" with
     | Some s => String.eqb s "true"
     | None => false
     end)
    (e "OPENAI_API_KEY").

End Startup.

(* ===================================================================== *)
(** * The page script: [run], [renderWeather], [renderTips], [setStatus] *)
(* ===================================================================== *)

Module Client.

(** What the status line shows: a text, or ["Failed: "] followed by the
    message of an error the engine raised itself (a rejected [fetch], a
    body that is not JSON, a [TypeError]), whose wording is the engine's. *)
Inductive line : Type :=
| Text (s : string)
| FailedByEngine.

(** The requests the script sends: [GET /api/weather?city=...] and
    [POST /api/ai-advice] with the body [JSON.stringify(wx)]. *)
Inductive request : Type :=
| GetWeather (city : string)
| PostAdvice (wx : value).

(** What comes back: [fetch] rejects, or resolves to a response with its
    [ok] flag and what [.json()] resolves to ([None] when it rejects). *)
Inductive answer : Type :=
| NoAnswer
| Answer (ok : bool) (json : option value).

(** The server, by what each request comes to. *)
Definition server := request -> answer.

(** The page: the text of the status line, whether the results panel has
    the class [hidden], the text of the location and of the current
    conditions, the markup of each forecast card and the text of each tip,
    in the order of the document; and the requests sent so far. *)
Record page : Type := Page {
  elStatus : line;
  hidden : bool;
  elLoc : string;
  elCurrent : string;
  elForecastCards : list string;
  elTips : list string;
  sent : list request
}.

(** What is thrown: [new Error(message)] by the script, or an error of the
    engine. *)
Inductive exn : Type :=
| Thrown (message : string)
| Raised.

(** State passing with exceptions; a throw keeps the page reached. *)
Definition R (A : Type) : Type := page -> (A + exn) * page.

#[global] Instance R_ret : MRet R := fun A a p => (inl a, p).
#[global] Instance R_bind : MBind R := fun A B f m p =>
  match m p with
  | (inl a, p') => f a p'
  | (inr e, p') => (inr e, p')
  end.

Definition raise {A : Type} (e : exn) : R A := fun p => (inr e, p).

(** A computation of the engine that touches no state and may throw. *)
Definition engine {A : Type} (o : option A) : R A :=
  fun p => match o with Some a => (inl a, p) | None => (inr Raised, p) end.

(** The updates of the page. *)
Definition set_status (l : line) (p : page) : page :=
  Page l (hidden p) (elLoc p) (elCurrent p) (elForecastCards p) (elTips p) (sent p).
Definition set_hidden (b : bool) (p : page) : page :=
  Page (elStatus p) b (elLoc p) (elCurrent p) (elForecastCards p) (elTips p) (sent p).
Definition set_loc (s : string) (p : page) : page :=
  Page (elStatus p) (hidden p) s (elCurrent p) (elForecastCards p) (elTips p) (sent p).
Definition set_current (s : string) (p : page) : page :=
  Page (elStatus p) (hidden p) (elLoc p) s (elForecastCards p) (elTips p) (sent p).
Definition set_cards (l : list string) (p : page) : page :=
  Page (elStatus p) (hidden p) (elLoc p) (elCurrent p) l (elTips p) (sent p).
Definition set_tips (l : list string) (p : page) : page :=
  Page (elStatus p) (hidden p) (elLoc p) (elCurrent p) (elForecastCards p) l (sent p).
Definition log (r : request) (p : page) : page :=
  Page (elStatus p) (hidden p) (elLoc p) (elCurrent p) (elForecastCards p) (elTips p)
       (sent p ++ [r]).

Definition update (f : page -> page) : R unit := fun p => (inl tt, f p).

(** [function setStatus(msg) { elStatus.textContent = msg; }] *)
Definition setStatus (msg : string) : R unit := update (set_status (Text msg)).

(** [await fetch(...)] *)
Definition fetch (srv : server) (r : request) : R (bool * option value) :=
  fun p =>
    match srv r with
    | NoAnswer => (inr Raised, log r p)
    | Answer ok j => (inl (ok, j), log r p)
    end.

(** [if (!res.ok) throw new Error(data.error || fallback)]: the message of
    the error is the text of the argument. *)
Definition check (ok : bool) (data : value) (fallback : string) : R unit :=
  if negb ok then
    e ← engine (Get data "error");
    message ← engine (ToString (or e (VStr fallback)));
    raise (Thrown message)
  else mret tt.

(** ** [renderWeather] *)

(** [[name, state, country].filter(Boolean).join(", ")] *)
Definition locLine (location : value) : option string :=
  name ← Get location "name";
  state ← Get location "state";
  country ← Get location "country";
  parts ← mapM ToString (List.filter truthy [name; state; country]);
  Some (Str.join ", " parts).

(** [`${Math.round(v)}`] *)
Definition rounded (v : value) : option string :=
  x ← ToNumber v; Some (Num.NumberToString (Num.round x)).

(** [`${c[k]}`] *)
Definition shown (c : value) (k : string) : option string :=
  v ← Get c k; ToString v.

(** The text of the current conditions. *)
Definition currentLine (c : value) : option string :=
  temp ← Get c "temp";
  temp_s ← rounded temp;
  feels_like ← Get c "feels_like";
  feels_s ← rounded feels_like;
  description ← shown c "description";
  humidity ← shown c "humidity";
  wind_speed ← shown c "wind_speed";
  Some (temp_s +:+ "°C (feels " +:+ feels_s +:+ "°C), " +:+ description
        +:+ ". Humidity " +:+ humidity +:+ "%, Wind " +:+ wind_speed +:+ " m/s.").

(** The markup of the card of one forecast entry. *)
Definition card (f : value) : option string :=
  day ← shown f "day";
  description ← shown f "description";
  temp ← Get f "temp";
  temp_s ← rounded temp;
  pop ← Get f "pop";
  pop_n ← ToNumber (or pop (VNum zero));
  Some (Str.newline
        +:+ "      <div><strong>" +:+ day +:+ "</strong></div>" +:+ Str.newline
        +:+ "      <div>" +:+ description +:+ "</div>" +:+ Str.newline
        +:+ "      <div>~ " +:+ temp_s +:+ "°C</div>" +:+ Str.newline
        +:+ "      <div>Rain chance: "
        +:+ Num.NumberToString (Num.round (pop_n * 100)%float) +:+ "%</div>"
        +:+ Str.newline +:+ "    ").

(** [elForecastCards.appendChild(div)] *)
Definition appendCard (markup : string) : R unit :=
  update (fun p => set_cards (elForecastCards p ++ [markup]) p).

(** [fs.forEach(f => { ... })]: a card is appended once its markup is
    built. *)
Fixpoint forEach_card (fs : list value) : R unit :=
  match fs with
  | [] => mret tt
  | f :: rest =>
      markup ← engine (card f);
      _ ← appendCard markup;
      forEach_card rest
  end.

Definition renderWeather (wx : value) : R unit :=
  _ ← update (set_hidden false);
  location ← engine (Get wx "location");
  l ← engine (locLine location);
  _ ← update (set_loc l);
  c ← engine (Get wx "current");
  cl ← engine (currentLine c);
  _ ← update (set_current cl);
  _ ← update (set_cards []);
  forecast ← engine (Get wx "forecast");
  match forecast with
  | VArr fs => forEach_card fs
  | _ => raise Raised
  end.

(** ** [renderTips] *)

Definition is_lf (c : ascii) : bool := Ascii.eqb c (Str.chr 10).

(** [text.split(/\n+/)]: the pieces of the text between its runs of line
    feeds; a run at either end leaves an empty piece there. *)
Fixpoint split_lines (s : string) : list string :=
  match s with
  | EmptyString => [EmptyString]
  | String c r =>
      if is_lf c then
        match r with
        | EmptyString => [EmptyString; EmptyString]
        | String c' _ => if is_lf c' then split_lines r else EmptyString :: split_lines r
        end
      else
        match split_lines r with
        | piece :: pieces => String c piece :: pieces
        | [] => [String c EmptyString]
        end
  end.

(** The class [[-•\d.\s]], as UTF-8 sequences. *)
Definition bullet_class : list (list ascii) :=
  map Str.bytes
    ([ [45%nat]; [226; 128; 162]%nat; [46%nat] ]
     ++ map (fun d => [d]) [48; 49; 50; 51; 52; 53; 54; 55; 56; 57]%nat)
  ++ Str.white_space.

(** [s.replace(/^[-•\d.\s]+/, "")] *)
Definition strip_bullet (s : string) : string :=
  let l := Str.to_list s in
  Str.of_list (Str.drop_ws bullet_class (List.length l) l).

(** [text.split(/\n+/).map(s => s.replace(...).trim()).filter(Boolean)] *)
Definition tip_lines (text : string) : list string :=
  List.filter (fun s => negb (Str.is_empty s))
    (map (fun s => Str.trim (strip_bullet s)) (split_lines text)).

(** Only a string has [split]. *)
Definition renderTips (text : value) : R unit :=
  match text with
  | VStr s =>
      let lines := tip_lines s in
      update (set_tips (match lines with [] => [s] | _ :: _ => lines end))
  | _ => raise Raised
  end.

(** ** [run] *)

(** The body of the [try] block, for the city typed, trimmed. *)
Definition attempt (srv : server) (city : string) : R unit :=
  wxRes ← fetch srv (GetWeather city);
  wx ← engine (snd wxRes);
  _ ← check (fst wxRes) wx "Weather error";
  _ ← renderWeather wx;
  _ ← setStatus "Generating tips…";
  aiRes ← fetch srv (PostAdvice wx);
  ai ← engine (snd aiRes);
  _ ← check (fst aiRes) ai "AI error";
  advice ← engine (Get ai "advice");
  _ ← renderTips advice;
  setStatus "Done.".

(** [setStatus("Failed: " + e.message)] *)
Definition report (e : exn) : page -> page :=
  set_status (match e with
              | Thrown message => Text ("Failed: " +:+ message)
              | Raised => FailedByEngine
              end).

(** One run, from the text of the input field to the page once the run
    is over. *)
Definition run (srv : server) (typed : string) (p : page) : page :=
  let city := Str.trim typed in
  if Str.is_empty city then set_status (Text "Please enter a city.") p
  else
    match attempt srv city (set_hidden true (set_status (Text "Loading…") p)) with
    | (inl _, p') => p'
    | (inr e, p') => report e p'
    end.

End Client.

Import Advice.
Import Weather.

(* ===================================================================== *)
(** * The vocabulary of the properties *)
(* ===================================================================== *)

(** ** The cache *)

(** An entry is stale at [now] when its age exceeds the time to live. *)
Definition stale (now : Z) (hit : entry) : Prop := cacheTTLms < now - ts hit.

(** ** The rule engine *)

(** The decision table as the specification words it: the tips in their
    fixed order, each with the condition under which it fires. *)
Definition spec_valid (r : readings) : bool := negb (is_nan (t r)).
Definition spec_hot (r : readings) : bool :=
  (32 <=? t r)%float || (34 <=? feels r)%float.
Definition spec_cool (r : readings) : bool := (t r <=? 15)%float.

(** The rows of the table. *)
Definition spec_decision_table : list (tip * (readings -> bool)) :=
  [ (Hot, fun r => spec_valid r && spec_hot r);
    (Cool, fun r => spec_valid r && negb (spec_hot r) && spec_cool r);
    (Pleasant, fun r => spec_valid r && negb (spec_hot r) && negb (spec_cool r));
    (Humid, fun r => (70 <=? hum r)%float);
    (Breezy, fun r => (8 <=? wind r)%float);
    (Umbrella, fun r => Str.includes "rain" (desc r) || (40 <=? pop r)%float);
    (AirQuality, fun r => Str.includes "haze" (desc r) || Str.includes "smoke" (desc r));
    (ClearSkies, fun r => Str.includes "clear" (desc r)) ].

(** The tips of the table whose condition holds, in the order of the table. *)
Definition spec_fired (r : readings) : list tip :=
  map fst (List.filter (fun row => snd row r) spec_decision_table).

(** The generic tip when no tip fired. *)
Definition or_generic (tips : list tip) : list tip :=
  match tips with [] => [Generic] | _ :: _ => tips end.


(** ** The advice route *)

(** A text of one to four bulleted tips of the rule engine. *)
Definition tip_list (a : string) : Prop :=
  exists tips : list tip, tips <> [] /\ (List.length tips <= 4)%nat /\ a = bullets tips.

(** A text the completion service gave, trimmed, and not empty. *)
Definition service_text (openai : service) (a : string) : Prop :=
  exists (prompt : string) (data : value),
    openai prompt = Completed (Some data)
    /\ content_of data = Some (VStr a)
    /\ Str.is_empty a = false.

(** [location], [current] and [forecast] as the route takes them from the
    request body, the defaults of the pattern applied. *)
Definition fields_of (payload : value) : value * value * value :=
  let b := or payload (VObj []) in
  (default (optGet b "location") (VObj []),
   default (optGet b "current") (VObj []),
   default (optGet b "forecast") (VArr [])).

(** The prompt the route builds for a request body, when it can. *)
Definition prompt_for (payload : value) : option string :=
  let '(location, current, forecast) := fields_of payload in
  prompt_of location current forecast.

(** What the rule engine leads to for a request body: its text, or the tip
    of the [catch] when it throws. *)
Definition offline_answer (payload : value) : string :=
  let '(_, current, forecast) := fields_of payload in
  match ruleBasedAdvice current forecast with
  | Some a => a
  | None => last_resort
  end.

(** The completion service is to be called: mock mode is off and there is
    a key. *)
Definition online (cfg : config) : Prop :=
  USE_MOCK_AI cfg = false /\ key_missing cfg = false.

(** The service answers without a text to use: it refuses with a readable
    body, or completes with a content that is missing, [null], or blank
    once trimmed. *)
Definition degraded (c : completion) : Prop :=
  (exists text : string, c = Refused (Some text))
  \/ (exists data content, c = Completed (Some data)
        /\ content_of data = Some content /\ truthy content = false).

(** The call breaks: [fetch] rejects, a body cannot be read, or the
    completion has a content that is not a string. *)
Definition broken (c : completion) : Prop :=
  c = Failed \/ c = Refused None \/ c = Completed None
  \/ (exists data, c = Completed (Some data) /\ content_of data = None).

(** ** The forecast and its timestamps *)

(** A decimal digit and its value. *)
Definition digit_value (c : ascii) : Z := Str.code c - 48.
Definition is_digit (c : ascii) : bool := (0 <=? digit_value c) && (digit_value c <=? 9).

(** The number a run of digits writes. *)
Definition number (l : list ascii) : Z :=
  fold_left (fun acc c => 10 * acc + digit_value c) l 0.

(** "YYYY-MM-DD" as the number YYYYMMDD. *)
Definition parse_date (s : string) : option Z :=
  match Str.to_list s with
  | [y1; y2; y3; y4; a; m1; m2; b; d1; d2] =>
      if forallb is_digit [y1; y2; y3; y4; m1; m2; d1; d2]
         && Ascii.eqb a "-" && Ascii.eqb b "-"
      then Some (number [y1; y2; y3; y4; m1; m2; d1; d2])
      else None
  | _ => None
  end.

(** "HH:MM:SS" as the number HHMMSS. *)
Definition parse_time (s : string) : option Z :=
  match Str.to_list s with
  | [h1; h2; a; m1; m2; b; s1; s2] =>
      if forallb is_digit [h1; h2; m1; m2; s1; s2]
         && Ascii.eqb a ":" && Ascii.eqb b ":"
      then Some (number [h1; h2; m1; m2; s1; s2])
      else None
  | _ => None
  end.

(** A timestamp is a date, a space and a time; it is read as the pair of
    their numbers, which the order of time compares date first. *)
Definition parse_stamp (s : string) : option (Z * Z) :=
  let day := substring 0 10 s in
  let time := substring 11 8 s in
  if String.eqb s (day +:+ String " " time)
  then d ← parse_date day; t ← parse_time time; Some (d, t)
  else None.

(** Not later: an earlier date, or the same date and not a later time. *)
Definition stamp_leb (a b : Z * Z) : bool :=
  (fst a <? fst b) || ((fst a =? fst b) && (snd a <=? snd b)).

(** The timestamp an upstream forecast entry carries. *)
Definition stamp_of (item : value) : option (Z * Z) :=
  dt_txt ← Get item "dt_txt";
  match dt_txt with
  | VStr s => parse_stamp s
  | _ => None
  end.

(** Each timestamp is not later than the next. *)
Fixpoint nondecreasing (keys : list (Z * Z)) : bool :=
  match keys with
  | a :: (b :: _) as rest => stamp_leb a b && nondecreasing rest
  | _ => true
  end.

(** Every entry carries a well-formed timestamp, and they are in the order
    of time. *)
Definition chronological (items : list value) : bool :=
  match mapM stamp_of items with
  | Some keys => nondecreasing keys
  | None => false
  end.

(** The [day] of a normalized forecast entry. *)
Definition entry_day (d : value) : option string :=
  match optGet d "day" with
  | VStr s => Some s
  | _ => None
  end.

(** The date of a normalized forecast entry, as a number. *)
Definition entry_date (d : value) : option Z := day ← entry_day d; parse_date day.

(** Both entries are dated, the first strictly before the second. *)
Definition date_lt (a b : value) : Prop :=
  exists m n : Z, entry_date a = Some m /\ entry_date b = Some n /\ m < n.

(** [d] was made from the first of [items] that has its date. *)
Definition first_of_its_day (items : list value) (d : value) : Prop :=
  exists (pre : list value) (item : value) (post : list value) (day : string),
    items = pre ++ item :: post
    /\ day_of item = Some day
    /\ d = day_entry day item
    /\ Forall (fun x => day_of x <> Some day) pre.

(** The entries are all dated, and by strictly ascending date. *)
Definition ascending (days : list value) : Prop :=
  Forall (fun d => is_Some (entry_date d)) days /\ StronglySorted date_lt days.

(** What [reduce] maintains, [pre] being the entries gone through and
    [acc] the accumulator: every object of [acc] comes from the first entry
    of its date; every date gone through is in [acc]; no date is there
    twice. *)
Record kept_days (pre acc : list value) : Prop := KeptDays {
  kept_first : Forall (first_of_its_day pre) acc;
  kept_seen : forall (x : value) (day : string), In x pre -> day_of x = Some day ->
                existsb (has_day day) acc = true;
  kept_nodup : NoDup (map entry_day acc)
}.

(** ** Forecast entries in any order *)

(** The date [day] is among the normalized entries [days]. *)
Definition covers (days : list value) (day : string) : Prop :=
  existsb (has_day day) days = true.

(** ** The weather route *)

(** The [city] parameter is missing, or blank once trimmed. *)
Definition missing_or_blank (q : value) : Prop :=
  q = VUndef \/ exists c : string, q = VStr c /\ Str.trim c = "".

(** A call that fails at the transport or HTTP level: [fetch] rejects, or
    the response is not [ok]. *)
Definition failed (r : reply) : Prop :=
  r = Rejected \/ exists j, r = Replied false j.

(** The lookup of [city] at [t_get] gives [v], a payload to serve. *)
Definition hit (t_get : Z) (city : string) (s : state) (v : value) : Prop :=
  fst (getCache t_get (cacheKey city) (cache s)) = v /\ truthy v = true.

(** The lookup of [city] at [t_get] gives nothing to serve. *)
Definition misses (t_get : Z) (city : string) (s : state) : Prop :=
  truthy (fst (getCache t_get (cacheKey city) (cache s))) = false.

(** Geocoding answers, with no match. *)
Definition no_match (w : upstream) (city : string) : Prop :=
  exists geo, w (Geocode city) = Replied true (Some geo)
              /\ truthy (optGet geo "length") = false.

(** The three calls answer, with bodies from which the handler builds the
    payload [n]. *)
Inductive fetched (w : upstream) (city : string) : value -> list request -> Prop :=
| Fetched (geo g0 lat lon loc : value) (lat_s lon_s : string)
          (current forecast n : value) :
    w (Geocode city) = Replied true (Some geo) ->
    truthy (optGet geo "length") = true ->
    Get geo "0" = Some g0 ->
    location_of g0 = Some (lat, lon, loc) ->
    ToString lat = Some lat_s ->
    ToString lon = Some lon_s ->
    w (CurrentWeather lat_s lon_s) = Replied true (Some current) ->
    w (Forecast lat_s lon_s) = Replied true (Some forecast) ->
    normalize loc current forecast = Some n ->
    fetched w city n [Geocode city; CurrentWeather lat_s lon_s; Forecast lat_s lon_s].

(** The cache the lookup of [city] leaves. *)
Definition looked_up (t_get : Z) (city : string) (s : state) : state :=
  State (snd (getCache t_get (cacheKey city) (cache s))) (calls s).

(** The ways a request gets an answer other than the 500 of the [catch]. *)
Inductive answered (w : upstream) (t_get t_set : Z) (q : value) (s : state)
  : response -> state -> Prop :=
| Answered_400 :
    city_of q = Some "" ->
    answered w t_get t_set q s (error 400 "city is required") s
| Answered_cached (city : string) (v : value) :
    city_of q = Some city -> city <> "" -> hit t_get city s v ->
    answered w t_get t_set q s (json v) s
| Answered_404 (city : string) :
    city_of q = Some city -> city <> "" -> misses t_get city s ->
    no_match w city ->
    answered w t_get t_set q s (error 404 "City not found")
      (log (Geocode city) (looked_up t_get city s))
| Answered_fetched (city : string) (n : value) (made : list request) :
    city_of q = Some city -> city <> "" -> misses t_get city s ->
    fetched w city n made ->
    answered w t_get t_set q s (json n)
      (State (setCache t_set (cacheKey city) n (cache (looked_up t_get city s)))
             (calls s ++ made)).

(** The upstream calls one request can make. *)
Definition calls_of_a_request (city : string) (made : list request) : Prop :=
  made = []
  \/ made = [Geocode city]
  \/ exists lat lon, made = [Geocode city; CurrentWeather lat lon; Forecast lat lon].

(** The fields of [normalized.current]. *)
Definition current_fields : list string :=
  ["description"; "temp"; "feels_like"; "humidity"; "wind_speed"; "clouds"; "dt"].

(** The names of the own properties of an object, in order. *)
Definition keys (v : value) : list string :=
  match v with
  | VObj props => map fst props
  | _ => []
  end.

(** ** The page script *)

(** The text begins with a dash, a bullet, a digit, a dot or white
    space. *)
Definition begins_with_bullet (s : string) : Prop :=
  is_Some (Str.strip_any Client.bullet_class (Str.to_list s)).

(** A line fit to be shown as a tip: not empty, without a line feed, and
    without a bullet in front. *)
Definition clean_line (s : string) : Prop :=
  s <> "" /\ ~ In (Str.chr 10) (Str.to_list s) /\ ~ begins_with_bullet s.

(** What [renderWeather] is to show for a payload: the location, the
    current conditions and the cards. *)
Definition view (wx : value) : option (string * string * list string) :=
  location ← Get wx "location";
  l ← Client.locLine location;
  c ← Get wx "current";
  cl ← Client.currentLine c;
  forecast ← Get wx "forecast";
  match forecast with
  | VArr fs => cards ← mapM Client.card fs; Some (l, cl, cards)
  | _ => None
  end.

(** The page with the panel revealed and a view in it. *)
Definition rendered (v : string * string * list string) (p : Client.page)
  : Client.page :=
  let '(l, cl, cards) := v in
  Client.set_cards cards
    (Client.set_current cl (Client.set_loc l (Client.set_hidden false p))).

(** Two pages with the same status line, the same tips and the same
    requests sent: what [renderWeather] leaves alone. *)
Definition same_outside_results (p p' : Client.page) : Prop :=
  Client.elStatus p' = Client.elStatus p
  /\ Client.elTips p' = Client.elTips p
  /\ Client.sent p' = Client.sent p.

(** Two pages with the same results in the panel. *)
Definition same_results (p p' : Client.page) : Prop :=
  Client.elLoc p' = Client.elLoc p
  /\ Client.elCurrent p' = Client.elCurrent p
  /\ Client.elForecastCards p' = Client.elForecastCards p
  /\ Client.elTips p' = Client.elTips p.

(** The page when the weather request for [city] has just been sent. *)
Definition loading (city : string) (p : Client.page) : Client.page :=
  Client.log (Client.GetWeather city)
    (Client.set_hidden true (Client.set_status (Client.Text "Loading…") p)).

(** The page when the advice request for [wx] has just been sent, the
    view [v] rendered. *)
Definition generating (city : string) (wx : value) (v : string * string * list string)
    (p : Client.page) : Client.page :=
  Client.log (Client.PostAdvice wx)
    (Client.set_status (Client.Text "Generating tips…") (rendered v (loading city p))).

(** The error thrown for a response that is not [ok], of body [data]. *)
Definition thrown_for (data : value) (fallback : string) : Client.exn :=
  match Get data "error" with
  | None => Client.Raised
  | Some e =>
      match ToString (or e (VStr fallback)) with
      | Some message => Client.Thrown message
      | None => Client.Raised
      end
  end.

(** The weather request for [city] is answered [ok] with the payload
    [wx]. *)
Definition weather_ok (srv : Client.server) (city : string) (wx : value) : Prop :=
  srv (Client.GetWeather city) = Client.Answer true (Some wx).

(** The advice request for [wx] is answered [ok] with the text [a]. *)
Definition advice_ok (srv : Client.server) (wx : value) (a : string) : Prop :=
  exists ai, srv (Client.PostAdvice wx) = Client.Answer true (Some ai)
             /\ Get ai "advice" = Some (VStr a).

(** The tips shown for the text [a]. *)
Definition tips_shown (a : string) : list string :=
  match Client.tip_lines a with
  | [] => [a]
  | line :: lines => line :: lines
  end.

(** The texts an error response of the weather route carries. *)
Definition weather_errors : list string :=
  ["city is required"; "City not found"; "Server error fetching weather"].

(* ===================================================================== *)
(** * Sample inputs *)
(* ===================================================================== *)

(** A cache of two cities, filled at times 1000 and 2000. *)
Definition paris_entry : entry := Entry (VStr "sunny") 1000.
Definition two_cities : store :=
  <[ "wx:paris" := paris_entry ]> (<[ "wx:oslo" := Entry (VStr "snow") 2000 ]> ∅).

(** A cache with an entry for Évora, filled at time 1000. *)
Definition evora_entry : entry := Entry (VStr "sol") 1000.
Definition evora_cache : store := <[ "wx:évora" := evora_entry ]> ∅.

(** The input of the specification's example. *)
Definition example_current : value :=
  VObj [("temp", VNum 36); ("humidity", VNum 80); ("wind_speed", VNum 10);
        ("description", VStr "light rain")].
Definition example_forecast : value := VArr [VObj [("pop", VNum 0.5)]].


(** The readings of an empty request body. *)
Definition no_readings : readings := Readings nan nan zero zero "" zero.

(** Readings under which every condition of the rule engine holds. *)
Definition stormy_readings : readings :=
  Readings 36 36 80 10 "rain, haze, then clear" 50.

(** A forecast body of three entries over two days. *)
Definition may_forecast : value :=
  VObj [("list",
         VArr [ VObj [("dt_txt", VStr "2024-05-01 21:00:00"); ("pop", VNum 0.5)];
                VObj [("dt_txt", VStr "2024-05-02 00:00:00")];
                VObj [("dt_txt", VStr "2024-05-02 03:00:00")] ])].

(** A forecast body whose entries are not in the order of time, one of
    them with a date and nothing else. *)
Definition shuffled_forecast : value :=
  VObj [("list",
         VArr [ VObj [("dt_txt", VStr "2024-05-02 00:00:00")];
                VObj [("dt_txt", VStr "2024-05-01 21:00:00"); ("pop", VNum 0.5)];
                VObj [("dt_txt", VStr "2024-05-02")] ])].

(** What an upstream that knows Paris answers to geocoding. *)
Definition paris_matches : value :=
  VArr [VObj [("name", VStr "Paris"); ("lat", VNum 48.5); ("lon", VNum 2.25);
              ("country", VStr "FR")]].

(** Its current conditions, with no wind and no clouds. *)
Definition paris_current : value :=
  VObj [("weather", VArr [VObj [("description", VStr "clear sky")]]);
        ("main", VObj [("temp", VNum 21.5); ("humidity", VNum 40)]);
        ("dt", VNum 1700000000)].

(** The upstream: every call answers 200. *)
Definition paris_world (req : request) : reply :=
  match req with
  | Geocode _ => Replied true (Some paris_matches)
  | CurrentWeather _ _ => Replied true (Some paris_current)
  | Forecast _ _ => Replied true (Some may_forecast)
  end.

(** An upstream that finds no city. *)
Definition nowhere_world (req : request) : reply :=
  match req with
  | Geocode _ => Replied true (Some (VArr []))
  | _ => paris_world req
  end.

(** An upstream whose forecast answers 200 with a body without [list]. *)
Definition listless_world (req : request) : reply :=
  match req with
  | Forecast _ _ => Replied true (Some (VObj []))
  | _ => paris_world req
  end.

(** The same upstream later on, when it rains in Paris. *)
Definition rainy_world (req : request) : reply :=
  match req with
  | CurrentWeather _ _ =>
      Replied true
        (Some (VObj [("weather", VArr [VObj [("description", VStr "light rain")]])]))
  | _ => paris_world req
  end.

(** The process at start-up, and once Paris has been asked for at time 0
    and its payload stored at time 5. *)
Definition fresh : state := State ∅ [].
Definition paris_cached : state := snd (handler paris_world 0 5 (VStr "Paris") fresh).

(** The location in the payload the route builds for Paris. *)
Definition paris_location : value :=
  VObj [("name", VStr "Paris"); ("state", VStr ""); ("country", VStr "FR");
        ("lat", VNum 48.5); ("lon", VNum 2.25)].

(** The payload itself. *)
Definition paris_payload : value :=
  Eval vm_compute in
    match normalize paris_location paris_current may_forecast with
    | Some n => n
    | None => VUndef
    end.

(** Two environments: mock mode on and no key; a key and nothing else. *)
Definition mock_env : Startup.env :=
  fun k => if String.eqb k "USE_MOCK_AI" then Some "true" else None.
Definition keyed_env : Startup.env :=
  fun k => if String.eqb k "OPENAI_API_KEY" then Some "sk-test" else None.

(** Three completion services: one that refuses every call, one that
    cannot be reached, one that answers every call with the same tip. *)
Definition refusing : service := fun _ => Refused (Some "quota exceeded").
Definition unreachable : service := fun _ => Failed.
Definition chatty : service :=
  fun _ =>
    Completed
      (Some (VObj [("choices",
                    VArr [VObj [("message",
                                 VObj [("content", VStr "  Carry water.  ")])]])])).

(** The prompt built for the payload of Paris. *)
Definition paris_prompt : string :=
  Eval vm_compute in
    match prompt_for paris_payload with
    | Some p => p
    | None => ""
    end.

(** A page before its first run, and three servers: one that answers the
    payload of Paris and two tips, one that knows no city, one that cannot
    be reached. *)
Definition blank_page : Client.page :=
  Client.Page (Client.Text "") true "" "" [] [] [].
Definition paris_server (r : Client.request) : Client.answer :=
  match r with
  | Client.GetWeather _ => Client.Answer true (Some paris_payload)
  | Client.PostAdvice _ =>
      Client.Answer true (Some (VObj [("advice", VStr (bullets [Pleasant; ClearSkies]))]))
  end.
Definition lost_server (r : Client.request) : Client.answer :=
  Client.Answer false (Some (VObj [("error", VStr "City not found")])).
Definition down_server (r : Client.request) : Client.answer := Client.NoAnswer.

(** A server that answers the payload of Paris, and to the advice request
    what the advice route answers for it in mock mode. *)
Definition mock_server (r : Client.request) : Client.answer :=
  match r with
  | Client.GetWeather _ => Client.Answer true (Some paris_payload)
  | Client.PostAdvice _ =>
      Client.Answer true
        (Some (Advice.body
                 (Advice.handler (Startup.config_of mock_env) unreachable paris_payload)))
  end.

(* ===================================================================== *)
(** * Properties of the cache *)
(* ===================================================================== *)

Section CacheFacts.

Implicit Types (cache : store) (key : string) (now : Z) (hit : entry).

Lemma getCache_absent now key cache :
  cache !! key = None -> getCache now key cache = (VNull, cache).
Proof. intros H. unfold getCache. now rewrite H. Qed.

Lemma getCache_stale now key cache hit :
  cache !! key = Some hit -> stale now hit ->
  getCache now key cache = (VNull, delete key cache).
Proof.
  intros H Hs. unfold getCache. rewrite H.
  destruct (Z.ltb_spec cacheTTLms (now - ts hit)) as [_ | Hle]; [reflexivity |].
  unfold stale in Hs. lia.
Qed.

Lemma getCache_fresh now key cache hit :
  cache !! key = Some hit -> now - ts hit <= cacheTTLms ->
  getCache now key cache = (data hit, cache).
Proof.
  intros H Hf. unfold getCache. rewrite H.
  destruct (Z.ltb_spec cacheTTLms (now - ts hit)) as [Hlt | _]; [lia | reflexivity].
Qed.

(** C3. A lookup of a key that is absent, or whose entry is older than
    five minutes (counted from its insertion), reports a miss: it returns
    [null], never the stale data, and the cache it leaves holds no entry
    under the key: a stale entry has been deleted by the lookup. *)
Theorem getCache_miss_and_purge now key cache :
  cache !! key = None \/ (exists hit, cache !! key = Some hit /\ stale now hit) ->
  fst (getCache now key cache) = VNull
  /\ snd (getCache now key cache) = delete key cache
  /\ snd (getCache now key cache) !! key = None.
Proof.
  intros [Habs | (hit & Hhit & Hs)].
  - rewrite (getCache_absent _ _ _ Habs). cbn.
    rewrite (delete_id _ _ Habs). auto.
  - rewrite (getCache_stale _ _ _ _ Hhit Hs). cbn.
    split; [reflexivity | split; [reflexivity | apply lookup_delete_eq]].
Qed.

(** C9. With [k] and [k'] two different keys: a lookup of [k] leaves the
    entry under [k'] as it was, and so does an insertion under [k]; the
    lookup leaves the whole cache as it was, or deletes the entry of [k],
    which then was stale. *)
Theorem cache_frame now (k k' : string) cache (d : value) :
  k <> k' ->
  snd (getCache now k cache) !! k' = cache !! k'
  /\ setCache now k d cache !! k' = cache !! k'
  /\ (snd (getCache now k cache) = cache
      \/ (snd (getCache now k cache) = delete k cache
          /\ exists hit, cache !! k = Some hit /\ stale now hit)).
Proof.
  intros Hne. unfold getCache, setCache.
  destruct (cache !! k) as [hit |] eqn:Hk; cbn.
  - destruct (Z.ltb_spec cacheTTLms (now - ts hit)) as [Hlt | Hle]; cbn.
    + split; [now apply lookup_delete_ne |].
      split; [now apply lookup_insert_ne |].
      right. split; [reflexivity |]. exists hit. split; [reflexivity | exact Hlt].
    + split; [reflexivity |]. split; [now apply lookup_insert_ne | now left].
  - split; [reflexivity |]. split; [now apply lookup_insert_ne | now left].
Qed.

End CacheFacts.

Lemma getCache_miss_and_purge_witness :
  fst (getCache 400000 "wx:paris" two_cities) = VNull
  /\ snd (getCache 400000 "wx:paris" two_cities) = delete "wx:paris" two_cities
  /\ snd (getCache 400000 "wx:paris" two_cities) !! "wx:paris" = None.
Proof.
  apply getCache_miss_and_purge. right. exists paris_entry.
  split; [reflexivity | unfold stale, cacheTTLms, paris_entry; simpl; lia].
Defined.

Lemma cache_frame_witness :
  snd (getCache 400000 "wx:paris" two_cities) !! "wx:oslo" = two_cities !! "wx:oslo"
  /\ setCache 400000 "wx:paris" VNull two_cities !! "wx:oslo" = two_cities !! "wx:oslo"
  /\ (snd (getCache 400000 "wx:paris" two_cities) = two_cities
      \/ (snd (getCache 400000 "wx:paris" two_cities) = delete "wx:paris" two_cities
          /\ exists hit, two_cities !! "wx:paris" = Some hit /\ stale 400000 hit)).
Proof. apply cache_frame. discriminate. Defined.

(* ===================================================================== *)
(** * Properties of the rule engine *)
(* ===================================================================== *)

Ltac split_conditions :=
  repeat match goal with
         | |- context [if ?b then _ else _] =>
             lazymatch type of b with bool => destruct b end
         end.

Section RuleEngine.

Implicit Types (current forecast : value) (r : readings).

Lemma tips_in_table_order r : tips_of r = spec_fired r.
Proof.
  unfold tips_of, spec_fired, spec_decision_table, when, spec_valid, spec_hot, spec_cool.
  cbn [List.filter map fst snd].
  destruct (is_nan (t r)); cbn [negb andb];
    destruct ((32 <=? t r)%float || (34 <=? feels r)%float); cbn [negb andb];
    destruct (t r <=? 15)%float; cbn [negb andb];
    split_conditions; reflexivity.
Qed.

Lemma kept_length (tips : list tip) : (List.length (kept tips) <= 4)%nat.
Proof. unfold kept. rewrite length_firstn. lia. Qed.

Lemma kept_not_nil (tips : list tip) : kept tips <> [].
Proof. unfold kept. destruct tips; discriminate. Qed.

Lemma In_firstn {A : Type} (n : nat) (l : list A) (x : A) :
  In x (firstn n l) -> In x l.
Proof.
  revert l. induction n as [| n IH]; intros [| a l]; cbn; try tauto.
  intros [-> | H]; [now left | right; now apply IH].
Qed.

Lemma kept_In (x : tip) (tips : list tip) :
  In x (kept tips) -> In x tips \/ x = Generic.
Proof.
  unfold kept. intros H. apply In_firstn in H.
  destruct tips; [right | left; exact H].
  destruct H as [H | []]. now symmetry.
Qed.

(** What [read] computed when it returned. *)
Lemma read_Some current forecast r :
  read current forecast = Some r ->
  (exists v, Get current "temp" = Some v /\ ToNumber v = Some (t r))
  /\ number_or_zero current "humidity" = Some (hum r)
  /\ number_or_zero current "wind_speed" = Some (wind r)
  /\ desc_of current = Some (desc r)
  /\ pop_of forecast = Some (pop r).
Proof.
  unfold read. intros H.
  destruct (Get current "temp") as [v |] eqn:E1; [| discriminate]. cbn in H.
  destruct (ToNumber v) as [x1 |] eqn:E2; [| discriminate]. cbn in H.
  destruct (Get current "feels_like") as [v2 |]; [| discriminate]. cbn in H.
  destruct (ToNumber v2) as [x2 |]; [| discriminate]. cbn in H.
  destruct (number_or_zero current "humidity") as [x3 |]; [| discriminate]. cbn in H.
  destruct (number_or_zero current "wind_speed") as [x4 |]; [| discriminate]. cbn in H.
  destruct (desc_of current) as [x5 |]; [| discriminate]. cbn in H.
  destruct (pop_of forecast) as [x6 |]; [| discriminate]. cbn in H.
  injection H as <-. cbn. eauto 10.
Qed.

(** C6. On the specification's example (36 degrees, humidity 80, wind
    10, "light rain", rain probability 0.5) the engine gives the heat,
    humidity, wind and umbrella tips, in this order and no other.  In
    general the tips pushed are those of the decision table whose
    condition holds, in the order of the table, and the result is the
    first four of them (of the generic tip alone when none fired). *)
Theorem rule_engine_fixed_order :
  ruleBasedAdvice example_current example_forecast
    = Some (bullets [Hot; Humid; Breezy; Umbrella])
  /\ (exists r, read example_current example_forecast = Some r
                /\ tips_of r = [Hot; Humid; Breezy; Umbrella])
  /\ (forall r, tips_of r = spec_fired r)
  /\ (forall current forecast,
        ruleBasedAdvice current forecast
        = r ← read current forecast;
          Some (bullets (firstn 4 (or_generic (spec_fired r)))))
  /\ (forall r, (List.length (kept (tips_of r)) <= 4)%nat).
Proof.
  split; [vm_compute; reflexivity |].
  split; [eexists; split; vm_compute; reflexivity |].
  split; [exact tips_in_table_order |].
  split; [| intros r; apply kept_length].
  intros current forecast. unfold ruleBasedAdvice.
  destruct (read current forecast) as [r |]; [| reflexivity]. cbn.
  now rewrite tips_in_table_order.
Qed.


Lemma zero_below_70 : (70 <=? zero)%float = false.
Proof. reflexivity. Qed.
Lemma zero_below_8 : (8 <=? zero)%float = false.
Proof. reflexivity. Qed.
Lemma zero_below_40 : (40 <=? zero)%float = false.
Proof. reflexivity. Qed.
Lemma number_or_zero_absent current (k : string) :
  Get current k = Some VUndef -> number_or_zero current k = Some zero.
Proof. intros H. unfold number_or_zero. rewrite H. reflexivity. Qed.

Lemma pop_of_absent forecast :
  first_pop forecast = VUndef -> pop_of forecast = Some zero.
Proof.
  intros H. unfold pop_of. rewrite H. vm_compute. reflexivity.
Qed.

(** C10. A humidity, wind speed or first rain probability that reads as
    [undefined] counts as 0: the humidity tip, respectively the wind tip,
    is then not given; and with no first rain probability (an empty
    forecast has none) the rounded probability is 0, so the umbrella tip
    is given exactly when the description contains "rain". *)
Theorem absent_readings_count_as_zero current forecast :
  (Get current "humidity" = Some VUndef ->
     number_or_zero current "humidity" = Some zero
     /\ forall r, read current forecast = Some r ->
          hum r = zero /\ ~ In Humid (kept (tips_of r)))
  /\ (Get current "wind_speed" = Some VUndef ->
     number_or_zero current "wind_speed" = Some zero
     /\ forall r, read current forecast = Some r ->
          wind r = zero /\ ~ In Breezy (kept (tips_of r)))
  /\ (first_pop forecast = VUndef ->
     pop_of forecast = Some zero
     /\ forall r, read current forecast = Some r ->
          pop r = zero
          /\ (In Umbrella (kept (tips_of r)) <-> Str.includes "rain" (desc r) = true))
  /\ first_pop (VArr []) = VUndef.
Proof.
  split; [| split; [| split; [| reflexivity]]].
  - intros Habs. split; [now apply number_or_zero_absent |].
    intros r Hread. destruct (read_Some _ _ _ Hread) as (_ & Hhum & _).
    rewrite (number_or_zero_absent _ _ Habs) in Hhum.
    injection Hhum as Hz. split; [now symmetry |].
    intros Hin. apply kept_In in Hin. destruct Hin as [Hin | ?]; [| discriminate].
    revert Hin. unfold tips_of, when. rewrite <- Hz, zero_below_70.
    split_conditions; cbn; intuition discriminate.
  - intros Habs. split; [now apply number_or_zero_absent |].
    intros r Hread. destruct (read_Some _ _ _ Hread) as (_ & _ & Hwind & _).
    rewrite (number_or_zero_absent _ _ Habs) in Hwind.
    injection Hwind as Hz. split; [now symmetry |].
    intros Hin. apply kept_In in Hin. destruct Hin as [Hin | ?]; [| discriminate].
    revert Hin. unfold tips_of, when. rewrite <- Hz, zero_below_8.
    split_conditions; cbn; intuition discriminate.
  - intros Habs. split; [now apply pop_of_absent |].
    intros r Hread. destruct (read_Some _ _ _ Hread) as (_ & _ & _ & _ & Hpop).
    rewrite (pop_of_absent _ Habs) in Hpop.
    injection Hpop as Hz. split; [now symmetry |].
    unfold tips_of, when. rewrite <- Hz, zero_below_40, orb_false_r.
    destruct (Str.includes "rain" (desc r));
      split_conditions; cbn; intuition discriminate.
Qed.

End RuleEngine.

Lemma absent_readings_count_as_zero_witness :
  (number_or_zero (VObj []) "humidity" = Some zero
   /\ hum no_readings = zero /\ ~ In Humid (kept (tips_of no_readings)))
  /\ (number_or_zero (VObj []) "wind_speed" = Some zero
      /\ wind no_readings = zero /\ ~ In Breezy (kept (tips_of no_readings)))
  /\ (pop_of (VArr []) = Some zero
      /\ pop no_readings = zero
      /\ (In Umbrella (kept (tips_of no_readings))
          <-> Str.includes "rain" (desc no_readings) = true)).
Proof.
  destruct (absent_readings_count_as_zero (VObj []) (VArr [])) as (Hh & Hw & Hp & _).
  destruct (Hh eq_refl) as [Hh0 Hh1].
  destruct (Hw eq_refl) as [Hw0 Hw1].
  destruct (Hp eq_refl) as [Hp0 Hp1].
  split; [split; [exact Hh0 | exact (Hh1 no_readings eq_refl)] |].
  split; [split; [exact Hw0 | exact (Hw1 no_readings eq_refl)] |].
  split; [exact Hp0 | exact (Hp1 no_readings eq_refl)].
Defined.



(* ===================================================================== *)
(** * Properties of the advice route *)
(* ===================================================================== *)

Section AdviceRoute.

(** The names [route], [handler], [response] are those of the advice route here. *)
Import Advice.

Implicit Types (cfg : config) (openai : service) (payload current forecast : value).

Lemma bullets_not_empty (tips : list tip) : tips <> [] -> bullets tips <> "".
Proof.
  destruct tips as [| x rest]; [congruence |]. intros _.
  unfold bullets. cbn [map]. destruct (map _ rest); cbn; discriminate.
Qed.

Lemma ruleBasedAdvice_tip_list current forecast (a : string) :
  ruleBasedAdvice current forecast = Some a -> tip_list a.
Proof.
  unfold ruleBasedAdvice. intros H.
  destruct (read current forecast) as [r |]; [| discriminate].
  injection H as <-. exists (kept (tips_of r)).
  split; [apply kept_not_nil | split; [apply kept_length | reflexivity]].
Qed.

Lemma fallback_Some current forecast (r : response) :
  fallback current forecast = Some r -> exists a, r = advice a /\ tip_list a.
Proof.
  unfold fallback. intros H.
  destruct (ruleBasedAdvice current forecast) as [a |] eqn:E; [| discriminate].
  injection H as <-. exists a. split; [reflexivity |].
  now apply ruleBasedAdvice_tip_list with current forecast.
Qed.

(** Every way out of the [try] block is a [res.json({ advice })]. *)
Lemma route_Some cfg openai payload (r : response) :
  route cfg openai payload = Some r ->
  exists a, r = advice a /\ (tip_list a \/ service_text openai a).
Proof.
  unfold route. intros H.
  destruct (Get (or payload (VObj [])) "location") as [location |]; [| discriminate].
  destruct (Get (or payload (VObj [])) "current") as [current |]; [| discriminate].
  destruct (Get (or payload (VObj [])) "forecast") as [forecast |]; [| discriminate].
  cbn in H.
  set (cur := default current (VObj [])) in *.
  set (fc := default forecast (VArr [])) in *.
  assert (Hfb : forall r', fallback cur fc = Some r' ->
                  exists a, r' = advice a /\ (tip_list a \/ service_text openai a)).
  { intros r' Hr'. destruct (fallback_Some _ _ _ Hr') as (a & -> & Ha). eauto. }
  destruct (USE_MOCK_AI cfg); [now apply Hfb |].
  destruct (key_missing cfg); [now apply Hfb |].
  destruct (prompt_of _ cur fc) as [prompt |]; [| discriminate]. cbn in H.
  destruct (openai prompt) as [| text | json] eqn:Hcall; [discriminate | |].
  - destruct text; [| discriminate]. now apply Hfb.
  - destruct json as [data |]; [| discriminate]. cbn in H.
    destruct (content_of data) as [content |] eqn:Hcontent; [| discriminate]. cbn in H.
    destruct content as [| | | | s | | |]; try now apply Hfb.
    destruct (Str.is_empty s) eqn:Hs; [now apply Hfb |].
    injection H as <-. exists s. split; [reflexivity |]. right.
    exists prompt, data. auto.
Qed.

(** C1. Whatever the request body, and whatever the completion service
    does, the route answers 200 with a body [{ advice }] whose text is
    not empty: one to four tips of the rule engine, or the trimmed text
    of the service, or the tip of last resort. *)
Theorem advice_always_succeeds cfg openai payload :
  status (handler cfg openai payload) = 200
  /\ exists a : string,
       body (handler cfg openai payload) = VObj [("advice", VStr a)]
       /\ a <> ""
       /\ (tip_list a \/ service_text openai a \/ a = last_resort).
Proof.
  unfold handler.
  destruct (route cfg openai payload) as [r |] eqn:E.
  - destruct (route_Some _ _ _ _ E) as (a & -> & Ha).
    split; [reflexivity |]. exists a. split; [reflexivity |].
    split; [| tauto].
    destruct Ha as [(tips & Hne & _ & ->) | (_ & _ & _ & _ & Hs)].
    + now apply bullets_not_empty.
    + intros ->. discriminate.
  - split; [reflexivity |]. exists last_resort.
    split; [reflexivity |]. split; [discriminate | tauto].
Qed.

End AdviceRoute.

(* ===================================================================== *)
(** * Properties of the forecast normalization *)
(* ===================================================================== *)

Section Timestamps.

Lemma digit_value_inj (c c' : ascii) : digit_value c = digit_value c' -> c = c'.
Proof.
  unfold digit_value, Str.code. intros H.
  assert (Hn : nat_of_ascii c = nat_of_ascii c') by lia.
  rewrite <- (ascii_nat_embedding c), <- (ascii_nat_embedding c'). now rewrite Hn.
Qed.

Lemma is_digit_bounds (c : ascii) : is_digit c = true -> 0 <= digit_value c <= 9.
Proof. unfold is_digit. intros H. apply andb_prop in H. lia. Qed.

Lemma is_digit_not_space (c : ascii) : is_digit c = true -> c <> " "%char.
Proof. intros H ->. discriminate H. Qed.

Lemma before_space_app (day rest : string) :
  Forall (fun c => c <> " "%char) (Str.to_list day) ->
  Str.before_space (day +:+ String " " rest) = day.
Proof.
  induction day as [| c day IH]; intros H.
  - reflexivity.
  - cbn [Str.to_list list_ascii_of_string] in H.
    inversion H as [| ? ? Hc Hrest]; subst.
    apply Ascii.eqb_neq in Hc.
    change (Str.before_space (String c day +:+ String " " rest))
      with (if Ascii.eqb c " " then EmptyString
            else String c (Str.before_space (day +:+ String " " rest))).
    rewrite Hc. f_equal. now apply IH.
Qed.

Lemma parse_date_no_space (s : string) (n : Z) :
  parse_date s = Some n -> Forall (fun c => c <> " "%char) (Str.to_list s).
Proof.
  unfold parse_date.
  destruct (Str.to_list s)
    as [| y1 [| y2 [| y3 [| y4 [| a [| m1 [| m2 [| b [| d1 [| d2 [| ? ?]]]]]]]]]]];
    try discriminate.
  destruct (forallb is_digit _ && Ascii.eqb a "-" && Ascii.eqb b "-") eqn:E;
    [| discriminate].
  intros _. apply andb_prop in E as [E Eb]. apply andb_prop in E as [E Ea].
  apply Ascii.eqb_eq in Ea, Eb. subst a b.
  cbn in E. repeat (apply andb_prop in E as [?%is_digit_not_space E]).
  repeat constructor; try assumption; discriminate.
Qed.

Lemma parse_date_inj (s s' : string) (n : Z) :
  parse_date s = Some n -> parse_date s' = Some n -> s = s'.
Proof.
  unfold parse_date. intros H H'.
  rewrite <- (string_of_list_ascii_of_string s), <- (string_of_list_ascii_of_string s').
  unfold Str.to_list in *.
  destruct (list_ascii_of_string s)
    as [| y1 [| y2 [| y3 [| y4 [| a [| m1 [| m2 [| b [| d1 [| d2 [| ? ?]]]]]]]]]]];
    try discriminate.
  destruct (list_ascii_of_string s')
    as [| z1 [| z2 [| z3 [| z4 [| a' [| n1 [| n2 [| b' [| e1 [| e2 [| ? ?]]]]]]]]]]];
    try discriminate.
  destruct (forallb is_digit [y1; _; _; _; _; _; _; _] && _ && _) eqn:E; [| discriminate].
  destruct (forallb is_digit [z1; _; _; _; _; _; _; _] && _ && _) eqn:E'; [| discriminate].
  apply andb_prop in E as [E Eb]. apply andb_prop in E as [E Ea].
  apply andb_prop in E' as [E' Eb']. apply andb_prop in E' as [E' Ea'].
  apply Ascii.eqb_eq in Ea, Eb, Ea', Eb'. subst a b a' b'.
  cbn in E, E'.
  repeat (apply andb_prop in E as [?%is_digit_bounds E]).
  repeat (apply andb_prop in E' as [?%is_digit_bounds E']).
  injection H as H. injection H' as H'. unfold number in H, H'. cbn in H, H'.
  assert (digit_value y1 = digit_value z1 /\ digit_value y2 = digit_value z2
          /\ digit_value y3 = digit_value z3 /\ digit_value y4 = digit_value z4
          /\ digit_value m1 = digit_value n1 /\ digit_value m2 = digit_value n2
          /\ digit_value d1 = digit_value e1 /\ digit_value d2 = digit_value e2)
    as (E1 & E2 & E3 & E4 & E5 & E6 & E7 & E8) by lia.
  apply digit_value_inj in E1, E2, E3, E4, E5, E6, E7, E8. now subst.
Qed.

(** The date of a well-formed timestamp is what [split(" ")[0]] cuts. *)
Lemma parse_stamp_day (s : string) (d t : Z) :
  parse_stamp s = Some (d, t) -> parse_date (Str.before_space s) = Some d.
Proof.
  unfold parse_stamp.
  remember (substring 0 10 s) as day eqn:Hday.
  remember (substring 11 8 s) as time eqn:Htime.
  destruct (String.eqb s (day +:+ String " " time)) eqn:E; [| discriminate].
  apply String.eqb_eq in E.
  destruct (parse_date day) as [d' |] eqn:Hd; [| discriminate]. cbn.
  destruct (parse_time time) as [t' |]; [| discriminate]. cbn.
  intros [= -> ->]. clear Hday Htime. subst s.
  rewrite before_space_app; [exact Hd |].
  now apply parse_date_no_space with d.
Qed.

End Timestamps.

Section ForecastDays.

Implicit Types (items pre rest acc days : list value) (item d : value) (day : string).

Lemma has_day_entry day day' item :
  has_day day (day_entry day' item) = String.eqb day' day.
Proof. reflexivity. Qed.

Lemma entry_day_entry day item : entry_day (day_entry day item) = Some day.
Proof. reflexivity. Qed.

Lemma has_day_true day d : has_day day d = true <-> entry_day d = Some day.
Proof.
  unfold has_day, entry_day. destruct (optGet d "day"); try (split; discriminate).
  rewrite String.eqb_eq. split; congruence.
Qed.

Lemma stamp_of_day item (k t : Z) :
  stamp_of item = Some (k, t) ->
  exists day, day_of item = Some day /\ parse_date day = Some k.
Proof.
  unfold stamp_of, day_of.
  destruct (Get item "dt_txt") as [[| | | | s | | |] |]; try discriminate. cbn.
  intros H. exists (Str.before_space s). split; [reflexivity |].
  now apply parse_stamp_day with t.
Qed.

(** ** What [reduce] keeps *)

Lemma first_of_its_day_app pre rest d :
  first_of_its_day pre d -> first_of_its_day (pre ++ rest) d.
Proof.
  intros (p & item & q & day & -> & Hday & Hd & Hp).
  exists p, item, (q ++ rest), day. rewrite <- app_assoc. cbn. auto.
Qed.

Lemma step_kept pre acc item acc' :
  step acc item = Some acc' -> kept_days pre acc -> kept_days (pre ++ [item]) acc'.
Proof.
  unfold step. destruct (day_of item) as [day |] eqn:Hday; [| discriminate]. cbn.
  intros [= <-] [Hfirst Hseen Hnodup].
  destruct (existsb (has_day day) acc) eqn:Hex.
  - split.
    + eapply List.Forall_impl; [| exact Hfirst]. intros d. apply first_of_its_day_app.
    + intros x day' Hin Hx. apply in_app_or in Hin as [Hin | [<- | []]].
      * now apply Hseen with x.
      * congruence.
    + exact Hnodup.
  - split.
    + apply Forall_app. split.
      * eapply List.Forall_impl; [| exact Hfirst]. intros d. apply first_of_its_day_app.
      * constructor; [| constructor].
        exists pre, item, [], day. repeat split; try assumption.
        apply List.Forall_forall. intros x Hin Hx.
        rewrite (Hseen x day Hin Hx) in Hex. discriminate.
    + intros x day' Hin Hx. rewrite existsb_app.
      apply in_app_or in Hin as [Hin | [<- | []]].
      * rewrite (Hseen x day' Hin Hx). reflexivity.
      * assert (day' = day) as -> by congruence.
        cbn [existsb]. rewrite has_day_entry, String.eqb_refl. now rewrite orb_true_r.
    + rewrite map_app. cbn [map]. rewrite entry_day_entry.
      apply NoDup_app. split; [exact Hnodup |]. split; [| repeat constructor; inversion 1].
      intros o Ho Hin. apply list_elem_of_In in Hin. destruct Hin as [<- | []].
      apply list_elem_of_In, in_map_iff in Ho as (d & Hd & Hin).
      apply has_day_true in Hd.
      assert (existsb (has_day day) acc = true) as Hyes
        by (apply existsb_exists; eauto).
      congruence.
Qed.

Lemma reduce_kept rest : forall pre acc days,
  reduce acc rest = Some days -> kept_days pre acc -> kept_days (pre ++ rest) days.
Proof.
  induction rest as [| item rest IH]; intros pre acc days; cbn.
  - intros [= <-]. now rewrite app_nil_r.
  - destruct (step acc item) as [acc' |] eqn:Hstep; [| discriminate]. cbn.
    intros Hred Hk.
    replace (pre ++ item :: rest) with ((pre ++ [item]) ++ rest)
      by (rewrite <- app_assoc; reflexivity).
    apply IH with acc'; [exact Hred |]. now apply step_kept with acc.
Qed.

(** ** Entries in the order of time *)

Lemma nondecreasing_cons (a : Z * Z) (keys : list (Z * Z)) :
  nondecreasing (a :: keys) = true ->
  nondecreasing keys = true /\ Forall (fun b => fst a <= fst b) keys.
Proof.
  revert a. induction keys as [| b keys IH]; intros a H.
  - split; [reflexivity | constructor].
  - cbn [nondecreasing] in H. apply andb_prop in H as [Hab Hrest].
    split; [exact Hrest |].
    destruct (IH b Hrest) as [_ Hb].
    assert (fst a <= fst b) as Hle by (unfold stamp_leb in Hab; lia).
    constructor; [exact Hle |].
    eapply List.Forall_impl; [| exact Hb]. cbn. intros; lia.
Qed.

Lemma chronological_cons item rest :
  chronological (item :: rest) = true ->
  exists k t, stamp_of item = Some (k, t)
    /\ chronological rest = true
    /\ Forall (fun x => exists k' t', stamp_of x = Some (k', t') /\ k <= k') rest.
Proof.
  unfold chronological. cbn [mapM].
  destruct (stamp_of item) as [[k t] |]; [| discriminate]. cbn.
  destruct (mapM stamp_of rest) as [keys |] eqn:Hkeys; [| discriminate]. cbn.
  intros H. apply nondecreasing_cons in H as [Hrest Hall].
  exists k, t. split; [reflexivity |]. split; [exact Hrest |].
  apply mapM_Some in Hkeys. clear Hrest.
  induction Hkeys as [| x [k' t'] rest keys Hx _ IH]; [constructor |].
  inversion Hall; subst. constructor; [| now apply IH].
  exists k', t'. auto.
Qed.

Lemma StronglySorted_snoc {A : Type} (R : A -> A -> Prop) (l : list A) (x : A) :
  StronglySorted R l -> Forall (fun a => R a x) l -> StronglySorted R (l ++ [x]).
Proof.
  induction 1 as [| a l Hl IH Ha]; intros Hx; cbn.
  - repeat constructor.
  - inversion Hx; subst. constructor; [now apply IH |].
    apply Forall_app. split; [exact Ha | now constructor].
Qed.

Lemma reduce_ascending rest : forall acc days,
  chronological rest = true ->
  reduce acc rest = Some days ->
  ascending acc ->
  (forall d x, In d acc -> In x rest ->
     exists m k t, entry_date d = Some m /\ stamp_of x = Some (k, t) /\ m <= k) ->
  ascending days.
Proof.
  induction rest as [| item rest IH]; intros acc days Hchron; cbn.
  - now intros [= <-].
  - apply chronological_cons in Hchron as (k & t & Hstamp & Hchron & Hlater).
    destruct (stamp_of_day _ _ _ Hstamp) as (day & Hday & Hdate).
    unfold step. rewrite Hday. cbn.
    intros Hred [Hdated Hsorted] Hbound.
    apply IH with (2 := Hred); [exact Hchron | |].
    + destruct (existsb (has_day day) acc) eqn:Hex; [now split |].
      assert (entry_date (day_entry day item) = Some k) as He
        by (unfold entry_date; rewrite entry_day_entry; exact Hdate).
      split.
      * apply Forall_app. split; [exact Hdated |].
        constructor; [| constructor]. rewrite He. eauto.
      * apply StronglySorted_snoc; [exact Hsorted |].
        apply List.Forall_forall. intros d Hin.
        destruct (Hbound d item Hin (or_introl eq_refl)) as (m & k' & t' & Hm & Hk & Hle).
        assert (k' = k) as -> by congruence.
        exists m, k. split; [exact Hm |]. split; [exact He |].
        destruct (Z.eq_dec m k) as [-> | Hne]; [| lia].
        exfalso. unfold entry_date in Hm.
        destruct (entry_day d) as [day' |] eqn:Hd'; [| discriminate]. cbn in Hm.
        assert (day' = day) as -> by (now apply parse_date_inj with k).
        apply has_day_true in Hd'.
        assert (existsb (has_day day) acc = true) as Hyes
          by (apply existsb_exists; eauto).
        congruence.
    + intros d x Hd Hx.
      assert (Hacc : In d acc -> exists m k0 t0,
                 entry_date d = Some m /\ stamp_of x = Some (k0, t0) /\ m <= k0)
        by (intros Hin; apply Hbound; [exact Hin | now right]).
      destruct (existsb (has_day day) acc); [now apply Hacc |].
      apply in_app_or in Hd as [Hd | [<- | []]]; [now apply Hacc |].
      rewrite List.Forall_forall in Hlater.
      destruct (Hlater x Hx) as (k' & t' & Hk' & Hle).
      exists k, k', t'. split; [| auto].
      unfold entry_date. rewrite entry_day_entry. exact Hdate.
Qed.

Lemma reduce_total rest : forall acc,
  chronological rest = true -> exists days, reduce acc rest = Some days.
Proof.
  induction rest as [| item rest IH]; intros acc Hchron; cbn.
  - eauto.
  - apply chronological_cons in Hchron as (k & t & Hstamp & Hchron & _).
    destruct (stamp_of_day _ _ _ Hstamp) as (day & Hday & _).
    unfold step. rewrite Hday. cbn. now apply IH.
Qed.

(** ** The first five *)

Lemma firstn_NoDup {A : Type} (n : nat) (l : list A) : NoDup l -> NoDup (firstn n l).
Proof.
  revert l. induction n as [| n IH]; intros [| a l] H; cbn; try constructor.
  - inversion H; subst. intros Hin. apply list_elem_of_In, In_firstn in Hin.
    now apply list_elem_of_In in Hin.
  - inversion H; subst. now apply IH.
Qed.

Lemma firstn_Forall {A : Type} (P : A -> Prop) (n : nat) (l : list A) :
  Forall P l -> Forall P (firstn n l).
Proof.
  rewrite !List.Forall_forall. intros H x Hin. eapply H, In_firstn, Hin.
Qed.

Lemma firstn_StronglySorted {A : Type} (R : A -> A -> Prop) (n : nat) (l : list A) :
  StronglySorted R l -> StronglySorted R (firstn n l).
Proof.
  revert l. induction n as [| n IH]; intros [| a l] H; cbn; try constructor.
  - inversion H; subst. now apply IH.
  - inversion H; subst. now apply firstn_Forall.
Qed.

Lemma chronological_dated items item :
  chronological items = true -> In item items -> exists day, day_of item = Some day.
Proof.
  induction items as [| x items IH]; intros Hchron Hin; [destruct Hin |].
  apply chronological_cons in Hchron as (k & t & Hstamp & Hchron & _).
  destruct Hin as [<- | Hin]; [| now apply IH].
  destruct (stamp_of_day _ _ _ Hstamp) as (day & Hday & _). eauto.
Qed.

(** C2. When the upstream forecast entries carry timestamps of the form
    "YYYY-MM-DD HH:MM:SS", in the order of time, the normalized forecast
    exists and is the first five of [all], the list that has, for every
    date of the input, one entry, made from the first upstream entry of
    that date, and runs by strictly ascending date.  So the normalized
    forecast has five entries at most, no two of them with the same [day],
    each made from the first upstream entry of its date, by strictly
    ascending date; and a date of the input is left out only when five
    dates are kept. *)
Theorem forecast_one_entry_per_day (forecast : value) items :
  Get forecast "list" = Some (VArr items) ->
  chronological items = true ->
  exists all days,
    forecast_of forecast = Some (VArr days)
    /\ days = firstn 5 all
    /\ (forall item, In item items ->
          exists day, day_of item = Some day /\ covers all day)
    /\ NoDup (map entry_day all)
    /\ Forall (first_of_its_day items) all
    /\ ascending all
    /\ (List.length days <= 5)%nat
    /\ NoDup (map entry_day days)
    /\ Forall (first_of_its_day items) days
    /\ ascending days
    /\ ((forall item, In item items ->
           exists day, day_of item = Some day /\ covers days day)
        \/ List.length days = 5%nat).
Proof.
  intros Hlist Hchron.
  destruct (reduce_total items [] Hchron) as (all & Hred).
  exists all, (firstn 5 all). unfold forecast_of. rewrite Hlist. cbn. rewrite Hred. cbn.
  split; [reflexivity |]. split; [reflexivity |].
  assert (kept_days ([] ++ items) all) as [Hfirst Hseen Hnodup].
  { apply reduce_kept with []; [exact Hred |].
    split; [constructor | intros ? ? [] | constructor]. }
  assert (ascending all) as [Hdated Hsorted].
  { apply reduce_ascending with items []; try assumption.
    - split; constructor.
    - intros ? ? []. }
  assert (Hcover : forall item, In item items ->
            exists day, day_of item = Some day /\ covers all day).
  { intros item Hin. destruct (chronological_dated items item Hchron Hin) as (day & Hday).
    exists day. split; [exact Hday |]. now apply (Hseen item day). }
  split; [exact Hcover |].
  split; [exact Hnodup |].
  split; [exact Hfirst |].
  split; [now split |].
  split; [apply firstn_le_length |].
  split; [rewrite <- firstn_map; now apply firstn_NoDup |].
  split; [now apply firstn_Forall |].
  split; [split; [now apply firstn_Forall | now apply firstn_StronglySorted] |].
  destruct (Nat.le_gt_cases (List.length all) 5) as [Hle | Hgt].
  - left. now rewrite firstn_all2 by exact Hle.
  - right. rewrite length_firstn. lia.
Qed.

End ForecastDays.

Lemma forecast_one_entry_per_day_witness :
  exists all days,
    forecast_of may_forecast = Some (VArr days)
    /\ days = firstn 5 all
    /\ (forall item,
          In item
            [ VObj [("dt_txt", VStr "2024-05-01 21:00:00"); ("pop", VNum 0.5)];
              VObj [("dt_txt", VStr "2024-05-02 00:00:00")];
              VObj [("dt_txt", VStr "2024-05-02 03:00:00")] ] ->
          exists day, day_of item = Some day /\ covers all day)
    /\ List.length days = 2%nat
    /\ ascending days.
Proof.
  destruct (forecast_one_entry_per_day may_forecast _ eq_refl eq_refl)
    as (all & days & Hfc & Hdays & Hcover & _ & _ & _ & _ & _ & _ & Hasc & _).
  exists all, days. split; [exact Hfc |]. split; [exact Hdays |].
  split; [exact Hcover |]. split; [| exact Hasc].
  vm_compute in Hfc. injection Hfc as <-. reflexivity.
Defined.

(* ===================================================================== *)
(** * Properties of the weather route *)
(* ===================================================================== *)

#[local] Arguments cacheKey : simpl never.
#[local] Arguments getCache : simpl never.
#[local] Arguments setCache : simpl never.

Section WeatherRoute.

Implicit Types (w : upstream) (q geo : value) (city : string) (s : state)
  (r : response).

Lemma bind_lift {A B : Type} (o : option A) (f : A -> M B) s :
  (x ← lift o; f x) s = match o with Some a => f a s | None => (None, s) end.
Proof. now destruct o. Qed.

Lemma bind_fetch {B : Type} w (req : request) (f : bool * option value -> M B) s :
  (x ← fetch w req; f x) s
  = match w req with
    | Rejected => (None, log req s)
    | Replied ok j => f (ok, j) (log req s)
    end.
Proof. unfold mbind, M_bind, fetch. now destruct (w req). Qed.

Lemma is_empty_true (c : string) : Str.is_empty c = true <-> c = "".
Proof. destruct c; cbn; split; congruence. Qed.

Lemma missing_or_blank_city q : missing_or_blank q -> city_of q = Some "".
Proof.
  intros [-> | (c & -> & Hc)]; [reflexivity |].
  unfold city_of, or. cbn [truthy].
  destruct (Str.is_empty c); cbn; [reflexivity | now rewrite Hc].
Qed.

Lemma log_log (a b : request) s :
  log b (log a s) = State (cache s) (calls s ++ [a; b]).
Proof. unfold log. cbn. now rewrite <- app_assoc. Qed.

(** ** Step 2 *)

Lemma step2_inv w (t_set : Z) city (g0 : value) s r s' :
  step2 w t_set city g0 s = (Some r, s') ->
  exists lat lon loc lat_s lon_s current forecast n,
    location_of g0 = Some (lat, lon, loc)
    /\ ToString lat = Some lat_s /\ ToString lon = Some lon_s
    /\ w (CurrentWeather lat_s lon_s) = Replied true (Some current)
    /\ w (Forecast lat_s lon_s) = Replied true (Some forecast)
    /\ normalize loc current forecast = Some n
    /\ r = json n
    /\ s' = State (setCache t_set (cacheKey city) n (cache s))
                  (calls s ++ [CurrentWeather lat_s lon_s; Forecast lat_s lon_s]).
Proof.
  unfold step2. rewrite bind_lift.
  destruct (location_of g0) as [[[lat lon] loc] |] eqn:Hloc; [| discriminate].
  rewrite bind_lift. destruct (ToString lat) as [lat_s |] eqn:Hlat; [| discriminate].
  rewrite bind_lift. destruct (ToString lon) as [lon_s |] eqn:Hlon; [| discriminate].
  unfold mbind at 1, M_bind at 1, fetch_both.
  destruct (w (CurrentWeather lat_s lon_s)) as [| okc jc] eqn:Hcur; [discriminate |].
  destruct (w (Forecast lat_s lon_s)) as [| okf jf] eqn:Hfc; [discriminate |].
  cbn [fst snd]. destruct okc; [| discriminate]. destruct okf; [| discriminate].
  cbn [negb orb]. rewrite !bind_lift.
  destruct jc as [current |]; [| discriminate].
  destruct jf as [forecast |]; [| discriminate].
  rewrite bind_lift.
  destruct (normalize loc current forecast) as [n |] eqn:Hn; [| discriminate].
  unfold mbind, M_bind, setCacheM, mret, M_ret. rewrite log_log. cbn [cache calls].
  intros [= <- <-]. exists lat, lon, loc, lat_s, lon_s, current, forecast, n.
  repeat split; try reflexivity; assumption.
Qed.

Lemma step2_run w (t_set : Z) city (g0 : value) s (lat lon loc : value) (lat_s lon_s : string)
    (current forecast n : value) :
  location_of g0 = Some (lat, lon, loc) ->
  ToString lat = Some lat_s -> ToString lon = Some lon_s ->
  w (CurrentWeather lat_s lon_s) = Replied true (Some current) ->
  w (Forecast lat_s lon_s) = Replied true (Some forecast) ->
  normalize loc current forecast = Some n ->
  step2 w t_set city g0 s
  = (Some (json n),
     State (setCache t_set (cacheKey city) n (cache s))
           (calls s ++ [CurrentWeather lat_s lon_s; Forecast lat_s lon_s])).
Proof.
  intros Hloc Hlat Hlon Hcur Hfc Hn.
  unfold step2. rewrite bind_lift, Hloc, bind_lift, Hlat, bind_lift, Hlon.
  unfold mbind at 1, M_bind at 1, fetch_both. rewrite Hcur, Hfc.
  cbn [fst snd negb orb]. rewrite !bind_lift, Hn.
  unfold mbind, M_bind, setCacheM, mret, M_ret. now rewrite log_log.
Qed.

(** ** Step 1 *)

Lemma step1_inv w (t_set : Z) city s r s' :
  step1 w t_set city s = (Some r, s') ->
  (no_match w city /\ r = error 404 "City not found" /\ s' = log (Geocode city) s)
  \/ (exists n made, fetched w city n made /\ r = json n
        /\ s' = State (setCache t_set (cacheKey city) n (cache s)) (calls s ++ made)).
Proof.
  unfold step1. rewrite bind_fetch.
  destruct (w (Geocode city)) as [| ok j] eqn:Hgeo; [discriminate |].
  cbn [fst snd]. destruct ok; [| discriminate]. cbn [negb].
  rewrite bind_lift. destruct j as [geo |]; [| discriminate].
  destruct (truthy (optGet geo "length")) eqn:Hlen; cbn [negb].
  - rewrite bind_lift. destruct (Get geo "0") as [g0 |] eqn:Hg0; [| discriminate].
    intros H. apply step2_inv in H
      as (lat & lon & loc & lat_s & lon_s & current & forecast & n
          & Hloc & Hlat & Hlon & Hcur & Hfc & Hn & -> & ->).
    right. exists n, [Geocode city; CurrentWeather lat_s lon_s; Forecast lat_s lon_s].
    split; [now apply Fetched with geo g0 lat lon loc current forecast |].
    split; [reflexivity |]. unfold log. cbn [cache calls].
    now rewrite <- app_assoc.
  - intros [= <- <-]. left. split; [now exists geo | auto].
Qed.

Lemma step1_no_match w (t_set : Z) city s :
  no_match w city ->
  step1 w t_set city s = (Some (error 404 "City not found"), log (Geocode city) s).
Proof.
  intros (geo & Hgeo & Hlen). unfold step1. rewrite bind_fetch, Hgeo.
  cbn [fst snd negb]. rewrite bind_lift, Hlen. reflexivity.
Qed.

Lemma step1_fetched w (t_set : Z) city s (n : value) (made : list request) :
  fetched w city n made ->
  step1 w t_set city s
  = (Some (json n), State (setCache t_set (cacheKey city) n (cache s)) (calls s ++ made)).
Proof.
  intros [geo g0 lat lon loc lat_s lon_s current forecast n'
            Hgeo Hlen Hg0 Hloc Hlat Hlon Hcur Hfc Hn].
  unfold step1. rewrite bind_fetch, Hgeo.
  cbn [fst snd negb]. rewrite bind_lift, Hlen. cbn [negb]. rewrite bind_lift, Hg0.
  rewrite (step2_run w t_set city g0 _ lat lon loc lat_s lon_s current forecast n')
    by assumption.
  unfold log. cbn [cache calls]. now rewrite <- app_assoc.
Qed.

(** The calls of step 1 when it throws: whatever they are, they extend the
    log. *)
Lemma step1_log w (t_set : Z) city s (o : option response) s' :
  step1 w t_set city s = (o, s') -> exists made, calls s' = calls s ++ made.
Proof.
  unfold step1. rewrite bind_fetch.
  destruct (w (Geocode city)) as [| ok j]; [intros [= <- <-]; now exists [Geocode city] |].
  cbn [fst snd]. destruct ok; cbn [negb]; [| intros [= <- <-]; now exists [Geocode city]].
  rewrite bind_lift. destruct j as [geo |]; [| intros [= <- <-]; now exists [Geocode city]].
  destruct (truthy (optGet geo "length")); cbn [negb];
    [| intros [= <- <-]; now exists [Geocode city]].
  rewrite bind_lift. destruct (Get geo "0") as [g0 |];
    [| intros [= <- <-]; now exists [Geocode city]].
  unfold step2. rewrite bind_lift.
  destruct (location_of g0) as [[[lat lon] loc] |];
    [| intros [= <- <-]; now exists [Geocode city]].
  rewrite bind_lift. destruct (ToString lat) as [lat_s |];
    [| intros [= <- <-]; now exists [Geocode city]].
  rewrite bind_lift. destruct (ToString lon) as [lon_s |];
    [| intros [= <- <-]; now exists [Geocode city]].
  set (made := [Geocode city; CurrentWeather lat_s lon_s; Forecast lat_s lon_s]).
  assert (Hlog : forall c, calls (State c (calls (log (Geocode city) s)
                   ++ [CurrentWeather lat_s lon_s; Forecast lat_s lon_s]))
                 = calls s ++ made)
    by (intros c; unfold log; cbn [calls]; now rewrite <- app_assoc).
  unfold mbind at 1, M_bind at 1, fetch_both. rewrite log_log.
  destruct (w (CurrentWeather lat_s lon_s)) as [| okc jc];
    [intros [= <- <-]; exists made; apply Hlog |].
  destruct (w (Forecast lat_s lon_s)) as [| okf jf];
    [intros [= <- <-]; exists made; apply Hlog |].
  cbn [fst snd]. destruct (negb okc || negb okf);
    [intros [= <- <-]; exists made; apply Hlog |].
  rewrite bind_lift. destruct jc as [current |];
    [| intros [= <- <-]; exists made; apply Hlog].
  rewrite bind_lift. destruct jf as [forecast |];
    [| intros [= <- <-]; exists made; apply Hlog].
  rewrite bind_lift. destruct (normalize loc current forecast) as [n |];
    [| intros [= <- <-]; exists made; apply Hlog].
  unfold mbind, M_bind, setCacheM, mret, M_ret. cbn [cache calls].
  intros [= <- <-]. exists made. apply Hlog.
Qed.

(** ** The route *)

Lemma getCache_truthy (now : Z) (key : string) (c : store) :
  truthy (fst (getCache now key c)) = true -> snd (getCache now key c) = c.
Proof.
  unfold getCache. destruct (c !! key) as [e |]; [| discriminate].
  destruct (cacheTTLms <? now - ts e); [discriminate | reflexivity].
Qed.

Lemma state_eta s : State (cache s) (calls s) = s.
Proof. now destruct s. Qed.

Lemma route_unfold w (t_get t_set : Z) q s :
  route w t_get t_set q s
  = match city_of q with
    | None => (None, s)
    | Some city =>
        if Str.is_empty city then (Some (error 400 "city is required"), s)
        else
          let cached := fst (getCache t_get (cacheKey city) (cache s)) in
          if truthy cached then (Some (json cached), looked_up t_get city s)
          else step1 w t_set city (looked_up t_get city s)
    end.
Proof.
  unfold route. rewrite bind_lift. destruct (city_of q) as [city |]; [| reflexivity].
  destruct (Str.is_empty city); [reflexivity |].
  unfold mbind, M_bind, getCacheM, looked_up.
  destruct (getCache t_get (cacheKey city) (cache s)) as [cached c1]. cbn [fst snd].
  now destruct (truthy cached).
Qed.

Lemma handler_blank w (t_get t_set : Z) q s :
  city_of q = Some "" ->
  handler w t_get t_set q s = (error 400 "city is required", s).
Proof. intros H. unfold handler. now rewrite route_unfold, H. Qed.

Lemma handler_hit w (t_get t_set : Z) q s city (v : value) :
  city_of q = Some city -> city <> "" -> hit t_get city s v ->
  handler w t_get t_set q s = (json v, s).
Proof.
  intros Hcity Hne [Hv Ht]. unfold handler. rewrite route_unfold, Hcity.
  destruct (Str.is_empty city) eqn:He; [now apply is_empty_true in He |].
  cbn zeta. rewrite Hv, Ht. unfold looked_up.
  rewrite getCache_truthy by (now rewrite Hv). now rewrite state_eta.
Qed.

Lemma handler_miss w (t_get t_set : Z) q s city :
  city_of q = Some city -> city <> "" -> misses t_get city s ->
  handler w t_get t_set q s
  = match step1 w t_set city (looked_up t_get city s) with
    | (Some r, s') => (r, s')
    | (None, s') => (error 500 "Server error fetching weather", s')
    end.
Proof.
  intros Hcity Hne Hmiss. unfold handler. rewrite route_unfold, Hcity.
  destruct (Str.is_empty city) eqn:He; [now apply is_empty_true in He |].
  cbn zeta. unfold misses in Hmiss. now rewrite Hmiss.
Qed.

Lemma route_Some_answered w (t_get t_set : Z) q s r s' :
  route w t_get t_set q s = (Some r, s') -> answered w t_get t_set q s r s'.
Proof.
  rewrite route_unfold. destruct (city_of q) as [city |] eqn:Hcity; [| discriminate].
  destruct (Str.is_empty city) eqn:He.
  - apply is_empty_true in He as ->. intros [= <- <-]. now constructor.
  - assert (city <> "") as Hne by (intros ->; discriminate).
    cbn zeta.
    destruct (truthy (fst (getCache t_get (cacheKey city) (cache s)))) eqn:Ht.
    + intros [= <- <-]. unfold looked_up. rewrite getCache_truthy, state_eta by exact Ht.
      now apply Answered_cached with city.
    + intros H. apply step1_inv in H as [(Hno & -> & ->) | (n & made & Hf & -> & ->)].
      * exact (Answered_404 w t_get t_set q s city Hcity Hne Ht Hno).
      * exact (Answered_fetched w t_get t_set q s city n made Hcity Hne Ht Hf).
Qed.

Lemma route_log w (t_get t_set : Z) q s (o : option response) s' :
  route w t_get t_set q s = (o, s') -> exists made, calls s' = calls s ++ made.
Proof.
  rewrite route_unfold. destruct (city_of q) as [city |];
    [| intros [= <- <-]; exists []; now rewrite app_nil_r].
  destruct (Str.is_empty city); [intros [= <- <-]; exists []; now rewrite app_nil_r |].
  cbn zeta. destruct (truthy _);
    [intros [= <- <-]; exists []; cbn; now rewrite app_nil_r |].
  intros H. now apply step1_log in H.
Qed.

Lemma fetched_replies w city (n : value) (made : list request) (req : request) :
  fetched w city n made -> In req made -> exists j, w req = Replied true (Some j).
Proof.
  intros [geo g0 lat lon loc lat_s lon_s current forecast n' Hgeo _ _ _ _ _ Hcur Hfc _] Hin.
  destruct Hin as [<- | [<- | [<- | []]]]; eauto.
Qed.

Lemma failed_not_replied (rep : reply) (j : value) :
  failed rep -> rep <> Replied true (Some j).
Proof. intros [-> | (j' & ->)]; discriminate. Qed.

(** C4, as the code has it.  A request is answered 400, the state
    untouched, when [city] is missing or blank; 200 with the cached payload,
    the state untouched, when the cache holds a fresh one; otherwise 404
    when geocoding answers with no match, and 200 with the normalized
    payload when the three calls answer with bodies that normalize.  The
    answer is one of these four or the 500 of the [catch], which is the
    answer whenever a call that was made failed at the transport or HTTP
    level.  Every answer other than 200 has the body [{ error }]. *)
Theorem weather_route_statuses w (t_get t_set : Z) q s :
  (missing_or_blank q ->
     handler w t_get t_set q s = (error 400 "city is required", s))
  /\ (forall city v, city_of q = Some city -> city <> "" -> hit t_get city s v ->
        handler w t_get t_set q s = (json v, s))
  /\ (forall city, city_of q = Some city -> city <> "" -> misses t_get city s ->
        no_match w city ->
        fst (handler w t_get t_set q s) = error 404 "City not found")
  /\ (forall city n made, city_of q = Some city -> city <> "" ->
        misses t_get city s -> fetched w city n made ->
        fst (handler w t_get t_set q s) = json n)
  /\ (answered w t_get t_set q s
        (fst (handler w t_get t_set q s)) (snd (handler w t_get t_set q s))
      \/ fst (handler w t_get t_set q s) = error 500 "Server error fetching weather")
  /\ (exists made,
        calls (snd (handler w t_get t_set q s)) = calls s ++ made
        /\ forall req, In req made -> failed (w req) ->
             status (fst (handler w t_get t_set q s)) = 500)
  /\ (status (fst (handler w t_get t_set q s)) <> 200 ->
        exists msg : string,
          body (fst (handler w t_get t_set q s)) = VObj [("error", VStr msg)]).
Proof.
  split; [intros H; now apply handler_blank, missing_or_blank_city |].
  split; [intros city v; apply handler_hit |].
  split.
  { intros city Hcity Hne Hmiss Hno.
    rewrite (handler_miss _ _ _ _ _ _ Hcity Hne Hmiss).
    now rewrite (step1_no_match _ _ _ _ Hno). }
  split.
  { intros city n made Hcity Hne Hmiss Hf.
    rewrite (handler_miss _ _ _ _ _ _ Hcity Hne Hmiss).
    now rewrite (step1_fetched _ _ _ _ _ _ Hf). }
  unfold handler.
  destruct (route w t_get t_set q s) as [[r |] s'] eqn:Hroute; cbn [fst snd].
  - pose proof (route_Some_answered _ _ _ _ _ _ _ Hroute) as Hans.
    split; [now left |]. split.
    + destruct Hans as [Hb | city v Hc Hne Hh | city Hc Hne Hm Hno
                       | city n made Hc Hne Hm Hf].
      * exists []. split; [now rewrite app_nil_r | intros ? []].
      * exists []. split; [now rewrite app_nil_r | intros ? []].
      * exists [Geocode city]. split; [reflexivity |].
        intros req [<- | []] Hfail. destruct Hno as (geo & Hgeo & _).
        now apply failed_not_replied with (j := geo) in Hfail.
      * exists made. split; [reflexivity |]. intros req Hin Hfail.
        destruct (fetched_replies _ _ _ _ _ Hf Hin) as (j & Hj).
        now apply failed_not_replied with (j := j) in Hfail.
    + destruct Hans; cbn; intros Hst; try congruence; eauto.
  - split; [now right |]. split.
    + destruct (route_log _ _ _ _ _ _ _ Hroute) as (made & Hmade).
      exists made. split; [exact Hmade | reflexivity].
    + intros _. cbn. eauto.
Qed.

End WeatherRoute.

(** ** What a request does to the state *)

Section WeatherEffects.

Implicit Types (w : upstream) (q : value) (city : string) (s : state).

(** The key folds every letter, not those of ASCII alone, and a capital
    sigma at the end of a word to the final sigma, as [toLowerCase]
    does. *)
Lemma cacheKey_lower_case :
  cacheKey "ÉVORA" = "wx:évora"
  /\ cacheKey "Łódź" = "wx:łódź"
  /\ cacheKey "МОСКВА" = "wx:москва"
  /\ cacheKey "ΟΔΟΣ" = "wx:οδος"
  /\ cacheKey "İzmir" = cacheKey "i̇zmir".
Proof. repeat split; vm_compute; reflexivity. Qed.

(** What the two steps do to the state, however they end. *)
Lemma step1_trace w (t_set : Z) city s (o : option response) s' :
  step1 w t_set city s = (o, s') ->
  (exists made, calls s' = calls s ++ made
                /\ made <> [] /\ calls_of_a_request city made)
  /\ (cache s' = cache s /\ (forall n, o <> Some (json n))
      \/ exists n, o = Some (json n)
                   /\ cache s' = setCache t_set (cacheKey city) n (cache s)).
Proof.
  assert (Hone : forall c, calls (State c (calls s ++ [Geocode city]))
                           = calls s ++ [Geocode city]) by reflexivity.
  assert (Hgeo : exists made, calls (log (Geocode city) s) = calls s ++ made
                   /\ made <> [] /\ calls_of_a_request city made).
  { exists [Geocode city]. split; [reflexivity |]. split; [discriminate |].
    right. now left. }
  unfold step1. rewrite bind_fetch.
  destruct (w (Geocode city)) as [| ok j];
    [intros [= <- <-]; split; [exact Hgeo | left; split; [reflexivity | discriminate]] |].
  cbn [fst snd]. destruct ok; cbn [negb];
    [| intros [= <- <-]; split; [exact Hgeo | left; split; [reflexivity | discriminate]]].
  rewrite bind_lift. destruct j as [geo |];
    [| intros [= <- <-]; split; [exact Hgeo | left; split; [reflexivity | discriminate]]].
  destruct (truthy (optGet geo "length")); cbn [negb];
    [| intros [= <- <-]; split; [exact Hgeo | left; split; [reflexivity | discriminate]]].
  rewrite bind_lift. destruct (Get geo "0") as [g0 |];
    [| intros [= <- <-]; split; [exact Hgeo | left; split; [reflexivity | discriminate]]].
  unfold step2. rewrite bind_lift.
  destruct (location_of g0) as [[[lat lon] loc] |];
    [| intros [= <- <-]; split; [exact Hgeo | left; split; [reflexivity | discriminate]]].
  rewrite bind_lift. destruct (ToString lat) as [lat_s |];
    [| intros [= <- <-]; split; [exact Hgeo | left; split; [reflexivity | discriminate]]].
  rewrite bind_lift. destruct (ToString lon) as [lon_s |];
    [| intros [= <- <-]; split; [exact Hgeo | left; split; [reflexivity | discriminate]]].
  clear Hgeo Hone.
  set (made := [Geocode city; CurrentWeather lat_s lon_s; Forecast lat_s lon_s]).
  assert (Hall : forall c, exists m,
             calls (State c (calls (log (Geocode city) s)
                             ++ [CurrentWeather lat_s lon_s; Forecast lat_s lon_s]))
             = calls s ++ m /\ m <> [] /\ calls_of_a_request city m).
  { intros c. exists made. split.
    - unfold log. cbn [calls]. now rewrite <- app_assoc.
    - split; [discriminate |]. right. right. now exists lat_s, lon_s. }
  unfold mbind at 1, M_bind at 1, fetch_both. rewrite log_log.
  destruct (w (CurrentWeather lat_s lon_s)) as [| okc jc];
    [intros [= <- <-]; split; [apply Hall | left; split; [reflexivity | discriminate]] |].
  destruct (w (Forecast lat_s lon_s)) as [| okf jf];
    [intros [= <- <-]; split; [apply Hall | left; split; [reflexivity | discriminate]] |].
  cbn [fst snd]. destruct (negb okc || negb okf);
    [intros [= <- <-]; split; [apply Hall | left; split; [reflexivity | discriminate]] |].
  rewrite bind_lift. destruct jc as [current |];
    [| intros [= <- <-]; split; [apply Hall | left; split; [reflexivity | discriminate]]].
  rewrite bind_lift. destruct jf as [forecast |];
    [| intros [= <- <-]; split; [apply Hall | left; split; [reflexivity | discriminate]]].
  rewrite bind_lift. destruct (normalize loc current forecast) as [n |];
    [| intros [= <- <-]; split; [apply Hall | left; split; [reflexivity | discriminate]]].
  unfold mbind, M_bind, setCacheM, mret, M_ret. cbn [cache calls].
  intros [= <- <-]. split; [apply Hall |]. right. exists n. split; reflexivity.
Qed.

(** The route, by what it does to the state. *)
Lemma handler_trace w (t_get t_set : Z) q s :
  let r := fst (handler w t_get t_set q s) in
  let s' := snd (handler w t_get t_set q s) in
  (* no city to look up *)
  ((city_of q = None \/ city_of q = Some "") /\ s' = s /\ status r <> 200)
  \/ exists city, city_of q = Some city /\ city <> ""
       /\ ((exists v, hit t_get city s v /\ r = json v /\ s' = s)
           \/ (misses t_get city s
               /\ (exists made, calls s' = calls s ++ made
                                /\ made <> [] /\ calls_of_a_request city made)
               /\ (cache s' = cache (looked_up t_get city s) /\ status r <> 200
                   \/ exists n, r = json n
                        /\ cache s'
                           = setCache t_set (cacheKey city) n
                               (cache (looked_up t_get city s))))).
Proof.
  cbn zeta. unfold handler. rewrite route_unfold.
  destruct (city_of q) as [city |] eqn:Hcity;
    [| left; cbn; split; [now left | split; [reflexivity | discriminate]]].
  destruct (Str.is_empty city) eqn:He.
  { apply is_empty_true in He as ->. left. cbn.
    split; [now right | split; [reflexivity | discriminate]]. }
  assert (city <> "") as Hne by (intros ->; discriminate).
  right. exists city. split; [reflexivity |]. split; [exact Hne |]. cbn zeta.
  destruct (truthy (fst (getCache t_get (cacheKey city) (cache s)))) eqn:Ht.
  - left. exists (fst (getCache t_get (cacheKey city) (cache s))). cbn [fst snd].
    split; [now split |]. split; [reflexivity |].
    unfold looked_up. rewrite getCache_truthy by exact Ht. apply state_eta.
  - right. split; [exact Ht |].
    destruct (step1 w t_set city (looked_up t_get city s)) as [o s'] eqn:Hstep.
    destruct (step1_trace _ _ _ _ _ _ Hstep) as [Hcalls Hcache].
    assert (calls (looked_up t_get city s) = calls s) as Hc by reflexivity.
    rewrite Hc in Hcalls.
    destruct o as [r |]; cbn [fst snd].
    + split; [exact Hcalls |].
      destruct Hcache as [[Hsame Hnot] | (n & [= ->] & Hset)].
      * left. split; [exact Hsame |]. intros H200.
        apply step1_inv in Hstep as [(_ & -> & _) | (n & made & _ & -> & _)];
          [discriminate H200 | now apply (Hnot n)].
      * right. now exists n.
    + split; [exact Hcalls |].
      destruct Hcache as [[Hsame _] | (n & Hn & _)]; [| discriminate Hn].
      left. split; [exact Hsame | discriminate].
Qed.

End WeatherEffects.

(** Once a lookup has missed, the key stays missed at any time, until
    something is stored. *)
Lemma lookup_stays_missed (now now' : Z) (key : string) (c : store) :
  truthy (fst (getCache now key c)) = false ->
  truthy (fst (getCache now' key (snd (getCache now key c)))) = false.
Proof.
  unfold getCache at 1 3. destruct (c !! key) as [e |] eqn:Hk.
  - destruct (cacheTTLms <? now - ts e); cbn [fst snd].
    + intros _. now rewrite getCache_absent by apply lookup_delete_eq.
    + intros Hd. unfold getCache. rewrite Hk.
      now destruct (cacheTTLms <? now' - ts e).
  - cbn [fst snd]. intros _. now rewrite getCache_absent.
Qed.

(** ** Two requests for one city *)

Section RepeatedRequest.

Lemma city_of_string (c : string) : city_of (VStr c) = Some (Str.trim c).
Proof. unfold city_of, or. cbn [truthy]. now destruct c. Qed.

Lemma toLowerCase_empty (c : string) : Str.toLowerCase c = "" -> c = "".
Proof.
  unfold Str.toLowerCase, Str.lower_list, Str.of_list, Str.to_list.
  destruct c as [| a c]; [reflexivity |]. cbn [list_ascii_of_string].
  intros H. exfalso. revert H.
  assert (Hseq : exists s rest, Str.sequences (a :: list_ascii_of_string c) = s :: rest).
  { cbn [Str.sequences].
    destruct (Str.followers a) as [| [| [| [| ?]]]];
      destruct (list_ascii_of_string c) as [| ? [| ? [| ? ?]]]; eauto. }
  destruct Hseq as (s & rest & ->). cbn [Str.lower_sequences string_of_list_ascii].
  discriminate.
Qed.




End RepeatedRequest.

(** ** The current conditions *)

(** C8, as the code has it.  The current conditions of a normalized
    payload are an object of the seven fields description, temp,
    feels_like, humidity, wind_speed, clouds and dt, each read through the
    optional chain of the upstream body: what is absent there reads as
    [undefined], and as the empty string for the description. *)
Theorem current_conditions_fields (loc current forecast n : value) :
  normalize loc current forecast = Some n ->
  exists cur,
    Get n "current" = Some cur
    /\ keys cur = current_fields
    /\ optGet cur "description"
       = or (optGet (optGet (optGet current "weather") "0") "description") (VStr "")
    /\ optGet cur "temp" = optGet (optGet current "main") "temp"
    /\ optGet cur "feels_like" = optGet (optGet current "main") "feels_like"
    /\ optGet cur "humidity" = optGet (optGet current "main") "humidity"
    /\ optGet cur "wind_speed" = optGet (optGet current "wind") "speed"
    /\ optGet cur "clouds" = optGet (optGet current "clouds") "all"
    /\ optGet cur "dt" = optGet current "dt"
    /\ (nullish (optGet current "weather") = true -> optGet cur "description" = VStr "")
    /\ (nullish (optGet current "main") = true ->
          optGet cur "temp" = VUndef /\ optGet cur "feels_like" = VUndef
          /\ optGet cur "humidity" = VUndef)
    /\ (nullish (optGet current "wind") = true -> optGet cur "wind_speed" = VUndef)
    /\ (nullish (optGet current "clouds") = true -> optGet cur "clouds" = VUndef).
Proof.
  unfold normalize, current_of. intros H.
  destruct (Get current "weather") as [weather |] eqn:Hw; [| discriminate]. cbn in H.
  destruct (Get current "main") as [main |] eqn:Hm; [| discriminate]. cbn in H.
  destruct (Get current "wind") as [wind |] eqn:Hwi; [| discriminate]. cbn in H.
  destruct (Get current "clouds") as [clouds |] eqn:Hc; [| discriminate]. cbn in H.
  destruct (Get current "dt") as [dt |] eqn:Hdt; [| discriminate]. cbn in H.
  destruct (forecast_of forecast) as [fc |]; [| discriminate]. cbn in H.
  injection H as <-.
  assert (optGet current "weather" = weather) as -> by (unfold optGet; now rewrite Hw).
  assert (optGet current "main" = main) as -> by (unfold optGet; now rewrite Hm).
  assert (optGet current "wind" = wind) as -> by (unfold optGet; now rewrite Hwi).
  assert (optGet current "clouds" = clouds) as -> by (unfold optGet; now rewrite Hc).
  assert (optGet current "dt" = dt) as -> by (unfold optGet; now rewrite Hdt).
  eexists. split; [reflexivity |].
  repeat split; try reflexivity.
  - destruct weather; try discriminate; reflexivity.
  - destruct main; try discriminate; reflexivity.
  - destruct main; try discriminate; reflexivity.
  - destruct main; try discriminate; reflexivity.
  - destruct wind; try discriminate; reflexivity.
  - destruct clouds; try discriminate; reflexivity.
Qed.

Lemma weather_route_statuses_witness :
  handler paris_world 0 5 (VStr "   ") fresh = (error 400 "city is required", fresh)
  /\ fst (handler nowhere_world 0 5 (VStr "Atlantis") fresh)
     = error 404 "City not found"
  /\ fst (handler paris_world 0 5 (VStr " Paris ") fresh) = json paris_payload.
Proof.
  split; [| split].
  - apply (proj1 (weather_route_statuses paris_world 0 5 (VStr "   ") fresh)).
    right. exists "   ". split; [reflexivity | vm_compute; reflexivity].
  - apply (proj1 (proj2 (proj2
             (weather_route_statuses nowhere_world 0 5 (VStr "Atlantis") fresh)))
             "Atlantis").
    + vm_compute; reflexivity.
    + discriminate.
    + vm_compute; reflexivity.
    + exists (VArr []). split; vm_compute; reflexivity.
  - apply (proj1 (proj2 (proj2 (proj2
             (weather_route_statuses paris_world 0 5 (VStr " Paris ") fresh))))
             "Paris" paris_payload
             [Geocode "Paris"; CurrentWeather "48.5" "2.25"; Forecast "48.5" "2.25"]).
    + vm_compute; reflexivity.
    + discriminate.
    + vm_compute; reflexivity.
    + apply (Fetched paris_world "Paris" paris_matches
               (VObj [("name", VStr "Paris"); ("lat", VNum 48.5); ("lon", VNum 2.25);
                      ("country", VStr "FR")])
               (VNum 48.5) (VNum 2.25) paris_location "48.5" "2.25"
               paris_current may_forecast paris_payload);
        vm_compute; reflexivity.
Defined.

(** The claim C4 as worded fails: no call fails at the transport or HTTP
    level, the city is there and geocoding has a match, and yet the answer
    is 500, the forecast body having no [list]; and so it is, with no call
    made at all, when the [city] parameter comes twice and is an array. *)
Lemma weather_route_500_without_failed_call :
  (forall req, ~ failed (listless_world req))
  /\ ~ missing_or_blank (VStr "Paris")
  /\ ~ no_match listless_world "Paris"
  /\ status (fst (handler listless_world 0 5 (VStr "Paris") fresh)) = 500
  /\ calls (snd (handler listless_world 0 5 (VStr "Paris") fresh))
     = [Geocode "Paris"; CurrentWeather "48.5" "2.25"; Forecast "48.5" "2.25"]
  /\ status (fst (handler paris_world 0 5 (VArr [VStr "Paris"; VStr "Oslo"]) fresh)) = 500
  /\ calls (snd (handler paris_world 0 5 (VArr [VStr "Paris"; VStr "Oslo"]) fresh)) = [].
Proof.
  split.
  { intros req [H | (j & H)]; destruct req; discriminate H. }
  split.
  { intros [H | (c & [= <-] & H)]; [discriminate H |]. vm_compute in H. discriminate H. }
  split.
  { intros (geo & [= <-] & H). vm_compute in H. discriminate H. }
  repeat split; vm_compute; reflexivity.
Qed.



Lemma current_conditions_fields_witness :
  exists cur,
    Get paris_payload "current" = Some cur
    /\ keys cur = current_fields
    /\ optGet cur "description" = VStr "clear sky"
    /\ optGet cur "temp" = VNum 21.5
    /\ optGet cur "wind_speed" = VUndef
    /\ optGet cur "clouds" = VUndef
    /\ optGet cur "dt" = VNum 1700000000.
Proof.
  destruct (current_conditions_fields paris_location paris_current may_forecast
              paris_payload eq_refl)
    as (cur & Hcur & Hkeys & Hd & Ht & _ & _ & Hw & Hc & Hdt & _).
  exists cur. repeat split; assumption.
Defined.

(** The claim C8 as worded fails: the observation time the upstream gave
    is in the field [dt], and the normalized current conditions have no
    field [observedAt]. *)
Lemma current_conditions_without_observedAt :
  exists cur,
    current_of paris_current = Some cur
    /\ ~ In "observedAt" (keys cur)
    /\ optGet cur "observedAt" = VUndef
    /\ optGet paris_current "dt" = VNum 1700000000
    /\ optGet cur "dt" = VNum 1700000000.
Proof.
  eexists. split; [reflexivity |].
  split; [| repeat split; reflexivity].
  cbn. intros H. repeat (destruct H as [H | H]; [discriminate H |]). exact H.
Qed.


(* ===================================================================== *)
(** * Further properties of the cache *)
(* ===================================================================== *)

Section CacheRoundTrip.

Implicit Types (cache : store) (key : string) (now t : Z) (d : value).

Lemma getCache_shrinks now key cache : snd (getCache now key cache) ⊆ cache.
Proof.
  unfold getCache. destruct (cache !! key) as [hit |]; [| reflexivity].
  destruct (cacheTTLms <? now - ts hit); [apply delete_subseteq | reflexivity].
Qed.

(** X1. What [setCache] stored under a key is what [getCache] returns for
    it, the cache unchanged, as long as the age is five minutes at most
    (the bound included); one millisecond later the lookup returns [null]
    and leaves the cache as if the key had never been set. *)
Theorem setCache_getCache now t key d cache :
  (now - t <= cacheTTLms ->
     getCache now key (setCache t key d cache) = (d, setCache t key d cache))
  /\ (cacheTTLms < now - t ->
     getCache now key (setCache t key d cache) = (VNull, delete key cache))
  /\ getCache (t + cacheTTLms) key (setCache t key d cache)
     = (d, setCache t key d cache)
  /\ getCache (t + cacheTTLms + 1) key (setCache t key d cache)
     = (VNull, delete key cache).
Proof.
  assert (Hfresh : forall n, n - t <= cacheTTLms ->
            getCache n key (setCache t key d cache) = (d, setCache t key d cache)).
  { intros n Hn. unfold setCache.
    rewrite (getCache_fresh n key _ (Entry d t)); [reflexivity | |].
    - apply lookup_insert_eq.
    - exact Hn. }
  assert (Hstale : forall n, cacheTTLms < n - t ->
            getCache n key (setCache t key d cache) = (VNull, delete key cache)).
  { intros n Hn. unfold setCache.
    rewrite (getCache_stale n key _ (Entry d t)).
    - now rewrite delete_insert_eq.
    - apply lookup_insert_eq.
    - exact Hn. }
  split; [apply Hfresh |]. split; [apply Hstale |].
  split; [apply Hfresh; lia | apply Hstale; lia].
Qed.

(** X2. A lookup never adds to the cache, and repeating it at the same
    time changes nothing more: the second lookup returns what the first
    returned and leaves the cache the first left. *)
Theorem getCache_again now key cache :
  snd (getCache now key cache) ⊆ cache
  /\ getCache now key (snd (getCache now key cache)) = getCache now key cache.
Proof.
  split; [apply getCache_shrinks |].
  unfold getCache at 2 3.
  destruct (cache !! key) as [hit |] eqn:Hk.
  - destruct (Z.ltb_spec cacheTTLms (now - ts hit)) as [Hlt | Hle]; cbn [snd].
    + apply getCache_absent, lookup_delete_eq.
    + now apply getCache_fresh.
  - cbn [snd]. now apply getCache_absent.
Qed.

End CacheRoundTrip.

Lemma setCache_getCache_witness :
  getCache 300005 "wx:paris" (setCache 5 "wx:paris" (VStr "sunny") two_cities)
  = (VStr "sunny", setCache 5 "wx:paris" (VStr "sunny") two_cities)
  /\ getCache 300006 "wx:paris" (setCache 5 "wx:paris" (VStr "sunny") two_cities)
     = (VNull, delete "wx:paris" two_cities).
Proof.
  split.
  - apply (proj1 (setCache_getCache 300005 5 "wx:paris" (VStr "sunny") two_cities)).
    unfold cacheTTLms. lia.
  - apply (proj1 (proj2 (setCache_getCache 300006 5 "wx:paris" (VStr "sunny") two_cities))).
    unfold cacheTTLms. lia.
Defined.

(* ===================================================================== *)
(** * Further properties of the weather route *)
(* ===================================================================== *)

Section WeatherExtras.

Implicit Types (w : upstream) (q : value) (city : string) (s : state).

Lemma lookup_other_key (now : Z) (key key' : string) (c : store) :
  key' <> key -> snd (getCache now key c) !! key' = c !! key'.
Proof.
  intros Hne. unfold getCache. destruct (c !! key) as [e |]; [| reflexivity].
  destruct (cacheTTLms <? now - ts e); [| reflexivity].
  cbn [snd]. now apply lookup_delete_ne.
Qed.

(** X3. An answer other than 200 is never cached: the cache holds nothing
    it did not hold before the request, and a later request for the same
    city, at any time, finds nothing to serve. *)
Theorem errors_are_not_cached w (t_get t_set : Z) q s :
  status (fst (handler w t_get t_set q s)) <> 200 ->
  cache (snd (handler w t_get t_set q s)) ⊆ cache s
  /\ forall city (t : Z), city_of q = Some city -> city <> "" ->
       misses t city (snd (handler w t_get t_set q s)).
Proof.
  intros Hst.
  destruct (handler_trace w t_get t_set q s)
    as [([Hq | Hq] & Hs & _)
       | (city & Hq & Hne & [(v & _ & Hr & _)
                            | (Hmiss & _ & [[Hc _] | (n & Hr & _)])])].
  - rewrite Hs. split; [reflexivity |]. intros c t Hc. congruence.
  - rewrite Hs. split; [reflexivity |]. intros c t Hc Hc'. congruence.
  - rewrite Hr in Hst. now contradiction Hst.
  - rewrite Hc. split; [apply getCache_shrinks |].
    intros c t Hq' _. assert (c = city) as -> by congruence.
    unfold misses. rewrite Hc. now apply lookup_stays_missed.
  - rewrite Hr in Hst. now contradiction Hst.
Qed.

(** X4. A request reads and writes the cache under the key of its own city
    only: every other key holds after the request what it held before. *)
Theorem route_touches_one_key w (t_get t_set : Z) q s (key : string) :
  (forall city, city_of q = Some city -> key <> cacheKey city) ->
  cache (snd (handler w t_get t_set q s)) !! key = cache s !! key.
Proof.
  intros Hkey.
  destruct (handler_trace w t_get t_set q s)
    as [(_ & Hs & _)
       | (city & Hq & Hne & [(v & _ & _ & Hs)
                            | (_ & _ & [[Hc _] | (n & _ & Hc)])])].
  - now rewrite Hs.
  - now rewrite Hs.
  - rewrite Hc. apply lookup_other_key. now apply Hkey.
  - rewrite Hc. unfold setCache. rewrite lookup_insert_ne by (symmetry; now apply Hkey).
    apply lookup_other_key. now apply Hkey.
Qed.

(** X5. An entry past its five minutes counts for nothing: the request is
    answered, and leaves the state, as if the entry had been deleted
    beforehand. *)
Theorem stale_entry_like_absent w (t_get t_set : Z) q s city (e : entry) :
  city_of q = Some city -> city <> "" ->
  cache s !! cacheKey city = Some e -> stale t_get e ->
  handler w t_get t_set q s
  = handler w t_get t_set q (State (delete (cacheKey city) (cache s)) (calls s)).
Proof.
  intros Hq Hne He Hstale.
  assert (Hl : looked_up t_get city s
               = State (delete (cacheKey city) (cache s)) (calls s)).
  { unfold looked_up. now rewrite (getCache_stale _ _ _ e). }
  assert (Hl' : looked_up t_get city (State (delete (cacheKey city) (cache s)) (calls s))
                = State (delete (cacheKey city) (cache s)) (calls s)).
  { unfold looked_up. cbn [cache calls].
    now rewrite getCache_absent by apply lookup_delete_eq. }
  rewrite (handler_miss w t_get t_set q s city Hq Hne).
  - rewrite (handler_miss w t_get t_set q _ city Hq Hne).
    + now rewrite Hl, Hl'.
    + unfold misses. cbn [cache].
      now rewrite getCache_absent by apply lookup_delete_eq.
  - unfold misses. now rewrite (getCache_stale _ _ _ e).
Qed.

(** X6. The upstream calls of one request: none when the city is blank or
    the cache has a payload to serve; otherwise the geocoding call alone,
    or the geocoding call followed by both the current-weather and the
    forecast call at the same coordinates, never one of the two without
    the other.  A 404 is answered after the geocoding call alone, and a
    200 after no call or all three. *)
Theorem upstream_calls w (t_get t_set : Z) q s :
  exists made,
    calls (snd (handler w t_get t_set q s)) = calls s ++ made
    /\ (made = []
        \/ exists city, city_of q = Some city /\ city <> "" /\ misses t_get city s
             /\ (made = [Geocode city]
                 \/ exists lat lon,
                      made = [Geocode city; CurrentWeather lat lon; Forecast lat lon]))
    /\ (status (fst (handler w t_get t_set q s)) = 400 -> made = [])
    /\ (status (fst (handler w t_get t_set q s)) = 404 -> length made = 1%nat)
    /\ (status (fst (handler w t_get t_set q s)) = 200 ->
          made = [] \/ length made = 3%nat).
Proof.
  unfold handler. rewrite route_unfold.
  destruct (city_of q) as [city |] eqn:Hq;
    [| exists []; cbn; rewrite app_nil_r; repeat split; auto; discriminate].
  destruct (Str.is_empty city) eqn:He;
    [exists []; cbn; rewrite app_nil_r; repeat split; auto; discriminate |].
  assert (city <> "") as Hne by (intros ->; discriminate).
  cbn zeta.
  destruct (truthy (fst (getCache t_get (cacheKey city) (cache s)))) eqn:Ht;
    [exists []; cbn; rewrite app_nil_r; repeat split; auto; discriminate |].
  destruct (step1 w t_set city (looked_up t_get city s)) as [o s'] eqn:Hstep.
  destruct (step1_trace _ _ _ _ _ _ Hstep) as [(made & Hcalls & Hmade & Hshape) _].
  assert (calls (looked_up t_get city s) = calls s) as Hc by reflexivity.
  rewrite Hc in Hcalls.
  assert (Hsome : made = [Geocode city]
                  \/ exists lat lon,
                       made = [Geocode city; CurrentWeather lat lon; Forecast lat lon]).
  { destruct Hshape as [-> | [-> | H]]; [now contradiction Hmade | now left | now right]. }
  destruct o as [r |]; cbn [fst snd].
  - apply step1_inv in Hstep as [(_ & -> & ->) | (n & made' & Hf & -> & ->)].
    + exists [Geocode city]. split; [reflexivity |].
      split; [right; exists city; auto |]. cbn. repeat split; auto; discriminate.
    + exists made'. split; [reflexivity |]. destruct Hf. cbn [length status json error].
      split; [right; exists city; repeat split; auto; right; eauto |].
      repeat split; auto; discriminate.
  - exists made. split; [exact Hcalls |].
    split; [right; exists city; auto |]. cbn. repeat split; discriminate.
Qed.

(** X7. Five minutes after a payload was stored, the next request for the
    city finds nothing to serve and goes upstream again, starting with the
    geocoding call. *)
Theorem expired_payload_is_fetched_again (w w' : upstream) (t1 t1' t2 t2' : Z)
    (c1 c2 : string) (s0 : state) :
  Str.toLowerCase (Str.trim c1) = Str.toLowerCase (Str.trim c2) ->
  misses t1 (Str.trim c1) s0 ->
  status (fst (handler w t1 t1' (VStr c1) s0)) = 200 ->
  cacheTTLms < t2 - t1' ->
  let first := handler w t1 t1' (VStr c1) s0 in
  let second := handler w' t2 t2' (VStr c2) (snd first) in
  misses t2 (Str.trim c2) (snd first)
  /\ exists rest,
       calls (snd second) = calls (snd first) ++ Geocode (Str.trim c2) :: rest.
Proof.
  intros Hkey Hmiss Hst Hlate. cbn zeta.
  assert (Hq1 : city_of (VStr c1) = Some (Str.trim c1)) by apply city_of_string.
  assert (Hq2 : city_of (VStr c2) = Some (Str.trim c2)) by apply city_of_string.
  assert (Hk : cacheKey (Str.trim c2) = cacheKey (Str.trim c1)).
  { unfold cacheKey. now rewrite Hkey. }
  assert (Hne2 : Str.trim c2 <> "").
  { intros H0. rewrite H0 in Hkey.
    destruct (handler_trace w t1 t1' (VStr c1) s0)
      as [([Hq | Hq] & _ & Hno) | (city & Hq & Hne & _)].
    - congruence.
    - now apply Hno.
    - rewrite Hq1 in Hq. injection Hq as <-.
      apply Hne. now apply toLowerCase_empty. }
  assert (Hcache : exists n, cache (snd (handler w t1 t1' (VStr c1) s0))
                     = setCache t1' (cacheKey (Str.trim c1)) n
                         (cache (looked_up t1 (Str.trim c1) s0))).
  { destruct (handler_trace w t1 t1' (VStr c1) s0)
      as [(_ & _ & Hno)
         | (city & Hq & Hne & [(v & [Hv Ht] & _) | (_ & _ & [[_ Hno] | (n & _ & Hc)])])].
    - now contradiction Hno.
    - rewrite Hq1 in Hq. injection Hq as <-. unfold misses in Hmiss.
      rewrite Hv in Hmiss. congruence.
    - now contradiction Hno.
    - rewrite Hq1 in Hq. injection Hq as <-. now exists n. }
  destruct Hcache as (n & Hcache).
  assert (Hm2 : misses t2 (Str.trim c2) (snd (handler w t1 t1' (VStr c1) s0))).
  { unfold misses. rewrite Hcache, Hk. unfold setCache.
    rewrite (getCache_stale _ _ _ (Entry n t1'));
      [reflexivity | apply lookup_insert_eq | exact Hlate]. }
  split; [exact Hm2 |].
  destruct (handler_trace w' t2 t2' (VStr c2) (snd (handler w t1 t1' (VStr c1) s0)))
    as [([Hq | Hq] & _ & _)
       | (city & Hq & Hne & [(v & [Hv Ht] & _) | (_ & (made & Hcalls & Hmade & Hshape) & _)])].
  - congruence.
  - congruence.
  - rewrite Hq2 in Hq. injection Hq as <-. unfold misses in Hm2.
    rewrite Hv in Hm2. congruence.
  - rewrite Hq2 in Hq. injection Hq as <-. rewrite Hcalls.
    destruct Hshape as [-> | [-> | (lat & lon & ->)]];
      [now contradiction Hmade | eauto | eauto].
Qed.

End WeatherExtras.

Lemma errors_are_not_cached_witness :
  cache (snd (handler listless_world 400000 400001 (VStr "Paris") paris_cached))
    ⊆ cache paris_cached
  /\ forall city (t : Z), city_of (VStr "Paris") = Some city -> city <> "" ->
       misses t city (snd (handler listless_world 400000 400001 (VStr "Paris") paris_cached)).
Proof.
  apply (errors_are_not_cached listless_world 400000 400001 (VStr "Paris") paris_cached).
  vm_compute. discriminate.
Defined.

Lemma route_touches_one_key_witness :
  cache (snd (handler paris_world 400000 400001 (VStr "ÉVORA") (State two_cities [])))
    !! "wx:oslo"
  = cache (State two_cities []) !! "wx:oslo".
Proof.
  apply (route_touches_one_key paris_world 400000 400001 (VStr "ÉVORA")
           (State two_cities []) "wx:oslo").
  intros city H. rewrite city_of_string in H. injection H as <-.
  vm_compute. discriminate.
Defined.

Lemma stale_entry_like_absent_witness :
  handler paris_world 400000 400001 (VStr "ÉVORA") (State evora_cache [])
  = handler paris_world 400000 400001 (VStr "ÉVORA")
      (State (delete (cacheKey "ÉVORA") (cache (State evora_cache [])))
             (calls (State evora_cache []))).
Proof.
  apply (stale_entry_like_absent paris_world 400000 400001 (VStr "ÉVORA")
           (State evora_cache []) "ÉVORA" evora_entry).
  - vm_compute; reflexivity.
  - discriminate.
  - vm_compute; reflexivity.
  - unfold stale, cacheTTLms, evora_entry; simpl; lia.
Defined.

Lemma expired_payload_is_fetched_again_witness :
  misses 300006 (Str.trim "ÉVORA") (snd (handler paris_world 0 5 (VStr " évora ") fresh))
  /\ exists rest,
       calls (snd (handler rainy_world 300006 300007 (VStr "ÉVORA")
                     (snd (handler paris_world 0 5 (VStr " évora ") fresh))))
       = calls (snd (handler paris_world 0 5 (VStr " évora ") fresh))
         ++ Geocode (Str.trim "ÉVORA") :: rest.
Proof.
  apply (expired_payload_is_fetched_again
           paris_world rainy_world 0 5 300006 300007 " évora " "ÉVORA" fresh).
  - vm_compute; reflexivity.
  - vm_compute; reflexivity.
  - vm_compute; reflexivity.
  - unfold cacheTTLms; lia.
Defined.

(* ===================================================================== *)
(** * Further properties of the forecast normalization *)
(* ===================================================================== *)

Section ForecastAnyOrder.

Implicit Types (forecast item : value) (items days acc : list value).

Lemma day_of_is_Some item :
  is_Some (day_of item) <-> exists s : string, Get item "dt_txt" = Some (VStr s).
Proof.
  unfold day_of. split.
  - intros [day H]. destruct (Get item "dt_txt") as [[| | | | s | | |] |];
      try discriminate H. now exists s.
  - intros (s & ->). cbn. eauto.
Qed.

Lemma reduce_is_Some items : forall acc,
  is_Some (reduce acc items) <-> Forall (fun item => is_Some (day_of item)) items.
Proof.
  induction items as [| item items IH]; intros acc; cbn [reduce].
  - split; [constructor | eauto].
  - unfold step. destruct (day_of item) as [day |] eqn:Hday; cbn.
    + rewrite IH. split.
      * intros H. constructor; [rewrite Hday; eauto | exact H].
      * now inversion 1.
    + split; [intros [? H]; discriminate H |].
      inversion 1 as [| ? ? [? H1] _]; subst. rewrite Hday in H1. discriminate H1.
Qed.

(** X8. The forecast is normalized exactly when the body has a [list]
    array whose entries all carry a string [dt_txt]: one entry without,
    wherever it stands in the list, and the normalization throws. *)
Theorem forecast_needs_every_timestamp forecast :
  is_Some (forecast_of forecast)
  <-> exists items,
        Get forecast "list" = Some (VArr items)
        /\ Forall (fun item => exists s : string, Get item "dt_txt" = Some (VStr s))
             items.
Proof.
  unfold forecast_of. split.
  - intros [fc H].
    destruct (Get forecast "list") as [[| | | | | items | |] |]; try discriminate H.
    cbn in H. exists items. split; [reflexivity |].
    assert (is_Some (reduce [] items)) as Hred
      by (destruct (reduce [] items); [eauto | discriminate H]).
    apply reduce_is_Some in Hred.
    eapply List.Forall_impl; [| exact Hred]. intros item. apply day_of_is_Some.
  - intros (items & -> & Hall). cbn.
    assert (is_Some (reduce [] items)) as [days ->].
    { apply reduce_is_Some. eapply List.Forall_impl; [| exact Hall].
      intros item. apply day_of_is_Some. }
    cbn. eauto.
Qed.

(** X9. In whatever order the upstream entries come: the normalized
    forecast has five entries at most, no two with the same [day], each
    made from the first upstream entry of its date; and it covers the date
    of every upstream entry unless it is full, with five entries. *)
Theorem forecast_in_any_order forecast items days :
  Get forecast "list" = Some (VArr items) ->
  forecast_of forecast = Some (VArr days) ->
  (List.length days <= 5)%nat
  /\ NoDup (map entry_day days)
  /\ Forall (first_of_its_day items) days
  /\ ((forall item day, In item items -> day_of item = Some day -> covers days day)
      \/ List.length days = 5%nat).
Proof.
  intros Hlist. unfold forecast_of. rewrite Hlist. cbn.
  destruct (reduce [] items) as [all |] eqn:Hred; [| discriminate]. cbn.
  intros [= <-].
  assert (kept_days ([] ++ items) all) as [Hfirst Hseen Hnodup].
  { apply reduce_kept with []; [exact Hred |].
    split; [constructor | intros ? ? [] | constructor]. }
  split; [apply firstn_le_length |].
  split; [rewrite <- firstn_map; now apply firstn_NoDup |].
  split; [now apply firstn_Forall |].
  destruct (Nat.le_gt_cases (List.length all) 5) as [Hle | Hgt].
  - left. rewrite firstn_all2 by exact Hle. intros item day Hin Hday.
    now apply (Hseen item day).
  - right. rewrite length_firstn. lia.
Qed.

End ForecastAnyOrder.

Lemma forecast_in_any_order_witness :
  exists days,
    forecast_of shuffled_forecast = Some (VArr days)
    /\ (List.length days <= 5)%nat
    /\ NoDup (map entry_day days)
    /\ ((forall item day,
           In item [ VObj [("dt_txt", VStr "2024-05-02 00:00:00")];
                     VObj [("dt_txt", VStr "2024-05-01 21:00:00"); ("pop", VNum 0.5)];
                     VObj [("dt_txt", VStr "2024-05-02")] ] ->
           day_of item = Some day -> covers days day)
        \/ List.length days = 5%nat).
Proof.
  eexists. split; [vm_compute; reflexivity |].
  refine (let H := forecast_in_any_order shuffled_forecast _ _ eq_refl eq_refl in _).
  destruct H as (Hlen & Hnodup & _ & Hcov). auto.
Defined.

(* ===================================================================== *)
(** * Further properties of the rule engine *)
(* ===================================================================== *)

Section RuleEngineShape.

Implicit Types (r : readings) (x : tip).

(** The tip on the temperature. *)
Lemma tips_of_cases r :
  exists (temperature others : list tip),
    tips_of r = temperature ++ others
    /\ (temperature = [] /\ is_nan (t r) = true
        \/ (temperature = [Hot] \/ temperature = [Cool] \/ temperature = [Pleasant])
           /\ is_nan (t r) = false)
    /\ others = when (70 <=? hum r)%float Humid
                ++ when (8 <=? wind r)%float Breezy
                ++ when (Str.includes "rain" (desc r) || (40 <=? pop r)%float) Umbrella
                ++ when (Str.includes "haze" (desc r) || Str.includes "smoke" (desc r))
                     AirQuality
                ++ when (Str.includes "clear" (desc r)) ClearSkies.
Proof.
  unfold tips_of. eexists _, _. split; [reflexivity |]. split; [| reflexivity].
  destruct (is_nan (t r)); cbn [negb]; [now left | right].
  split; [| reflexivity]. split_conditions; auto.
Qed.

(** X10. The tips pushed are all different and six at most, the generic
    tip never among them; exactly one of the three tips on the temperature
    is pushed, first, when the temperature is a number, and none when it
    is not. *)
Theorem rule_engine_tips_shape r :
  NoDup (tips_of r)
  /\ (List.length (tips_of r) <= 6)%nat
  /\ ~ In Generic (tips_of r)
  /\ (is_nan (t r) = false ->
        exists x rest, tips_of r = x :: rest
          /\ (x = Hot \/ x = Cool \/ x = Pleasant)
          /\ ~ In Hot rest /\ ~ In Cool rest /\ ~ In Pleasant rest)
  /\ (is_nan (t r) = true ->
        ~ In Hot (tips_of r) /\ ~ In Cool (tips_of r) /\ ~ In Pleasant (tips_of r)).
Proof.
  destruct (tips_of_cases r) as (temperature & others & -> & Htemp & ->).
  unfold when.
  destruct Htemp as [[-> ->] | [[-> | [-> | ->]] ->]];
    split_conditions; cbn [app List.length].
  all: split; [apply NoDup_ListNoDup; repeat constructor; cbn; intuition discriminate |].
  all: split; [lia |].
  all: split; [cbn; intuition discriminate |].
  all: split; try discriminate; intros _.
  all: try (eexists _, _; split; [reflexivity |]).
  all: cbn; intuition discriminate.
Qed.

(** X11. Keeping four tips cuts no tip on the temperature, the humidity,
    the wind or the rain: a tip pushed and not kept is the one on air
    quality or the one on clear skies.  The generic tip is kept exactly
    when no tip was pushed, and four tips or fewer are all kept. *)
Theorem slice_cuts_only_the_last_two r :
  (forall x, In x (tips_of r) ->
     In x (kept (tips_of r)) \/ x = AirQuality \/ x = ClearSkies)
  /\ (In Generic (kept (tips_of r)) <-> tips_of r = [])
  /\ (tips_of r <> [] -> (List.length (tips_of r) <= 4)%nat ->
        kept (tips_of r) = tips_of r).
Proof.
  destruct (tips_of_cases r) as (temperature & others & -> & Htemp & ->).
  unfold when, kept.
  destruct Htemp as [[-> _] | [[-> | [-> | ->]] _]];
    split_conditions; cbn [app List.length firstn];
    (split; [intros x; cbn; intuition auto |]);
    (split; [cbn; intuition (discriminate || auto) |]);
    intros Hne Hlen; cbn in Hlen; try reflexivity; try lia; now contradiction Hne.
Qed.

End RuleEngineShape.

Lemma rule_engine_tips_shape_witness :
  exists x rest, tips_of stormy_readings = x :: rest
    /\ (x = Hot \/ x = Cool \/ x = Pleasant)
    /\ ~ In Hot rest /\ ~ In Cool rest /\ ~ In Pleasant rest.
Proof.
  apply (proj1 (proj2 (proj2 (proj2 (rule_engine_tips_shape stormy_readings))))).
  reflexivity.
Defined.

Lemma slice_cuts_only_the_last_two_witness :
  In ClearSkies (tips_of stormy_readings)
  /\ (In ClearSkies (kept (tips_of stormy_readings))
      \/ ClearSkies = AirQuality \/ ClearSkies = ClearSkies).
Proof.
  assert (H : In ClearSkies (tips_of stormy_readings)) by (vm_compute; tauto).
  split; [exact H |].
  exact (proj1 (slice_cuts_only_the_last_two stormy_readings) ClearSkies H).
Defined.

(* ===================================================================== *)
(** * Further properties of the advice route *)
(* ===================================================================== *)

Section AdvicePaths.

Import Advice.

Implicit Types (cfg : config) (openai : service) (payload : value).

Lemma truthy_Get (v : value) (k : string) :
  truthy v = true -> Get v k = Some (optGet v k).
Proof. unfold optGet. destruct v; cbn; try discriminate; reflexivity. Qed.

Lemma Get_body payload (k : string) :
  Get (or payload (VObj [])) k = Some (optGet (or payload (VObj [])) k).
Proof.
  apply truthy_Get. unfold or. now destruct (truthy payload) eqn:H.
Qed.

(** The route, past the destructuring of the body. *)
Lemma route_fields cfg openai payload :
  route cfg openai payload
  = let '(location, current, forecast) := fields_of payload in
    if USE_MOCK_AI cfg then fallback current forecast
    else if key_missing cfg then fallback current forecast
    else
      prompt ← prompt_of location current forecast;
      match openai prompt with
      | Failed => None
      | Refused text => _ ← text; fallback current forecast
      | Completed json =>
          data ← json;
          content ← content_of data;
          match content with
          | VStr s => if Str.is_empty s then fallback current forecast
                      else Some (advice s)
          | _ => fallback current forecast
          end
      end.
Proof. unfold route, fields_of. now rewrite !Get_body. Qed.

Lemma fallback_offline payload :
  match (let '(_, current, forecast) := fields_of payload in fallback current forecast) with
  | Some r => r
  | None => advice last_resort
  end = advice (offline_answer payload).
Proof.
  unfold offline_answer, fallback. destruct (fields_of payload) as [[l c] f].
  now destruct (ruleBasedAdvice c f).
Qed.

Lemma handler_offline cfg openai payload :
  USE_MOCK_AI cfg = true \/ key_missing cfg = true ->
  handler cfg openai payload = advice (offline_answer payload).
Proof.
  intros H. unfold handler. rewrite route_fields, <- fallback_offline.
  destruct (fields_of payload) as [[l c] f].
  destruct H as [-> | H]; [reflexivity |].
  rewrite H. now destruct (USE_MOCK_AI cfg).
Qed.

(** X12. Mock mode is on for the text [true] of [USE_MOCK_AI] and for no
    other.  With mock mode on, or with [OPENAI_API_KEY] unset or empty,
    the answer does not depend on the completion service: it is the text
    of the rule engine, or the tip of the [catch] when the engine
    throws. *)
Theorem offline_mode_ignores_service (e : Startup.env) openai openai' payload :
  (USE_MOCK_AI (Startup.config_of e) = true <-> e "USE_MOCK_AI" = Some "true")
  /\ (e "USE_MOCK_AI" = Some "true"
      \/ e "OPENAI_API_KEY" = None \/ e "OPENAI_API_KEY" = Some "" ->
      handler (Startup.config_of e) openai payload = advice (offline_answer payload)
      /\ handler (Startup.config_of e) openai' payload
         = handler (Startup.config_of e) openai payload).
Proof.
  split.
  - unfold Startup.config_of. cbn [USE_MOCK_AI].
    destruct (e "USE_MOCK_AI") as [s |]; [| split; discriminate].
    split.
    + intros H. apply String.eqb_eq in H. now subst.
    + intros [= ->]. reflexivity.
  - intros H.
    assert (Hoff : USE_MOCK_AI (Startup.config_of e) = true
                   \/ key_missing (Startup.config_of e) = true).
    { unfold Startup.config_of, key_missing. cbn [USE_MOCK_AI OPENAI_API_KEY].
      destruct H as [-> | [-> | ->]]; auto. }
    now rewrite !handler_offline.
Qed.

(** X13. When the service refuses, or completes without a content, or with
    a content that is blank once trimmed, the answer is the one of mock
    mode. *)
Theorem degraded_service_answers_offline cfg openai payload (prompt : string) :
  online cfg ->
  prompt_for payload = Some prompt ->
  degraded (openai prompt) ->
  handler cfg openai payload = advice (offline_answer payload).
Proof.
  intros [Hmock Hkey] Hprompt Hdeg.
  unfold handler. rewrite route_fields, <- fallback_offline, Hmock, Hkey.
  unfold prompt_for in Hprompt.
  destruct (fields_of payload) as [[l c] f]. rewrite Hprompt. cbn.
  destruct Hdeg as [(text & ->) | (data & content & -> & Hc & Hfalsy)];
    [reflexivity |].
  cbn. rewrite Hc. cbn.
  destruct content as [| | | | s | | |]; try reflexivity.
  cbn in Hfalsy. apply negb_false_iff in Hfalsy. now rewrite Hfalsy.
Qed.

(** X14. With the service to be called, the answer is the tip of the
    [catch], whatever the rule engine would have said, when the prompt
    cannot be built (a [forecast] that is not an array is enough), when
    the call is rejected, when a body cannot be read, or when the content
    is not a string. *)
Theorem broken_service_gets_last_resort cfg openai payload :
  online cfg ->
  ((forall items, snd (fields_of payload) <> VArr items) -> prompt_for payload = None)
  /\ (prompt_for payload = None
      \/ (exists prompt, prompt_for payload = Some prompt /\ broken (openai prompt)) ->
      handler cfg openai payload = advice last_resort).
Proof.
  intros [Hmock Hkey]. split.
  - unfold prompt_for, prompt_of. destruct (fields_of payload) as [[l c] f].
    cbn [snd]. intros Hf.
    assert (forecast_lines f = None) as Hlines
      by (destruct f; try reflexivity; now contradiction (Hf elems)).
    rewrite Hlines.
    repeat match goal with
           | |- context [mbind _ ?o] =>
               lazymatch o with
               | None => fail
               | _ => destruct o; cbn [mbind option_bind]; [| reflexivity]
               end
           end.
    reflexivity.
  - intros H. unfold handler. rewrite route_fields, Hmock, Hkey.
    unfold prompt_for in H. destruct (fields_of payload) as [[l c] f].
    destruct H as [-> | (prompt & -> & Hb)]; [reflexivity |]. cbn.
    destruct Hb as [-> | [-> | [-> | (data & -> & Hc)]]]; try reflexivity.
    cbn. now rewrite Hc.
Qed.

(** X15. With the service to be called and its completion carrying a
    string that is not blank, the answer is that string, trimmed, and
    nothing of the rule engine. *)
Theorem service_text_is_served cfg openai payload (prompt raw : string)
    (data choices : value) :
  online cfg ->
  prompt_for payload = Some prompt ->
  openai prompt = Completed (Some data) ->
  Get data "choices" = Some choices ->
  optGet (optGet (optGet choices "0") "message") "content" = VStr raw ->
  Str.trim raw <> "" ->
  handler cfg openai payload = advice (Str.trim raw).
Proof.
  intros [Hmock Hkey] Hprompt Hcall Hchoices Hraw Hne.
  unfold handler. rewrite route_fields, Hmock, Hkey.
  unfold prompt_for in Hprompt. destruct (fields_of payload) as [[l c] f].
  rewrite Hprompt. cbn. rewrite Hcall. cbn.
  unfold content_of. rewrite Hchoices. cbn. rewrite Hraw. cbn.
  destruct (Str.trim raw); [now contradiction Hne | reflexivity].
Qed.

End AdvicePaths.

Lemma offline_mode_ignores_service_witness :
  Advice.handler (Startup.config_of mock_env) chatty paris_payload
  = advice (offline_answer paris_payload)
  /\ Advice.handler (Startup.config_of mock_env) unreachable paris_payload
     = Advice.handler (Startup.config_of mock_env) chatty paris_payload.
Proof.
  apply (proj2 (offline_mode_ignores_service mock_env chatty unreachable paris_payload)).
  left. reflexivity.
Defined.

Lemma degraded_service_answers_offline_witness :
  Advice.handler (Startup.config_of keyed_env) refusing paris_payload
  = advice (offline_answer paris_payload).
Proof.
  apply (degraded_service_answers_offline
           (Startup.config_of keyed_env) refusing paris_payload paris_prompt).
  - split; reflexivity.
  - vm_compute; reflexivity.
  - left. exists "quota exceeded". reflexivity.
Defined.

Lemma broken_service_gets_last_resort_witness :
  prompt_for (VObj [("forecast", VStr "none")]) = None
  /\ Advice.handler (Startup.config_of keyed_env) unreachable paris_payload
     = advice last_resort.
Proof.
  split.
  - apply (proj1 (broken_service_gets_last_resort
                    (Startup.config_of keyed_env) unreachable
                    (VObj [("forecast", VStr "none")]) (conj eq_refl eq_refl))).
    intros items. cbn. discriminate.
  - apply (proj2 (broken_service_gets_last_resort
                    (Startup.config_of keyed_env) unreachable paris_payload
                    (conj eq_refl eq_refl))).
    right. exists paris_prompt. split; [vm_compute; reflexivity |].
    left. reflexivity.
Defined.

Lemma service_text_is_served_witness :
  Advice.handler (Startup.config_of keyed_env) chatty paris_payload
  = advice (Str.trim "  Carry water.  ").
Proof.
  apply (service_text_is_served
           (Startup.config_of keyed_env) chatty paris_payload paris_prompt
           "  Carry water.  "
           (VObj [("choices",
                   VArr [VObj [("message",
                                VObj [("content", VStr "  Carry water.  ")])]])])
           (VArr [VObj [("message", VObj [("content", VStr "  Carry water.  ")])]])).
  - split; reflexivity.
  - vm_compute; reflexivity.
  - reflexivity.
  - reflexivity.
  - reflexivity.
  - vm_compute. discriminate.
Defined.

(* ===================================================================== *)
(** * Properties of the page script *)
(* ===================================================================== *)

Section Prefixes.

Implicit Types (p l r : list ascii) (ws : list (list ascii)).

Lemma strip_prefix_Some p l r : Str.strip_prefix p l = Some r -> l = p ++ r.
Proof.
  revert l. induction p as [| a p IH]; intros [| b l]; cbn; try congruence.
  destruct (Ascii.eqb_spec a b) as [-> | _]; [| discriminate].
  intros H. now rewrite (IH l H).
Qed.

Lemma strip_prefix_app p l r (post : list ascii) :
  Str.strip_prefix p l = Some r -> Str.strip_prefix p (l ++ post) = Some (r ++ post).
Proof.
  revert l. induction p as [| a p IH]; intros l; cbn.
  - now intros [= ->].
  - destruct l as [| b l]; [discriminate |]. cbn.
    destruct (Ascii.eqb a b); [apply IH | discriminate].
Qed.

Lemma strip_any_Some ws l r :
  Str.strip_any ws l = Some r -> exists p, In p ws /\ l = p ++ r.
Proof.
  induction ws as [| p ws IH]; cbn; [discriminate |].
  destruct (Str.strip_prefix p l) as [r' |] eqn:Hp.
  - intros [= ->]. exists p. split; [now left | now apply strip_prefix_Some].
  - intros H. destruct (IH H) as (q & Hq & ->). exists q. split; [now right | reflexivity].
Qed.

Lemma strip_any_app_r ws l (post : list ascii) :
  is_Some (Str.strip_any ws l) -> is_Some (Str.strip_any ws (l ++ post)).
Proof.
  induction ws as [| p ws IH]; cbn; [intros [? H]; discriminate H |].
  destruct (Str.strip_prefix p l) as [r |] eqn:Hp.
  - intros _. rewrite (strip_prefix_app _ _ _ post Hp). eauto.
  - intros H. destruct (Str.strip_prefix p (l ++ post)); [eauto | now apply IH].
Qed.

Lemma strip_any_weaken ws ws' l :
  Str.strip_any (ws ++ ws') l = None -> Str.strip_any ws' l = None.
Proof.
  induction ws as [| p ws IH]; cbn; [auto |].
  destruct (Str.strip_prefix p l); [discriminate | exact IH].
Qed.

Lemma drop_ws_suffix ws (n : nat) : forall l,
  exists pre, l = pre ++ Str.drop_ws ws n l.
Proof.
  induction n as [| n IH]; intros l; cbn; [now exists [] |].
  destruct (Str.strip_any ws l) as [r |] eqn:Hr; [| now exists []].
  destruct (strip_any_Some _ _ _ Hr) as (p & _ & ->).
  destruct (IH r) as (pre & Hpre). exists (p ++ pre).
  rewrite <- app_assoc. now rewrite <- Hpre.
Qed.

(** With enough fuel nothing of the class is left in front. *)
Lemma drop_ws_done ws (n : nat) : forall l,
  List.Forall (fun p => p <> []) ws -> (List.length l <= n)%nat ->
  Str.strip_any ws (Str.drop_ws ws n l) = None.
Proof.
  intros l Hws. revert l. induction n as [| n IH]; intros l Hn; cbn.
  - destruct l; [| cbn in Hn; lia].
    clear Hn. induction Hws as [| p ws Hp _ IHws]; cbn; [reflexivity |].
    destruct p; [now contradiction Hp | exact IHws].
  - destruct (Str.strip_any ws l) as [r |] eqn:Hr; [| exact Hr].
    apply IH. destruct (strip_any_Some _ _ _ Hr) as (p & Hin & ->).
    rewrite List.Forall_forall in Hws. specialize (Hws p Hin).
    rewrite length_app in Hn. destruct p; [now contradiction Hws | cbn in Hn; lia].
Qed.

Lemma drop_ws_nothing ws (n : nat) l :
  Str.strip_any ws l = None -> Str.drop_ws ws n l = l.
Proof. intros H. destruct n; cbn; [reflexivity | now rewrite H]. Qed.

Lemma trimEnd_prefix l : exists post, l = Str.trimEnd_list l ++ post.
Proof.
  unfold Str.trimEnd_list.
  destruct (drop_ws_suffix (map (@rev ascii) Str.white_space) (List.length l) (rev l))
    as (pre & Hpre).
  exists (rev pre). apply (f_equal (@rev ascii)) in Hpre.
  rewrite rev_involutive, rev_app_distr in Hpre. exact Hpre.
Qed.

Lemma bullet_class_not_nil : List.Forall (fun p => p <> []) Client.bullet_class.
Proof. vm_compute. repeat constructor; discriminate. Qed.

End Prefixes.

Section Lines.

Import Client.

Implicit Types (s text piece : string) (p : page).

Lemma to_list_of_list (l : list ascii) : Str.to_list (Str.of_list l) = l.
Proof. apply list_ascii_of_string_of_list_ascii. Qed.

Lemma of_list_to_list s : Str.of_list (Str.to_list s) = s.
Proof. apply string_of_list_ascii_of_string. Qed.

Lemma split_lines_not_nil s : split_lines s <> [].
Proof.
  induction s as [| c r IH]; cbn; [discriminate |].
  destruct (is_lf c).
  - destruct r as [| c' r']; [discriminate |].
    destruct (is_lf c'); [exact IH | discriminate].
  - destruct (split_lines r); discriminate.
Qed.

Lemma split_lines_no_lf s :
  List.Forall (fun piece => ~ In (Str.chr 10) (Str.to_list piece)) (split_lines s).
Proof.
  induction s as [| c r IH]; cbn [split_lines].
  - repeat constructor. intros [].
  - destruct (is_lf c) eqn:Hc.
    + destruct r as [| c' r']; [repeat constructor; intros [] |].
      destruct (is_lf c'); [exact IH |]. constructor; [intros [] | exact IH].
    + destruct (split_lines r) as [| piece pieces]; inversion IH; subst.
      * repeat constructor. intros [-> | []]. unfold is_lf in Hc.
        now rewrite Ascii.eqb_refl in Hc.
      * constructor; [| assumption].
        intros [-> | Hin]; [| auto]. unfold is_lf in Hc.
        now rewrite Ascii.eqb_refl in Hc.
Qed.

(** What is left of a piece, bullet and white space removed, is a part of
    the piece with nothing of the class in front. *)
Lemma stripped_line piece :
  let t := Str.trim (strip_bullet piece) in
  (forall c, In c (Str.to_list t) -> In c (Str.to_list piece))
  /\ (t <> "" -> ~ begins_with_bullet t).
Proof.
  cbn zeta. unfold Str.trim, strip_bullet. rewrite !to_list_of_list.
  set (l := Str.to_list piece).
  set (l' := Str.drop_ws bullet_class (List.length l) l).
  assert (Hnone : Str.strip_any bullet_class l' = None)
    by (apply drop_ws_done; [apply bullet_class_not_nil | reflexivity]).
  assert (Hstart : Str.trimStart_list l' = l').
  { apply drop_ws_nothing.
    apply (strip_any_weaken
             (map Str.bytes
                ([ [45%nat]; [226; 128; 162]%nat; [46%nat] ]
                 ++ map (fun d => [d]) [48; 49; 50; 51; 52; 53; 54; 55; 56; 57]%nat))).
    exact Hnone. }
  rewrite Hstart.
  destruct (trimEnd_prefix l') as (post & Hpost).
  destruct (drop_ws_suffix bullet_class (List.length l) l) as (pre & Hpre).
  fold l' in Hpre. split.
  - intros c Hin. rewrite Hpre, Hpost. apply in_or_app. right.
    apply in_or_app. now left.
  - intros _ Hb. unfold begins_with_bullet in Hb. rewrite to_list_of_list in Hb.
    apply (strip_any_app_r _ _ post) in Hb. rewrite <- Hpost, Hnone in Hb.
    destruct Hb as [? Hb]. discriminate Hb.
Qed.

Lemma tip_lines_clean text : List.Forall clean_line (tip_lines text).
Proof.
  unfold tip_lines. apply List.Forall_forall. intros t Hin.
  apply filter_In in Hin as [Hin Hne]. apply in_map_iff in Hin as (piece & <- & Hpiece).
  pose proof (split_lines_no_lf text) as Hlf. rewrite List.Forall_forall in Hlf.
  destruct (stripped_line piece) as [Hsub Hclean].
  assert (Str.trim (strip_bullet piece) <> "") as Hne'
    by (intros H0; rewrite H0 in Hne; discriminate Hne).
  split; [exact Hne' |]. split; [| now apply Hclean].
  intros Hc. apply (Hlf piece Hpiece). now apply Hsub.
Qed.

(** X16. [renderTips] never leaves the list of tips empty.  For a string
    it replaces the tips and touches nothing else: by the lines of the
    text, each without its bullet, none empty, none with a line feed or a
    bullet left in front; or by the whole text, as one tip, when no line
    has anything to show.  For any other value it throws before touching
    the page. *)
Theorem renderTips_shows_something text p :
  renderTips (VStr text) p = (inl tt, set_tips (tips_shown text) p)
  /\ tips_shown text <> []
  /\ (List.Forall clean_line (tips_shown text)
      \/ tip_lines text = [] /\ tips_shown text = [text])
  /\ (forall v, (forall s, v <> VStr s) -> renderTips v p = (inr Raised, p)).
Proof.
  unfold renderTips, tips_shown.
  pose proof (tip_lines_clean text) as Hclean.
  split; [now destruct (tip_lines text) |].
  split; [now destruct (tip_lines text) |].
  split; [destruct (tip_lines text); [now right | now left] |].
  intros v Hv. destruct v; try reflexivity. now contradiction (Hv s).
Qed.

Lemma split_lines_app (x t : string) :
  ~ In (Str.chr 10) (Str.to_list x) ->
  (forall r, t <> String (Str.chr 10) r) ->
  split_lines (x +:+ String (Str.chr 10) t) = x :: split_lines t.
Proof.
  intros Hx Ht. induction x as [| c x IH].
  - change (split_lines ("" +:+ String (Str.chr 10) t))
      with (match t with
            | EmptyString => [EmptyString; EmptyString]
            | String c' _ =>
                if is_lf c' then split_lines t else EmptyString :: split_lines t
            end).
    destruct t as [| c' r]; [reflexivity |].
    destruct (Ascii.eqb_spec c' (Str.chr 10)) as [-> | Hne]; [now contradiction (Ht r) |].
    unfold is_lf. apply Ascii.eqb_neq in Hne. now rewrite Hne.
  - assert (is_lf c = false) as Hc.
    { apply Ascii.eqb_neq. intros ->. apply Hx. now left. }
    change (split_lines (String c x +:+ String (Str.chr 10) t))
      with (if is_lf c
            then match x +:+ String (Str.chr 10) t with
                 | EmptyString => [EmptyString; EmptyString]
                 | String c' _ =>
                     if is_lf c' then split_lines (x +:+ String (Str.chr 10) t)
                     else EmptyString :: split_lines (x +:+ String (Str.chr 10) t)
                 end
            else match split_lines (x +:+ String (Str.chr 10) t) with
                 | piece :: pieces => String c piece :: pieces
                 | [] => [String c EmptyString]
                 end).
    rewrite Hc, IH; [reflexivity |]. intros Hin. apply Hx. now right.
Qed.

(** Lines that are not empty and hold no line feed, joined by line feeds,
    split into themselves. *)
Lemma split_lines_join (lines : list string) :
  lines <> [] ->
  List.Forall (fun x => x <> "" /\ ~ In (Str.chr 10) (Str.to_list x)) lines ->
  split_lines (Str.join Str.newline lines) = lines.
Proof.
  induction lines as [| x rest IH]; [congruence |]. intros _ Hall.
  inversion Hall as [| ? ? [Hne Hlf] Hrest]; subst.
  destruct rest as [| y rest'].
  - cbn [Str.join]. clear IH Hall Hrest.
    induction x as [| c x IHx]; [now contradiction Hne |].
    assert (is_lf c = false) as Hc.
    { apply Ascii.eqb_neq. intros ->. apply Hlf. now left. }
    cbn [split_lines]. rewrite Hc.
    destruct x as [| c' x']; [reflexivity |].
    rewrite IHx; [reflexivity | discriminate |].
    intros Hin. apply Hlf. now right.
  - change (Str.join Str.newline (x :: y :: rest'))
      with (x +:+ String (Str.chr 10) (Str.join Str.newline (y :: rest'))).
    rewrite split_lines_app.
    + f_equal. apply IH; [discriminate | exact Hrest].
    + exact Hlf.
    + intros r Hr. inversion Hrest as [| ? ? [Hy Hylf] _]; subst.
      destruct y as [| c y']; [now contradiction Hy |].
      apply Hylf. left.
      destruct rest'; cbn in Hr; now injection Hr as -> _.
Qed.

Lemma no_lf_check (s : string) :
  forallb (fun c => negb (is_lf c)) (Str.to_list s) = true ->
  ~ In (Str.chr 10) (Str.to_list s).
Proof.
  intros H Hin. rewrite forallb_forall in H. specialize (H _ Hin).
  unfold is_lf in H. now rewrite Ascii.eqb_refl in H.
Qed.

Lemma bullet_line (x : tip) :
  let l := "- " +:+ tip_text x in
  l <> "" /\ ~ In (Str.chr 10) (Str.to_list l)
  /\ Str.trim (strip_bullet l) = tip_text x
  /\ Str.is_empty (tip_text x) = false.
Proof.
  cbn zeta. split; [destruct x; discriminate |].
  split; [apply no_lf_check; destruct x; vm_compute; reflexivity |].
  split; destruct x; vm_compute; reflexivity.
Qed.

Lemma tip_lines_bullets (tips : list tip) :
  tips <> [] -> tip_lines (bullets tips) = map tip_text tips.
Proof.
  intros Hne. unfold tip_lines, bullets.
  rewrite split_lines_join.
  - clear Hne. induction tips as [| x tips IH]; [reflexivity |].
    destruct (bullet_line x) as (_ & _ & Htrim & Hfull).
    cbn [map List.filter]. rewrite Htrim, Hfull. cbn [negb]. now rewrite IH.
  - destruct tips; [congruence | discriminate].
  - apply List.Forall_forall. intros l Hin. apply in_map_iff in Hin as (x & <- & _).
    destruct (bullet_line x) as (H1 & H2 & _). now split.
Qed.

Lemma offline_answer_cases (payload : value) :
  (exists r, offline_answer payload = bullets (kept (tips_of r)))
  \/ offline_answer payload = last_resort.
Proof.
  unfold offline_answer, ruleBasedAdvice. destruct (fields_of payload) as [[l c] f].
  destruct (read c f) as [r |]; [left; exists r; reflexivity | right; reflexivity].
Qed.

(** X17. The text of the rule engine shows as its tips: for one tip or
    more, [renderTips] on what [bullets] made of them puts one element per
    tip on the page, in the same order, each with the text of its tip and
    without the dash.  So the answer of the advice route in mock mode
    always shows as one to four tips, each a text of the rule engine or
    the tip of the [catch]. *)
Theorem rule_engine_text_is_rendered p :
  (forall tips : list tip, tips <> [] ->
     renderTips (VStr (bullets tips)) p = (inl tt, set_tips (map tip_text tips) p))
  /\ (forall payload, exists texts,
        renderTips (VStr (offline_answer payload)) p = (inl tt, set_tips texts p)
        /\ (1 <= List.length texts <= 4)%nat
        /\ List.Forall
             (fun s => (exists x, s = tip_text x)
                       \/ s = "Weather looks manageable; stay safe and carry water.")
             texts).
Proof.
  assert (Hshow : forall tips : list tip, tips <> [] ->
            renderTips (VStr (bullets tips)) p = (inl tt, set_tips (map tip_text tips) p)).
  { intros tips Hne. unfold renderTips. rewrite tip_lines_bullets by exact Hne.
    destruct tips; [congruence | reflexivity]. }
  split; [exact Hshow |].
  intros payload.
  destruct (offline_answer_cases payload) as [(r & ->) | ->].
  - exists (map tip_text (kept (tips_of r))).
    split; [apply Hshow, kept_not_nil |].
    rewrite length_map. split.
    + pose proof (kept_not_nil (tips_of r)) as Hne. pose proof (kept_length (tips_of r)).
      destruct (kept (tips_of r)); [congruence | cbn in *; lia].
    + apply List.Forall_forall. intros s Hin. apply in_map_iff in Hin as (x & <- & _).
      left. now exists x.
  - exists ["Weather looks manageable; stay safe and carry water."].
    split; [vm_compute; reflexivity |]. split; [cbn; lia |].
    constructor; [now right | constructor].
Qed.

End Lines.

Section Rendering.

Import Client.

Implicit Types (wx f : value) (p : page) (fs : list value).

Lemma bind_engine {A B : Type} (o : option A) (k : A -> R B) p :
  (x ← engine o; k x) p
  = match o with
    | Some x => k x p
    | None => (inr Raised, p)
    end.
Proof. unfold mbind, R_bind, engine. now destruct o. Qed.

Lemma bind_update {B : Type} (g : page -> page) (k : unit -> R B) p :
  (x ← update g; k x) p = k tt (g p).
Proof. reflexivity. Qed.

Lemma forEach_card_cases fs : forall p,
  match mapM card fs with
  | Some cards =>
      forEach_card fs p = (inl tt, set_cards (elForecastCards p ++ cards) p)
  | None =>
      exists p', forEach_card fs p = (inr Raised, p')
                 /\ hidden p' = hidden p /\ same_outside_results p p'
  end.
Proof.
  induction fs as [| f fs IH]; intros p.
  - cbn. rewrite app_nil_r. now destruct p.
  - cbn [mapM forEach_card]. rewrite bind_engine.
    destruct (card f) as [m |]; cbn [mbind option_bind];
      [| exists p; repeat split].
    unfold appendCard. rewrite bind_update.
    specialize (IH (set_cards (elForecastCards p ++ [m]) p)).
    destruct (mapM card fs) as [cards |]; cbn [mbind option_bind mret option_ret].
    + rewrite IH. cbn. now rewrite <- app_assoc.
    + destruct IH as (p' & -> & Hh & Hs & Ht & Hr). exists p'. repeat split; assumption.
Qed.

(** [renderWeather] against the view of the payload. *)
Lemma renderWeather_cases wx p :
  match view wx with
  | Some v => renderWeather wx p = (inl tt, rendered v p)
  | None =>
      exists p', renderWeather wx p = (inr Raised, p')
                 /\ hidden p' = false /\ same_outside_results p p'
  end.
Proof.
  unfold view, renderWeather. rewrite bind_update, bind_engine.
  destruct (Get wx "location") as [location |]; cbn [mbind option_bind];
    [| eexists; split; [reflexivity | repeat split]].
  rewrite bind_engine.
  destruct (locLine location) as [l |]; cbn [mbind option_bind];
    [| eexists; split; [reflexivity | repeat split]].
  rewrite bind_update, bind_engine.
  destruct (Get wx "current") as [c |]; cbn [mbind option_bind];
    [| eexists; split; [reflexivity | repeat split]].
  rewrite bind_engine.
  destruct (currentLine c) as [cl |]; cbn [mbind option_bind];
    [| eexists; split; [reflexivity | repeat split]].
  rewrite !bind_update, bind_engine.
  destruct (Get wx "forecast") as [forecast |]; cbn [mbind option_bind];
    [| eexists; split; [reflexivity | repeat split]].
  destruct forecast as [| | | | | fs | |];
    try (eexists; split; [reflexivity | repeat split]).
  pose proof (forEach_card_cases fs
                (set_cards [] (set_current cl (set_loc l (set_hidden false p))))) as H.
  destruct (mapM card fs) as [cards |]; cbn [mbind option_bind].
  - rewrite H. reflexivity.
  - destruct H as (p' & -> & Hh & Hs & Ht & Hr). exists p'.
    split; [reflexivity |]. split; [exact Hh |]. repeat split; assumption.
Qed.

(** X18. [renderWeather] reveals the results panel before anything else
    and leaves the status line, the tips and the requests alone.  When
    the location line, the line of the current conditions and every card
    can be built, it shows exactly these, one card per forecast entry in
    the order of the payload; when one cannot, it throws an error of the
    engine, the panel revealed all the same. *)
Theorem renderWeather_shows_the_view wx p :
  hidden (snd (renderWeather wx p)) = false
  /\ same_outside_results p (snd (renderWeather wx p))
  /\ (forall l cl cards, view wx = Some (l, cl, cards) ->
        renderWeather wx p
        = (inl tt, set_cards cards (set_current cl (set_loc l (set_hidden false p))))
        /\ exists fs, Get wx "forecast" = Some (VArr fs)
                      /\ Forall2 (fun f m => card f = Some m) fs cards)
  /\ (view wx = None -> fst (renderWeather wx p) = inr Raised).
Proof.
  pose proof (renderWeather_cases wx p) as H.
  destruct (view wx) as [[[l cl] cards] |] eqn:Hview.
  - rewrite H. cbn [fst snd rendered]. split; [reflexivity |].
    split; [repeat split |]. split; [| discriminate].
    intros l' cl' cards' [= <- <- <-]. split; [reflexivity |].
    unfold view in Hview.
    destruct (Get wx "location") as [location |]; [| discriminate]. cbn in Hview.
    destruct (locLine location); [| discriminate]. cbn in Hview.
    destruct (Get wx "current") as [c |]; [| discriminate]. cbn in Hview.
    destruct (currentLine c); [| discriminate]. cbn in Hview.
    destruct (Get wx "forecast") as [[| | | | | fs | |] |]; try discriminate. cbn in Hview.
    destruct (mapM card fs) as [ms |] eqn:Hms; [| discriminate].
    injection Hview as _ _ ->. exists fs. split; [reflexivity |].
    apply mapM_Some in Hms. exact Hms.
  - destruct H as (p' & -> & Hh & Hs). cbn [fst snd].
    split; [exact Hh |]. split; [exact Hs |]. split; [discriminate | reflexivity].
Qed.

End Rendering.

Section Running.

Import Client.

Implicit Types (srv : server) (typed city : string) (wx ai : value) (p : page).

Lemma bind_fetch_page {B : Type} srv (r : request) (k : bool * option value -> R B) p :
  (x ← fetch srv r; k x) p
  = match srv r with
    | NoAnswer => (inr Raised, log r p)
    | Answer ok j => k (ok, j) (log r p)
    end.
Proof. unfold mbind, R_bind, fetch. now destruct (srv r). Qed.

Lemma bind_check {B : Type} (ok : bool) (data : value) (fallback : string)
    (k : unit -> R B) p :
  (x ← check ok data fallback; k x) p
  = if ok then k tt p else (inr (thrown_for data fallback), p).
Proof.
  unfold check, thrown_for. destruct ok; cbn [negb]; [reflexivity |].
  unfold mbind, R_bind, engine, raise.
  destruct (Get data "error") as [e |]; [| reflexivity].
  now destruct (ToString (or e (VStr fallback))).
Qed.

(** What a response to the advice request leads to, the page being [p]
    when it comes. *)
Lemma advice_cases srv wx p :
  (aiRes ← fetch srv (PostAdvice wx);
   ai ← engine (snd aiRes);
   _ ← check (fst aiRes) ai "AI error";
   advice ← engine (Get ai "advice");
   _ ← renderTips advice;
   setStatus "Done.") p
  = match srv (PostAdvice wx) with
    | Answer true (Some ai) =>
        match Get ai "advice" with
        | Some (VStr a) =>
            (inl tt, set_status (Text "Done.")
                       (set_tips (tips_shown a) (log (PostAdvice wx) p)))
        | _ => (inr Raised, log (PostAdvice wx) p)
        end
    | Answer false (Some ai) => (inr (thrown_for ai "AI error"), log (PostAdvice wx) p)
    | _ => (inr Raised, log (PostAdvice wx) p)
    end.
Proof.
  rewrite bind_fetch_page. destruct (srv (PostAdvice wx)) as [| ok j]; [reflexivity |].
  cbn [fst snd]. rewrite bind_engine. destruct j as [ai |]; [| now destruct ok].
  rewrite bind_check. destruct ok; [| reflexivity].
  rewrite bind_engine. destruct (Get ai "advice") as [advice |]; [| reflexivity].
  destruct advice; try reflexivity.
  unfold renderTips, tips_shown, mbind, R_bind, update, setStatus.
  now destruct (tip_lines s).
Qed.

(** One run, case by case. *)
Lemma run_cases srv typed p :
  run srv typed p
  = let city := Str.trim typed in
    if Str.is_empty city then set_status (Text "Please enter a city.") p
    else
      match srv (GetWeather city) with
      | Answer true (Some wx) =>
          match view wx with
          | Some v =>
              match srv (PostAdvice wx) with
              | Answer true (Some ai) =>
                  match Get ai "advice" with
                  | Some (VStr a) =>
                      set_status (Text "Done.")
                        (set_tips (tips_shown a) (generating city wx v p))
                  | _ => report Raised (generating city wx v p)
                  end
              | Answer false (Some ai) =>
                  report (thrown_for ai "AI error") (generating city wx v p)
              | _ => report Raised (generating city wx v p)
              end
          | None => report Raised (snd (renderWeather wx (loading city p)))
          end
      | Answer false (Some wx) => report (thrown_for wx "Weather error") (loading city p)
      | _ => report Raised (loading city p)
      end.
Proof.
  unfold run. cbn zeta. destruct (Str.is_empty (Str.trim typed)); [reflexivity |].
  unfold attempt. rewrite bind_fetch_page. fold (loading (Str.trim typed) p).
  destruct (srv (GetWeather (Str.trim typed))) as [| ok j]; [reflexivity |].
  cbn [fst snd]. rewrite bind_engine. destruct j as [wx |]; [| now destruct ok].
  rewrite bind_check. destruct ok; [| reflexivity].
  pose proof (renderWeather_cases wx (loading (Str.trim typed) p)) as Hr.
  unfold mbind at 1, R_bind at 1.
  destruct (view wx) as [v |].
  - rewrite Hr. unfold mbind at 1, R_bind at 1, setStatus at 1, update at 1.
    rewrite advice_cases. unfold generating.
    destruct (srv (PostAdvice wx)) as [| [|] [ai |]]; try reflexivity.
    destruct (Get ai "advice") as [[| | | | a | | |] |]; reflexivity.
  - destruct Hr as (p' & -> & _). reflexivity.
Qed.

(** What the updates of the page leave alone. *)
Lemma sent_loading city p : sent (loading city p) = sent p ++ [GetWeather city].
Proof. reflexivity. Qed.

Lemma sent_generating city wx (v : string * string * list string) p :
  sent (generating city wx v p) = sent p ++ [GetWeather city; PostAdvice wx].
Proof. destruct v as [[l cl] cards]. cbn. now rewrite <- app_assoc. Qed.

Lemma sent_report (e : exn) p : sent (report e p) = sent p.
Proof. reflexivity. Qed.

Lemma hidden_generating city wx (v : string * string * list string) p :
  hidden (generating city wx v p) = false.
Proof. now destruct v as [[l cl] cards]. Qed.

Lemma failed_status (e : exn) p (msg : string) :
  (forall m, msg <> "Failed: " +:+ m) -> elStatus (report e p) <> Text msg.
Proof.
  intros Hmsg. unfold report. cbn. destruct e as [m |]; [| discriminate].
  intros [= H]. now apply (Hmsg m).
Qed.

Lemma is_empty_false (s : string) : Str.is_empty s = false <-> s <> "".
Proof. destruct s; cbn; split; congruence. Qed.

(** X19. The requests of one run: none for a blank input; otherwise the
    weather request for the trimmed text, and after it the advice request
    exactly when the weather request was answered [ok] with a payload that
    renders, carrying that payload.  Nothing else is ever sent. *)
Theorem run_requests srv typed p :
  exists made,
    sent (run srv typed p) = sent p ++ made
    /\ (Str.trim typed = "" -> made = [])
    /\ (Str.trim typed <> "" ->
        (exists wx, weather_ok srv (Str.trim typed) wx /\ is_Some (view wx)
                    /\ made = [GetWeather (Str.trim typed); PostAdvice wx])
        \/ ((forall wx, weather_ok srv (Str.trim typed) wx -> view wx = None)
            /\ made = [GetWeather (Str.trim typed)])).
Proof.
  rewrite run_cases. cbn zeta. set (city := Str.trim typed).
  destruct (Str.is_empty city) eqn:He.
  { apply is_empty_true in He. exists []. split; [cbn; now rewrite app_nil_r |].
    split; [reflexivity | congruence]. }
  apply is_empty_false in He. unfold weather_ok.
  destruct (srv (GetWeather city)) as [| [|] [wx |]];
    try (exists [GetWeather city]; split; [reflexivity |];
         split; [congruence |]; intros _; right; split; [discriminate | reflexivity]).
  destruct (view wx) as [v |] eqn:Hv.
  - exists [GetWeather city; PostAdvice wx]. split.
    + destruct (srv (PostAdvice wx)) as [| [|] [ai |]];
        try (rewrite sent_report; apply sent_generating).
      destruct (Get ai "advice") as [[| | | | a | | |] |];
        try (rewrite sent_report; apply sent_generating).
      cbn [sent set_status set_tips]. apply sent_generating.
    + split; [congruence |]. intros _. left. exists wx.
      split; [reflexivity |]. split; [rewrite Hv; eauto | reflexivity].
  - exists [GetWeather city]. split.
    + rewrite sent_report.
      pose proof (renderWeather_cases wx (loading city p)) as Hr. rewrite Hv in Hr.
      destruct Hr as (p' & -> & _ & _ & _ & Hsent). cbn [snd]. now rewrite Hsent.
    + split; [congruence |]. intros _. right. split; [| reflexivity].
      now intros wx' [= <-].
Qed.

(** X20. How a run ends.  The status line is never left at "Loading…" or
    at "Generating tips…".  It says "Done." exactly when the input was not
    blank, the weather request was answered [ok] with a payload that
    renders, and the advice request was answered [ok] with a string as
    [advice]; the tips on the page are then those of that string and the
    panel is revealed.  It says "Please enter a city." exactly when the
    input was blank. *)
Theorem run_status srv typed p :
  elStatus (run srv typed p) <> Text "Loading…"
  /\ elStatus (run srv typed p) <> Text "Generating tips…"
  /\ (elStatus (run srv typed p) = Text "Done."
      <-> Str.trim typed <> ""
          /\ exists wx a, weather_ok srv (Str.trim typed) wx /\ is_Some (view wx)
                          /\ advice_ok srv wx a)
  /\ (forall wx a, Str.trim typed <> "" -> weather_ok srv (Str.trim typed) wx ->
        is_Some (view wx) -> advice_ok srv wx a ->
        elTips (run srv typed p) = tips_shown a /\ hidden (run srv typed p) = false)
  /\ (elStatus (run srv typed p) = Text "Please enter a city." <-> Str.trim typed = "").
Proof.
  rewrite run_cases. cbn zeta. set (city := Str.trim typed).
  unfold weather_ok, advice_ok.
  destruct (Str.is_empty city) eqn:He.
  { apply is_empty_true in He. cbn [elStatus set_status].
    split; [discriminate |]. split; [discriminate |].
    split; [split; [discriminate | now intros [Hne _]] |].
    split; [intros wx a Hne; now contradiction Hne | now split]. }
  apply is_empty_false in He.
  assert (Hfailed : forall (e : exn) (q : page),
            elStatus (report e q) <> Text "Loading…"
            /\ elStatus (report e q) <> Text "Generating tips…"
            /\ elStatus (report e q) <> Text "Done."
            /\ elStatus (report e q) <> Text "Please enter a city.").
  { intros e q. repeat split; apply failed_status; intros m; cbn; discriminate. }
  destruct (srv (GetWeather city)) as [| [|] [wx |]] eqn:Hwx.
  1, 3, 4, 5:
    destruct (Hfailed Raised (loading city p)) as (H1 & H2 & H3 & H4);
    destruct (Hfailed (thrown_for wx "Weather error") (loading city p))
      as (H1' & H2' & H3' & H4') || idtac.
  all: try solve
    [ split; [assumption |]; split; [assumption |];
      split; [split; [intros H; now contradiction H
                     | intros (_ & wx' & a & [=] & _)] |];
      split; [intros wx' a _ [=] | split; [intros H; now contradiction H | congruence]] ].
  destruct (view wx) as [v |] eqn:Hv.
  2: { destruct (Hfailed Raised (snd (renderWeather wx (loading city p))))
         as (H1 & H2 & H3 & H4).
       split; [assumption |]. split; [assumption |].
       split; [split; [intros H; now contradiction H
                      | intros (_ & wx' & a & [= <-] & [? Hs] & _); congruence] |].
       split; [intros wx' a _ [= <-] [? Hs]; congruence |].
       split; [intros H; now contradiction H | congruence]. }
  assert (Hmiss : forall q : page,
            (forall ai a, srv (PostAdvice wx) = Answer true (Some ai) ->
                          Get ai "advice" <> Some (VStr a)) ->
            forall e,
              elStatus (report e q) <> Text "Loading…"
              /\ elStatus (report e q) <> Text "Generating tips…"
              /\ (elStatus (report e q) = Text "Done."
                  <-> city <> ""
                      /\ exists wx0 a, Answer true (Some wx) = Answer true (Some wx0)
                           /\ is_Some (view wx0)
                           /\ exists ai, srv (PostAdvice wx0) = Answer true (Some ai)
                                         /\ Get ai "advice" = Some (VStr a))
              /\ (forall wx0 a, city <> "" ->
                    Answer true (Some wx) = Answer true (Some wx0) ->
                    is_Some (view wx0) ->
                    (exists ai, srv (PostAdvice wx0) = Answer true (Some ai)
                                /\ Get ai "advice" = Some (VStr a)) ->
                    elTips (report e q) = tips_shown a /\ hidden (report e q) = false)
              /\ (elStatus (report e q) = Text "Please enter a city." <-> city = "")).
  { intros q Hno e. destruct (Hfailed e q) as (H1 & H2 & H3 & H4).
    split; [assumption |]. split; [assumption |].
    split; [split; [intros H; now contradiction H
                   | intros (_ & wx0 & a & [= <-] & _ & ai & Hai & Ha);
                     now contradiction (Hno ai a Hai)] |].
    split; [intros wx0 a _ [= <-] _ (ai & Hai & Ha); now contradiction (Hno ai a Hai) |].
    split; [intros H; now contradiction H | congruence]. }
  destruct (srv (PostAdvice wx)) as [| [|] [ai |]] eqn:Hai;
    try (apply Hmiss; intros ai' a' [=]).
  destruct (Get ai "advice") as [[| | | | a | | |] |] eqn:Ha;
    try (apply Hmiss; intros ai' a' [= <-]; congruence).
  cbn [elStatus set_status elTips set_tips hidden].
  split; [discriminate |]. split; [discriminate |].
  split; [split; [intros _; split; [exact He |]; exists wx, a;
                  split; [reflexivity |]; split; [rewrite Hv; eauto | eauto]
                 | reflexivity] |].
  split.
  - intros wx0 a0 _ [= <-] _ (ai0 & Hai0 & Ha0).
    rewrite Hai in Hai0. injection Hai0 as <-. rewrite Ha in Ha0. injection Ha0 as <-.
    split; [reflexivity | apply hidden_generating].
  - split; [discriminate | congruence].
Qed.

Lemma white_space_not_nil :
  List.Forall (fun seq : list ascii => seq <> []) Str.white_space.
Proof. vm_compute. repeat constructor; discriminate. Qed.

Lemma white_space_rev_not_nil :
  List.Forall (fun seq : list ascii => seq <> []) (map (@rev ascii) Str.white_space).
Proof. vm_compute. repeat constructor; discriminate. Qed.

(** Trimming what is trimmed changes nothing. *)
Lemma trim_trim (s : string) : Str.trim (Str.trim s) = Str.trim s.
Proof.
  unfold Str.trim. rewrite to_list_of_list. f_equal.
  set (A := Str.trimStart_list (Str.to_list s)). set (B := Str.trimEnd_list A).
  assert (HA : Str.strip_any Str.white_space A = None)
    by (apply drop_ws_done; [apply white_space_not_nil | reflexivity]).
  assert (HB : Str.strip_any Str.white_space B = None).
  { destruct (trimEnd_prefix A) as (post & Hpost). fold B in Hpost.
    destruct (Str.strip_any Str.white_space B) as [r |] eqn:Hr; [| reflexivity].
    assert (is_Some (Str.strip_any Str.white_space (B ++ post))) as [r' Hr']
      by (apply strip_any_app_r; rewrite Hr; eauto).
    rewrite <- Hpost, HA in Hr'. discriminate Hr'. }
  assert (Hstart : Str.trimStart_list B = B) by (now apply drop_ws_nothing).
  rewrite Hstart. unfold Str.trimEnd_list.
  assert (Hrev : rev B
                 = Str.drop_ws (map (@rev ascii) Str.white_space) (List.length A) (rev A))
    by (unfold B, Str.trimEnd_list; apply rev_involutive).
  rewrite drop_ws_nothing; [apply rev_involutive |].
  rewrite Hrev. apply drop_ws_done; [apply white_space_rev_not_nil |].
  now rewrite length_rev.
Qed.

(** The answers of the weather route other than 200. *)
Lemma handler_error (w : upstream) (t_get t_set : Z) (q : value) (s : state) :
  status (fst (handler w t_get t_set q s)) <> 200 ->
  (city_of q = Some "" /\ fst (handler w t_get t_set q s) = error 400 "city is required")
  \/ fst (handler w t_get t_set q s) = error 404 "City not found"
  \/ fst (handler w t_get t_set q s) = error 500 "Server error fetching weather".
Proof.
  unfold handler.
  destruct (route w t_get t_set q s) as [[r |] s'] eqn:E; cbn [fst]; [| auto].
  apply route_Some_answered in E. intros Hst.
  destruct E; [left; now split | now contradiction Hst | auto | now contradiction Hst].
Qed.

(** Every answer of the advice route is a text under [advice]. *)
Lemma advice_handler_body (cfg : config) (openai : service) (payload : value) :
  exists a, Advice.body (Advice.handler cfg openai payload) = VObj [("advice", VStr a)].
Proof.
  unfold Advice.handler.
  destruct (Advice.route cfg openai payload) as [r |] eqn:E; [| now exists last_resort].
  destruct (route_Some _ _ _ _ E) as (a & -> & _). now exists a.
Qed.

(** X21. A weather request that is not answered [ok], or whose answer is
    not JSON, is the one case in which a run with a city leaves the
    results panel hidden: the results of an earlier run stay as they
    were, out of sight, one request has been sent, and the status line
    starts with "Failed: ", followed by the text under [error] when the
    body carries one, and by "Weather error" when what is under [error]
    is missing or falsy. *)
Theorem weather_failure_hides_results srv typed p :
  Str.trim typed <> "" ->
  (hidden (run srv typed p) = true <-> forall wx, ~ weather_ok srv (Str.trim typed) wx)
  /\ ((forall wx, ~ weather_ok srv (Str.trim typed) wx) ->
      same_results p (run srv typed p)
      /\ sent (run srv typed p) = sent p ++ [GetWeather (Str.trim typed)]
      /\ (elStatus (run srv typed p) = FailedByEngine
          \/ exists m, elStatus (run srv typed p) = Text ("Failed: " +:+ m)))
  /\ (forall msg : string, msg <> "" ->
        srv (GetWeather (Str.trim typed))
        = Answer false (Some (VObj [("error", VStr msg)])) ->
        elStatus (run srv typed p) = Text ("Failed: " +:+ msg))
  /\ (forall data e,
        srv (GetWeather (Str.trim typed)) = Answer false (Some data) ->
        Get data "error" = Some e -> truthy e = false ->
        elStatus (run srv typed p) = Text "Failed: Weather error").
Proof.
  intros Hne. rewrite run_cases. cbn zeta. set (city := Str.trim typed) in *.
  apply is_empty_false in Hne. rewrite Hne. unfold weather_ok.
  assert (Hreport : forall e : exn,
            same_results p (report e (loading city p))
            /\ sent (report e (loading city p)) = sent p ++ [GetWeather city]
            /\ (elStatus (report e (loading city p)) = FailedByEngine
                \/ exists m, elStatus (report e (loading city p))
                             = Text ("Failed: " +:+ m))).
  { intros e. split; [repeat split |]. split; [reflexivity |].
    destruct e as [m |]; [right; now exists m | now left]. }
  destruct (srv (GetWeather city)) as [| [|] [wx |]] eqn:Hwx.
  2: { split.
       - split; [| intros H; now contradiction (H wx)].
         intros Hh. exfalso. revert Hh.
         pose proof (renderWeather_cases wx (loading city p)) as Hr.
         destruct (view wx) as [v |].
         + assert (forall q : page, hidden q = false -> hidden q = true -> False)
             as Hno by (intros q -> ; discriminate).
           destruct (srv (PostAdvice wx)) as [| [|] [ai |]];
             try (apply Hno; apply hidden_generating).
           destruct (Get ai "advice") as [[| | | | a | | |] |];
             apply Hno; apply hidden_generating.
         + destruct Hr as (p' & -> & Hh & _). cbn. rewrite Hh. discriminate.
       - split; [intros H; now contradiction (H wx) |]. split; discriminate. }
  all: split; [split; [discriminate | reflexivity] |].
  all: split; [intros _; apply Hreport |].
  all: split; try discriminate.
  - intros msg Hmsg [= ->]. unfold thrown_for, report. cbn.
    destruct msg; [now contradiction Hmsg | reflexivity].
  - intros data e [= <-] He Ht. unfold thrown_for, report, or. now rewrite He, Ht.
Qed.

(** X22. The page against the weather route.  When the weather request
    is answered by the route's response for the city sent, and that
    response is not a 200, the status line reads "Failed: City not found"
    or "Failed: Server error fetching weather", the panel stays hidden and
    no advice is asked for.  The route's "city is required" is never
    shown: the page sends no blank city. *)
Theorem weather_errors_are_shown (w : upstream) (t_get t_set : Z) (s : state)
    srv typed p :
  Str.trim typed <> "" ->
  status (fst (handler w t_get t_set (VStr (Str.trim typed)) s)) <> 200 ->
  srv (GetWeather (Str.trim typed))
  = Answer false (Some (body (fst (handler w t_get t_set (VStr (Str.trim typed)) s)))) ->
  (elStatus (run srv typed p) = Text "Failed: City not found"
   \/ elStatus (run srv typed p) = Text "Failed: Server error fetching weather")
  /\ hidden (run srv typed p) = true
  /\ sent (run srv typed p) = sent p ++ [GetWeather (Str.trim typed)].
Proof.
  intros Hne Hst Hsrv. rewrite run_cases. cbn zeta.
  apply is_empty_false in Hne as He. rewrite He, Hsrv.
  destruct (handler_error _ _ _ _ _ Hst) as [[Hcity _] | [-> | ->]].
  - rewrite city_of_string, trim_trim in Hcity. congruence.
  - split; [now left | split; reflexivity].
  - split; [now right | split; reflexivity].
Qed.

(** X23. The page against the advice route.  Once the weather is on the
    page, whatever the advice route answers, for whatever body,
    configuration and completion service, the run ends with "Done." and
    with one tip or more on the page, those of the route's text. *)
Theorem advice_answer_is_always_shown (cfg : config) (openai : service)
    (payload : value) srv typed p wx :
  Str.trim typed <> "" ->
  weather_ok srv (Str.trim typed) wx ->
  is_Some (view wx) ->
  srv (PostAdvice wx)
  = Answer true (Some (Advice.body (Advice.handler cfg openai payload))) ->
  elStatus (run srv typed p) = Text "Done."
  /\ hidden (run srv typed p) = false
  /\ elTips (run srv typed p) <> []
  /\ exists a, Advice.body (Advice.handler cfg openai payload) = VObj [("advice", VStr a)]
               /\ elTips (run srv typed p) = tips_shown a.
Proof.
  intros Hne Hwx [v Hv] Hai. rewrite run_cases. cbn zeta.
  apply is_empty_false in Hne as He. unfold weather_ok in Hwx.
  rewrite He, Hwx, Hv, Hai.
  destruct (advice_handler_body cfg openai payload) as (a & Ha). rewrite Ha.
  cbn [Get own String.eqb Ascii.eqb Bool.eqb].
  change (Get (VObj [("advice", VStr a)]) "advice") with (Some (VStr a)).
  cbn [elStatus set_status hidden elTips set_tips].
  split; [reflexivity |]. split; [apply hidden_generating |].
  split; [unfold tips_shown; destruct (tip_lines a); discriminate |].
  exists a. split; reflexivity.
Qed.

End Running.

Lemma upstream_calls_witness :
  exists made,
    calls (snd (handler paris_world 0 5 (VStr "  ") paris_cached))
    = calls paris_cached ++ made
    /\ made = [].
Proof.
  destruct (upstream_calls paris_world 0 5 (VStr "  ") paris_cached)
    as (made & Hcalls & _ & H400 & _).
  exists made. split; [exact Hcalls |]. apply H400. vm_compute. reflexivity.
Defined.

Lemma renderTips_shows_something_witness :
  Client.renderTips VNull blank_page = (inr Client.Raised, blank_page).
Proof.
  apply (proj2 (proj2 (proj2 (renderTips_shows_something "" blank_page)))).
  discriminate.
Defined.

Lemma rule_engine_text_is_rendered_witness :
  Client.renderTips (VStr (bullets [Hot; Humid])) blank_page
  = (inl tt, Client.set_tips (map tip_text [Hot; Humid]) blank_page).
Proof.
  apply (proj1 (rule_engine_text_is_rendered blank_page)). discriminate.
Defined.

Lemma renderWeather_shows_the_view_witness :
  exists l cl cards,
    Client.renderWeather paris_payload blank_page
    = (inl tt,
       Client.set_cards cards
         (Client.set_current cl (Client.set_loc l (Client.set_hidden false blank_page))))
    /\ l = "Paris, FR" /\ List.length cards = 2%nat.
Proof.
  destruct (view paris_payload) as [[[l cl] cards] |] eqn:Hview;
    [| vm_compute in Hview; discriminate Hview].
  exists l, cl, cards.
  destruct (proj1 (proj2 (proj2 (renderWeather_shows_the_view paris_payload blank_page)))
              l cl cards Hview) as [Hrender _].
  split; [exact Hrender |].
  vm_compute in Hview. injection Hview as <- _ <-. split; reflexivity.
Defined.

Lemma run_requests_witness :
  exists made,
    Client.sent (Client.run paris_server "   " blank_page) = Client.sent blank_page ++ made
    /\ made = [].
Proof.
  destruct (run_requests paris_server "   " blank_page) as (made & Hsent & Hblank & _).
  exists made. split; [exact Hsent |]. apply Hblank. vm_compute. reflexivity.
Defined.

Lemma run_status_witness :
  Client.elStatus (Client.run paris_server " Paris " blank_page) = Client.Text "Done.".
Proof.
  apply (proj1 (proj2 (proj2 (run_status paris_server " Paris " blank_page)))).
  split; [vm_compute; discriminate |].
  exists paris_payload, (bullets [Pleasant; ClearSkies]).
  split; [reflexivity |]. split; [vm_compute; eauto |].
  eexists. split; reflexivity.
Defined.

Lemma weather_failure_hides_results_witness :
  Client.hidden (Client.run down_server " Paris " blank_page) = true
  /\ Client.elStatus (Client.run lost_server " Paris " blank_page)
     = Client.Text ("Failed: " +:+ "City not found").
Proof.
  split.
  - apply (proj1 (weather_failure_hides_results down_server " Paris " blank_page
                    ltac:(vm_compute; discriminate))).
    intros wx. unfold weather_ok, down_server. discriminate.
  - apply (proj1 (proj2 (proj2 (weather_failure_hides_results lost_server " Paris "
                                  blank_page ltac:(vm_compute; discriminate))))).
    + discriminate.
    + reflexivity.
Defined.

Lemma weather_errors_are_shown_witness :
  (Client.elStatus (Client.run lost_server " Atlantis " blank_page)
   = Client.Text "Failed: City not found"
   \/ Client.elStatus (Client.run lost_server " Atlantis " blank_page)
      = Client.Text "Failed: Server error fetching weather")
  /\ Client.hidden (Client.run lost_server " Atlantis " blank_page) = true
  /\ Client.sent (Client.run lost_server " Atlantis " blank_page)
     = Client.sent blank_page ++ [Client.GetWeather (Str.trim " Atlantis ")].
Proof.
  apply (weather_errors_are_shown nowhere_world 0 5 fresh lost_server " Atlantis "
           blank_page).
  - vm_compute. discriminate.
  - vm_compute. discriminate.
  - vm_compute. reflexivity.
Defined.

Lemma advice_answer_is_always_shown_witness :
  Client.elStatus (Client.run mock_server " Paris " blank_page) = Client.Text "Done."
  /\ Client.hidden (Client.run mock_server " Paris " blank_page) = false
  /\ Client.elTips (Client.run mock_server " Paris " blank_page) <> []
  /\ exists a,
       Advice.body (Advice.handler (Startup.config_of mock_env) unreachable paris_payload)
       = VObj [("advice", VStr a)]
       /\ Client.elTips (Client.run mock_server " Paris " blank_page) = tips_shown a.
Proof.
  apply (advice_answer_is_always_shown
           (Startup.config_of mock_env) unreachable paris_payload
           mock_server " Paris " blank_page paris_payload).
  - vm_compute. discriminate.
  - reflexivity.
  - vm_compute. eauto.
  - reflexivity.
Defined.
